(** * SPDY/3 dissector (packet-spdy.c): shallow embedding and verification

    The development follows the layout of [packet-spdy.c]:

    - [Tvb]: the byte-buffer accessors of the host that the dissector calls;
    - the data model ([spdy_frame_info_t], [spdy_data_frame_t],
      [spdy_stream_info_t], [spdy_conv_t], [packet_info]);
    - a state-and-exception monad [M] in which the dissector's C functions
      are written, with the host's user-interface calls kept as a trace;
    - the functions of the source, in source order;
    - the properties of the driver loop, of the frame decoder, of the header
      block memo and of the body reassembler. *)

From Stdlib Require Import ZArith List String Bool Lia.
From Stdlib Require Import Strings.Byte.
Import ListNotations.
Local Open Scope Z_scope.

Set Implicit Arguments.

(** ** Bytes and big-endian integers *)

Definition byte_val (b : byte) : Z := Z.of_N (Byte.to_N b).

(** Most significant byte first, as every multi-byte field on the wire. *)
Definition be_combine (l : list byte) : Z :=
  fold_left (fun acc b => Z.lor (Z.shiftl acc 8) (byte_val b)) l 0.

(** The C conversions the source relies on, wrap-around written out. *)
Definition to_guint32 (z : Z) : Z := z mod 2 ^ 32.
Definition to_gint (z : Z) : Z := (z + 2 ^ 31) mod 2 ^ 32 - 2 ^ 31.

Definition len {A} (l : list A) : Z := Z.of_nat (List.length l).

(** ** The host's byte buffers *)

Module Tvb.

(** A tvbuff is modelled by its bytes; captured and reported length
    coincide. *)
Definition t := list byte.

(** [compute_offset]: a non-negative offset counts from the start, a
    negative one from the end; [None] is the bounds exception. *)
Definition compute_offset (tvb : t) (offset : Z) : option Z :=
  if 0 <=? offset then
    if offset <=? len tvb then Some offset else None
  else
    if - offset <=? len tvb then Some (len tvb + offset) else None.

Definition tvb_length (tvb : t) : Z := len tvb.

(** Bytes from [offset] to the end, or -1 when [offset] is out of range. *)
Definition tvb_length_remaining (tvb : t) (offset : Z) : Z :=
  match compute_offset tvb offset with
  | Some a => len tvb - a
  | None => -1
  end.

(** [n] bytes at [offset]; [None] when they are not all there. *)
Definition bytes_at (tvb : t) (offset n : Z) : option (list byte) :=
  match compute_offset tvb offset with
  | Some a =>
      if (0 <=? n) && (a + n <=? len tvb)
      then Some (firstn (Z.to_nat n) (skipn (Z.to_nat a) tvb))
      else None
  | None => None
  end.

Definition get_be (tvb : t) (offset n : Z) : option Z :=
  option_map be_combine (bytes_at tvb offset n).

Definition tvb_get_guint8 tvb offset := get_be tvb offset 1.
Definition tvb_get_ntohs tvb offset := get_be tvb offset 2.
Definition tvb_get_ntoh24 tvb offset := get_be tvb offset 3.
Definition tvb_get_ntohl tvb offset := get_be tvb offset 4.

(** [no_of_bits] bits starting [bit_offset] bits into the buffer, most
    significant bit first.  The octets touched are those that hold the
    bits, which is what the host reads for the shapes used by the
    dissector: (8k, 1), (8k, 3), (8k+1, 15) and (8k+1, 31). *)
Definition tvb_get_bits (tvb : t) (bit_offset no_of_bits : Z) : option Z :=
  let offset := Z.shiftr bit_offset 3 in
  let tot_no_bits := Z.land bit_offset 7 + no_of_bits in
  let octets := (tot_no_bits + 7) / 8 in
  match get_be tvb offset octets with
  | Some v =>
      Some (Z.land (Z.shiftr v (8 * octets - tot_no_bits))
                   (Z.ones no_of_bits))
  | None => None
  end.

Definition tvb_get_bits8 := tvb_get_bits.
Definition tvb_get_bits16 := tvb_get_bits.
Definition tvb_get_bits32 := tvb_get_bits.

(** [tvb_get_ptr]: length -1 asks for everything up to the end, any other
    negative length raises. *)
Definition tvb_get_ptr (tvb : t) (offset length : Z) : option (list byte) :=
  if length =? -1 then
    match compute_offset tvb offset with
    | Some a => Some (skipn (Z.to_nat a) tvb)
    | None => None
    end
  else bytes_at tvb offset length.

(** [tvb_new_subset] with equal backing and reported lengths. *)
Definition tvb_new_subset (tvb : t) (offset length : Z) : option t :=
  tvb_get_ptr tvb offset length.

(** [tvb_memdup] and [tvb_get_ephemeral_string] copy [length] bytes and
    raise on a negative length. *)
Definition tvb_memdup (tvb : t) (offset length : Z) : option (list byte) :=
  bytes_at tvb offset length.

(** Whether the host can attach an item covering [length] bytes at
    [start]; length -1 means up to the end of the buffer. *)
Definition item_in_bounds (tvb : t) (start length : Z) : bool :=
  match tvb_get_ptr tvb start length with
  | Some _ => true
  | None => false
  end.

End Tvb.
Export Tvb.

(** ** Constants of the source and of the libraries it is written against *)

Definition MIN_SPDY_VERSION : Z := 3.

Definition SPDY_FLAG_FIN : Z := 0x01.
Definition SPDY_FLAG_UNIDIRECTIONAL : Z := 0x02.
Definition SPDY_FLAG_SETTINGS_CLEAR_SETTINGS : Z := 0x01.

(** [spdy_frame_type_t]; the frame type travels as a [guint16] read from the
    wire, so the enumerators are kept as the integers they stand for. *)
Definition SPDY_DATA : Z := 0.
Definition SPDY_SYN_STREAM : Z := 1.
Definition SPDY_SYN_REPLY : Z := 2.
Definition SPDY_RST_STREAM : Z := 3.
Definition SPDY_SETTINGS : Z := 4.
Definition SPDY_NOOP : Z := 5.
Definition SPDY_PING : Z := 6.
Definition SPDY_GOAWAY : Z := 7.
Definition SPDY_HEADERS : Z := 8.
Definition SPDY_WINDOW_UPDATE : Z := 9.
Definition SPDY_CREDENTIAL : Z := 10.
Definition SPDY_INVALID : Z := 11.

Definition frame_type_names : list string :=
  [ "DATA"; "SYN_STREAM"; "SYN_REPLY"; "RST_STREAM"; "SETTINGS"; "NOOP";
    "PING"; "GOAWAY"; "HEADERS"; "WINDOW_UPDATE"; "CREDENTIAL";
    "INVALID" ]%string.

Definition rst_stream_status_names : list (Z * string) :=
  [ (1, "PROTOCOL_ERROR"); (2, "INVALID_STREAM"); (3, "REFUSED_STREAM");
    (4, "UNSUPPORTED_VERSION"); (5, "CANCEL"); (6, "INTERNAL_ERROR");
    (7, "FLOW_CONTROL_ERROR"); (8, "STREAM_IN_USE");
    (9, "STREAM_ALREADY_CLOSED"); (10, "INVALID_CREDENTIALS");
    (11, "FRAME_TOO_LARGE"); (12, "INVALID") ]%string.

Definition setting_id_names : list (Z * string) :=
  [ (1, "UPLOAD_BANDWIDTH"); (2, "DOWNLOAD_BANDWIDTH");
    (3, "ROUND_TRIP_TIME"); (4, "MAX_CONCURRENT_STREAMS");
    (5, "CURRENT_CWND"); (6, "DOWNLOAD_RETRANS_RATE");
    (7, "INITIAL_WINDOW_SIZE") ]%string.

(** zlib's return codes (zlib.h). *)
Definition Z_OK : Z := 0.
Definition Z_STREAM_END : Z := 1.
Definition Z_NEED_DICT : Z := 2.
Definition Z_STREAM_ERROR : Z := -2.
Definition Z_DATA_ERROR : Z := -3.
Definition Z_BUF_ERROR : Z := -5.

(** The host's request for one more segment of unknown size
    (epan/packet_info.h). *)
Definition DESEGMENT_ONE_MORE_SEGMENT : Z := 0x0fffffff.

Definition spdy_dictionary : list byte :=
  [ x00; x00; x00; x07; x6f; x70; x74; x69; x6f; x6e; x73; x00; x00; x00; x04; x68;
    x65; x61; x64; x00; x00; x00; x04; x70; x6f; x73; x74; x00; x00; x00; x03; x70;
    x75; x74; x00; x00; x00; x06; x64; x65; x6c; x65; x74; x65; x00; x00; x00; x05;
    x74; x72; x61; x63; x65; x00; x00; x00; x06; x61; x63; x63; x65; x70; x74; x00;
    x00; x00; x0e; x61; x63; x63; x65; x70; x74; x2d; x63; x68; x61; x72; x73; x65;
    x74; x00; x00; x00; x0f; x61; x63; x63; x65; x70; x74; x2d; x65; x6e; x63; x6f;
    x64; x69; x6e; x67; x00; x00; x00; x0f; x61; x63; x63; x65; x70; x74; x2d; x6c;
    x61; x6e; x67; x75; x61; x67; x65; x00; x00; x00; x0d; x61; x63; x63; x65; x70;
    x74; x2d; x72; x61; x6e; x67; x65; x73; x00; x00; x00; x03; x61; x67; x65; x00;
    x00; x00; x05; x61; x6c; x6c; x6f; x77; x00; x00; x00; x0d; x61; x75; x74; x68;
    x6f; x72; x69; x7a; x61; x74; x69; x6f; x6e; x00; x00; x00; x0d; x63; x61; x63;
    x68; x65; x2d; x63; x6f; x6e; x74; x72; x6f; x6c; x00; x00; x00; x0a; x63; x6f;
    x6e; x6e; x65; x63; x74; x69; x6f; x6e; x00; x00; x00; x0c; x63; x6f; x6e; x74;
    x65; x6e; x74; x2d; x62; x61; x73; x65; x00; x00; x00; x10; x63; x6f; x6e; x74;
    x65; x6e; x74; x2d; x65; x6e; x63; x6f; x64; x69; x6e; x67; x00; x00; x00; x10;
    x63; x6f; x6e; x74; x65; x6e; x74; x2d; x6c; x61; x6e; x67; x75; x61; x67; x65;
    x00; x00; x00; x0e; x63; x6f; x6e; x74; x65; x6e; x74; x2d; x6c; x65; x6e; x67;
    x74; x68; x00; x00; x00; x10; x63; x6f; x6e; x74; x65; x6e; x74; x2d; x6c; x6f;
    x63; x61; x74; x69; x6f; x6e; x00; x00; x00; x0b; x63; x6f; x6e; x74; x65; x6e;
    x74; x2d; x6d; x64; x35; x00; x00; x00; x0d; x63; x6f; x6e; x74; x65; x6e; x74;
    x2d; x72; x61; x6e; x67; x65; x00; x00; x00; x0c; x63; x6f; x6e; x74; x65; x6e;
    x74; x2d; x74; x79; x70; x65; x00; x00; x00; x04; x64; x61; x74; x65; x00; x00;
    x00; x04; x65; x74; x61; x67; x00; x00; x00; x06; x65; x78; x70; x65; x63; x74;
    x00; x00; x00; x07; x65; x78; x70; x69; x72; x65; x73; x00; x00; x00; x04; x66;
    x72; x6f; x6d; x00; x00; x00; x04; x68; x6f; x73; x74; x00; x00; x00; x08; x69;
    x66; x2d; x6d; x61; x74; x63; x68; x00; x00; x00; x11; x69; x66; x2d; x6d; x6f;
    x64; x69; x66; x69; x65; x64; x2d; x73; x69; x6e; x63; x65; x00; x00; x00; x0d;
    x69; x66; x2d; x6e; x6f; x6e; x65; x2d; x6d; x61; x74; x63; x68; x00; x00; x00;
    x08; x69; x66; x2d; x72; x61; x6e; x67; x65; x00; x00; x00; x13; x69; x66; x2d;
    x75; x6e; x6d; x6f; x64; x69; x66; x69; x65; x64; x2d; x73; x69; x6e; x63; x65;
    x00; x00; x00; x0d; x6c; x61; x73; x74; x2d; x6d; x6f; x64; x69; x66; x69; x65;
    x64; x00; x00; x00; x08; x6c; x6f; x63; x61; x74; x69; x6f; x6e; x00; x00; x00;
    x0c; x6d; x61; x78; x2d; x66; x6f; x72; x77; x61; x72; x64; x73; x00; x00; x00;
    x06; x70; x72; x61; x67; x6d; x61; x00; x00; x00; x12; x70; x72; x6f; x78; x79;
    x2d; x61; x75; x74; x68; x65; x6e; x74; x69; x63; x61; x74; x65; x00; x00; x00;
    x13; x70; x72; x6f; x78; x79; x2d; x61; x75; x74; x68; x6f; x72; x69; x7a; x61;
    x74; x69; x6f; x6e; x00; x00; x00; x05; x72; x61; x6e; x67; x65; x00; x00; x00;
    x07; x72; x65; x66; x65; x72; x65; x72; x00; x00; x00; x0b; x72; x65; x74; x72;
    x79; x2d; x61; x66; x74; x65; x72; x00; x00; x00; x06; x73; x65; x72; x76; x65;
    x72; x00; x00; x00; x02; x74; x65; x00; x00; x00; x07; x74; x72; x61; x69; x6c;
    x65; x72; x00; x00; x00; x11; x74; x72; x61; x6e; x73; x66; x65; x72; x2d; x65;
    x6e; x63; x6f; x64; x69; x6e; x67; x00; x00; x00; x07; x75; x70; x67; x72; x61;
    x64; x65; x00; x00; x00; x0a; x75; x73; x65; x72; x2d; x61; x67; x65; x6e; x74;
    x00; x00; x00; x04; x76; x61; x72; x79; x00; x00; x00; x03; x76; x69; x61; x00;
    x00; x00; x07; x77; x61; x72; x6e; x69; x6e; x67; x00; x00; x00; x10; x77; x77;
    x77; x2d; x61; x75; x74; x68; x65; x6e; x74; x69; x63; x61; x74; x65; x00; x00;
    x00; x06; x6d; x65; x74; x68; x6f; x64; x00; x00; x00; x03; x67; x65; x74; x00;
    x00; x00; x06; x73; x74; x61; x74; x75; x73; x00; x00; x00; x06; x32; x30; x30;
    x20; x4f; x4b; x00; x00; x00; x07; x76; x65; x72; x73; x69; x6f; x6e; x00; x00;
    x00; x08; x48; x54; x54; x50; x2f; x31; x2e; x31; x00; x00; x00; x03; x75; x72;
    x6c; x00; x00; x00; x06; x70; x75; x62; x6c; x69; x63; x00; x00; x00; x0a; x73;
    x65; x74; x2d; x63; x6f; x6f; x6b; x69; x65; x00; x00; x00; x0a; x6b; x65; x65;
    x70; x2d; x61; x6c; x69; x76; x65; x00; x00; x00; x06; x6f; x72; x69; x67; x69;
    x6e; x31; x30; x30; x31; x30; x31; x32; x30; x31; x32; x30; x32; x32; x30; x35;
    x32; x30; x36; x33; x30; x30; x33; x30; x32; x33; x30; x33; x33; x30; x34; x33;
    x30; x35; x33; x30; x36; x33; x30; x37; x34; x30; x32; x34; x30; x35; x34; x30;
    x36; x34; x30; x37; x34; x30; x38; x34; x30; x39; x34; x31; x30; x34; x31; x31;
    x34; x31; x32; x34; x31; x33; x34; x31; x34; x34; x31; x35; x34; x31; x36; x34;
    x31; x37; x35; x30; x32; x35; x30; x34; x35; x30; x35; x32; x30; x33; x20; x4e;
    x6f; x6e; x2d; x41; x75; x74; x68; x6f; x72; x69; x74; x61; x74; x69; x76; x65;
    x20; x49; x6e; x66; x6f; x72; x6d; x61; x74; x69; x6f; x6e; x32; x30; x34; x20;
    x4e; x6f; x20; x43; x6f; x6e; x74; x65; x6e; x74; x33; x30; x31; x20; x4d; x6f;
    x76; x65; x64; x20; x50; x65; x72; x6d; x61; x6e; x65; x6e; x74; x6c; x79; x34;
    x30; x30; x20; x42; x61; x64; x20; x52; x65; x71; x75; x65; x73; x74; x34; x30;
    x31; x20; x55; x6e; x61; x75; x74; x68; x6f; x72; x69; x7a; x65; x64; x34; x30;
    x33; x20; x46; x6f; x72; x62; x69; x64; x64; x65; x6e; x34; x30; x34; x20; x4e;
    x6f; x74; x20; x46; x6f; x75; x6e; x64; x35; x30; x30; x20; x49; x6e; x74; x65;
    x72; x6e; x61; x6c; x20; x53; x65; x72; x76; x65; x72; x20; x45; x72; x72; x6f;
    x72; x35; x30; x31; x20; x4e; x6f; x74; x20; x49; x6d; x70; x6c; x65; x6d; x65;
    x6e; x74; x65; x64; x35; x30; x33; x20; x53; x65; x72; x76; x69; x63; x65; x20;
    x55; x6e; x61; x76; x61; x69; x6c; x61; x62; x6c; x65; x4a; x61; x6e; x20; x46;
    x65; x62; x20; x4d; x61; x72; x20; x41; x70; x72; x20; x4d; x61; x79; x20; x4a;
    x75; x6e; x20; x4a; x75; x6c; x20; x41; x75; x67; x20; x53; x65; x70; x74; x20;
    x4f; x63; x74; x20; x4e; x6f; x76; x20; x44; x65; x63; x20; x30; x30; x3a; x30;
    x30; x3a; x30; x30; x20; x4d; x6f; x6e; x2c; x20; x54; x75; x65; x2c; x20; x57;
    x65; x64; x2c; x20; x54; x68; x75; x2c; x20; x46; x72; x69; x2c; x20; x53; x61;
    x74; x2c; x20; x53; x75; x6e; x2c; x20; x47; x4d; x54; x63; x68; x75; x6e; x6b;
    x65; x64; x2c; x74; x65; x78; x74; x2f; x68; x74; x6d; x6c; x2c; x69; x6d; x61;
    x67; x65; x2f; x70; x6e; x67; x2c; x69; x6d; x61; x67; x65; x2f; x6a; x70; x67;
    x2c; x69; x6d; x61; x67; x65; x2f; x67; x69; x66; x2c; x61; x70; x70; x6c; x69;
    x63; x61; x74; x69; x6f; x6e; x2f; x78; x6d; x6c; x2c; x61; x70; x70; x6c; x69;
    x63; x61; x74; x69; x6f; x6e; x2f; x78; x68; x74; x6d; x6c; x2b; x78; x6d; x6c;
    x2c; x74; x65; x78; x74; x2f; x70; x6c; x61; x69; x6e; x2c; x74; x65; x78; x74;
    x2f; x6a; x61; x76; x61; x73; x63; x72; x69; x70; x74; x2c; x70; x75; x62; x6c;
    x69; x63; x70; x72; x69; x76; x61; x74; x65; x6d; x61; x78; x2d; x61; x67; x65;
    x3d; x67; x7a; x69; x70; x2c; x64; x65; x66; x6c; x61; x74; x65; x2c; x73; x64;
    x63; x68; x63; x68; x61; x72; x73; x65; x74; x3d; x75; x74; x66; x2d; x38; x63;
    x68; x61; x72; x73; x65; x74; x3d; x69; x73; x6f; x2d; x38; x38; x35; x39; x2d;
    x31; x2c; x75; x74; x66; x2d; x2c; x2a; x2c; x65; x6e; x71; x3d; x30; x2e ].

(** ** Strings

    A C string is the list of its bytes before the terminating NUL. *)

Definition cstring := list byte.

Definition lit (s : string) : cstring := list_byte_of_string s.

(** The string seen through a pointer to a buffer: it stops at the first
    NUL. *)
Fixpoint c_str (buf : list byte) : cstring :=
  match buf with
  | [] => []
  | b :: rest => if Byte.eqb b x00 then [] else b :: c_str rest
  end.

Definition isspace (b : byte) : bool :=
  let c := byte_val b in (c =? 32) || ((9 <=? c) && (c <=? 13)).

Definition tolower (b : byte) : byte :=
  let c := byte_val b in
  if (65 <=? c) && (c <=? 90)
  then match Byte.of_N (Z.to_N (c + 32)) with Some b' => b' | None => b end
  else b.

(** glib's [g_ascii_strcasecmp]: the difference of the first two bytes that
    differ after lowering, 0 for equal strings. *)
Fixpoint g_ascii_strcasecmp (s1 s2 : cstring) : Z :=
  match s1, s2 with
  | c1 :: r1, c2 :: r2 =>
      if Byte.eqb (tolower c1) (tolower c2) then g_ascii_strcasecmp r1 r2
      else byte_val (tolower c1) - byte_val (tolower c2)
  | c1 :: _, [] => byte_val c1
  | [], c2 :: _ => - byte_val c2
  | [], [] => 0
  end.

(** [match_strval]: the name registered for a value, if any. *)
Fixpoint match_strval (v : Z) (vs : list (Z * string)) : option string :=
  match vs with
  | [] => None
  | (k, name) :: rest => if k =? v then Some name else match_strval v rest
  end.

(** ** What the host sees

    The calls into the host's user interface and into zlib are kept, in
    order, as a trace.  A formatted text is kept as its format string and
    its arguments; an item is kept with its field and its extent in the
    buffer it was read from. *)

Inductive arg :=
| AInt (z : Z)
| AStr (s : cstring)
| ALit (s : string)
| AFmt (fmt : string) (z : Z)
| ANull.

Inductive column := COL_PROTOCOL | COL_INFO.

(** The protocol-tree nodes, named after the C variables that hold them. *)
Inductive node :=
| n_tree | n_spdy_proto | n_spdy_tree | n_flags_ti | n_flags_tree
| n_setting_tree | n_setting_flags_tree | n_header_block_item | n_ti
| n_header | n_header_tree | n_e_ti | n_e_tree | n_ce_ti.

Inductive field :=
| proto_spdy | hf_spdy_data | hf_spdy_control_bit | hf_spdy_version
| hf_spdy_type | hf_spdy_flags | hf_spdy_flags_fin
| hf_spdy_flags_unidirectional | hf_spdy_flags_clear_settings
| hf_spdy_flags_persist_value | hf_spdy_flags_persisted | hf_spdy_length
| hf_spdy_header_block | hf_spdy_header | hf_spdy_header_name
| hf_spdy_header_value | hf_spdy_streamid | hf_spdy_associated_streamid
| hf_spdy_priority | hf_spdy_num_headers | hf_spdy_num_settings
| hf_spdy_setting | hf_spdy_setting_id | hf_spdy_setting_value.

Inductive expert_group := PI_MALFORMED | PI_PROTOCOL | PI_UNDECODED.
Inductive expert_severity := PI_ERROR.

(** Dissector handles are the names the dissectors are registered under. *)
Definition dissector_handle_t := string.
Definition data_handle : dissector_handle_t := "data"%string.
Definition media_handle : dissector_handle_t := "media"%string.

(** The two inflaters of a conversation, as the places a [z_streamp] of the
    source can point to. *)
Inductive z_streamp := rqst_decompressor | rply_decompressor.

Inductive event :=
| E_col_set_str (c : column) (s : string)
| E_col_add_str (c : column) (s : string)
| E_col_add_fstr (c : column) (fmt : string) (args : list arg)
| E_col_append_fstr (c : column) (fmt : string) (args : list arg)
| E_col_set_fence (c : column)
| E_proto_tree_add_item (parent : node) (hf : field) (start length : Z)
| E_proto_tree_add_bits_item (parent : node) (hf : field)
    (bit_offset no_of_bits : Z)
| E_proto_tree_add_text (parent : node) (start length : Z)
    (fmt : string) (args : list arg)
| E_proto_item_append_text (item : node) (fmt : string) (args : list arg)
| E_proto_item_set_len (item : node) (length : Z)
| E_expert_add_info_format (item : node) (g : expert_group)
    (s : expert_severity) (fmt : string) (args : list arg)
| E_add_new_data_source (tvb : Tvb.t) (name : string)
| E_call_dissector (h : dissector_handle_t) (tvb : option Tvb.t)
| E_inflate (strm : z_streamp) (retcode : Z)
| E_inflateSetDictionary (strm : z_streamp) (retcode : Z)
| E_g_free (data : list byte).

(** Exceptions of the host that unwind out of the dissector, and the
    behaviour C leaves undefined. *)
Inductive exn := ReportedBoundsError | DissectorError | Undefined.

(** ** The data model *)

(** [spdy_frame_info_t]: a decompressed header block kept with its packet. *)
Record spdy_frame_info_t := {
  fi_stream_id : Z;
  fi_header_block : list byte;
  fi_header_block_len : Z;
  fi_frame_type : Z
}.

(** [spdy_data_frame_t]: one DATA chunk of a stream; a freed buffer is a
    null [data] pointer. *)
Record spdy_data_frame_t := {
  df_data : option (list byte);
  df_length : Z;
  df_framenum : Z
}.

(** [spdy_stream_info_t]. *)
Record spdy_stream_info_t := {
  si_content_type : option cstring;
  si_content_type_parameters : option cstring;
  si_content_encoding : option cstring;
  si_data_frames : list spdy_data_frame_t;
  si_assembled_data : option Tvb.t;
  si_num_data_frames : Z
}.

(** The fields of [packet_info] and of its [frame_data] that the dissector
    reads or writes; [pfd] is the per-packet data of this protocol. *)
Record packet_info := {
  fd_num : Z;
  fd_visited : bool;
  pfd : list spdy_frame_info_t;
  match_port : Z;
  match_string : option cstring;
  private_data : option cstring;
  desegment_offset : Z;
  desegment_len : Z
}.

(** The user's preferences (the static booleans of the source). *)
Record prefs := {
  spdy_assemble_entity_bodies : bool;
  spdy_decompress_body : bool;
  spdy_decompress_headers : bool
}.

(** The host's dissector registries and helpers: [find_dissector_table]
    with [dissector_get_port_handle] and [dissector_get_string_handle], the
    value [call_dissector] returns, and [tvb_uncompress]. *)
Record host := {
  port_subdissector_table : option (Z -> option dissector_handle_t);
  media_type_subdissector_table :
    option (cstring -> option dissector_handle_t);
  call_dissector_ret : dissector_handle_t -> option Tvb.t -> Z;
  tvb_uncompress : Tvb.t -> option Tvb.t
}.

Section Dissector.

(** The internal state of an inflater. *)
Variable zs : Type.

(** What one call of [inflate] does: its return code, the new internal
    state, how many input bytes it took, the bytes it wrote and the
    checksum it leaves in [adler]. *)
Record inflate_result := {
  ir_ret : Z;
  ir_state : zs;
  ir_consumed : Z;
  ir_output : list byte;
  ir_adler : Z
}.

(** zlib, as far as the dissector uses it. *)
Record zlib := {
  zs_zero : zs;
  inflateInit_core : zs -> Z * zs;
  inflate_core : zs -> list byte -> Z -> inflate_result;
  inflateSetDictionary_core : zs -> list byte -> Z * zs;
  adler32 : Z -> option (list byte) -> Z
}.

(** [z_stream]: the input still to read, the output written so far into
    the buffer [next_out] started at, the room left there, the checksum
    field and the internal state. *)
Record z_stream := {
  z_next_in : list byte;
  z_out : list byte;
  z_avail_out : Z;
  z_adler : Z;
  z_state : zs
}.

(** Modelled from the spec: [spdy_conv_t] is declared in packet-spdy.h,
    which is not among the sources; its fields are those the source uses
    and section 3 of the specification lists: the stream array (indexed by
    stream id, null entries as [None], a null array as the empty one), one
    inflater per direction (null when header decompression was off at
    creation) and the Adler-32 of the dictionary. *)
Record spdy_conv_t := {
  streams : list (option spdy_stream_info_t);
  rqst : option z_stream;
  rply : option z_stream;
  dictionary_id : Z
}.

Variable Zl : zlib.
Variable Host : host.
Variable Prefs : prefs.

(** ** The dissector's monad: state, early [return], exceptions *)

Record state := {
  pinfo : packet_info;
  conv : spdy_conv_t;
  ui : list event
}.

Inductive outcome (A : Type) :=
| Val (a : A)
| Return (v : Z)
| Raise (e : exn).
Arguments Val {A} a.
Arguments Return {A} v.
Arguments Raise {A} e.

Definition M (A : Type) := state -> outcome A * state.

Definition ret {A} (a : A) : M A := fun s => (Val a, s).

Definition bind {A B} (m : M A) (k : A -> M B) : M B :=
  fun s =>
    match m s with
    | (Val a, s') => k a s'
    | (Return v, s') => (Return v, s')
    | (Raise e, s') => (Raise e, s')
    end.

Definition return_ {A} (v : Z) : M A := fun s => (Return v, s).
Definition throw {A} (e : exn) : M A := fun s => (Raise e, s).

(** A call: the callee's [return] is the value of the call. *)
Definition call (body : M Z) : M Z :=
  fun s =>
    match body s with
    | (Val v, s') => (Val v, s')
    | (Return v, s') => (Val v, s')
    | (Raise e, s') => (Raise e, s')
    end.

Definition get_pinfo : M packet_info := fun s => (Val (pinfo s), s).
Definition get_conv : M spdy_conv_t := fun s => (Val (conv s), s).
Definition put_pinfo (p : packet_info) : M unit :=
  fun s => (Val tt, {| pinfo := p; conv := conv s; ui := ui s |}).
Definition put_conv (c : spdy_conv_t) : M unit :=
  fun s => (Val tt, {| pinfo := pinfo s; conv := c; ui := ui s |}).
Definition emit (e : event) : M unit :=
  fun s => (Val tt, {| pinfo := pinfo s; conv := conv s; ui := ui s ++ [e] |}).

(** A buffer access raises the host's bounds exception when it fails. *)
Definition lift {A} (o : option A) : M A :=
  match o with
  | Some a => ret a
  | None => throw ReportedBoundsError
  end.

Definition when (b : bool) (m : M unit) : M unit :=
  if b then m else ret tt.


Local Notation "x <- m ;; k" := (bind m (fun x => k))
  (at level 61, m at next level, right associativity).
Local Notation "m ;; k" := (bind m (fun _ => k))
  (at level 61, right associativity).
Local Notation "' p <- m ;; k" :=
  (bind m (fun x => match x with p => k end))
  (at level 61, p pattern, m at next level, right associativity).

(** ** The host's user interface, as the dissector calls it

    A null tree or item makes the call do nothing, which is the [present]
    flag; an item that reaches past its buffer raises. *)

Definition col_set_str c s := emit (E_col_set_str c s).
Definition col_add_str c s := emit (E_col_add_str c s).
Definition col_add_fstr c fmt args := emit (E_col_add_fstr c fmt args).
Definition col_append_fstr c fmt args :=
  emit (E_col_append_fstr c fmt args).
Definition col_set_fence c := emit (E_col_set_fence c).

Definition proto_tree_add_item (present : bool) (parent : node)
    (hf : field) (tvb : Tvb.t) (start length : Z) : M unit :=
  when present
    (if item_in_bounds tvb start length
     then emit (E_proto_tree_add_item parent hf start length)
     else throw ReportedBoundsError).

Definition proto_tree_add_bits_item (present : bool) (parent : node)
    (hf : field) (tvb : Tvb.t) (bit_offset no_of_bits : Z) : M unit :=
  when present
    (_ <- lift (tvb_get_bits tvb bit_offset no_of_bits) ;;
     emit (E_proto_tree_add_bits_item parent hf bit_offset no_of_bits)).

Definition proto_tree_add_text (present : bool) (parent : node)
    (tvb : Tvb.t) (start length : Z) (fmt : string) (args : list arg)
    : M unit :=
  when present
    (if item_in_bounds tvb start length
     then emit (E_proto_tree_add_text parent start length fmt args)
     else throw ReportedBoundsError).

Definition proto_item_append_text (present : bool) (item : node)
    (fmt : string) (args : list arg) : M unit :=
  when present (emit (E_proto_item_append_text item fmt args)).

Definition proto_item_set_len (present : bool) (item : node) (length : Z)
    : M unit :=
  when present (emit (E_proto_item_set_len item length)).

Definition expert_add_info_format (item : node) (g : expert_group)
    (s : expert_severity) (fmt : string) (args : list arg) : M unit :=
  emit (E_expert_add_info_format item g s fmt args).

Definition add_new_data_source (tvb : Tvb.t) (name : string) : M unit :=
  emit (E_add_new_data_source tvb name).

Definition call_dissector (h : dissector_handle_t) (tvb : option Tvb.t)
    : M Z :=
  emit (E_call_dissector h tvb) ;;
  ret (call_dissector_ret Host h tvb).

(** [val_to_str]: the registered name, or the value through [fmt]. *)
Definition val_to_str (v : Z) (vs : list (Z * string)) (fmt : string)
    : arg :=
  match match_strval v vs with
  | Some name => ALit name
  | None => AFmt fmt v
  end.

(** ** Conversation data *)

(** [se_alloc0] followed by [inflateInit]. *)
Definition new_z_stream (st : zs) : z_stream :=
  {| z_next_in := []; z_out := []; z_avail_out := 0; z_adler := 0;
     z_state := st |}.

(** [get_or_create_spdy_conversation_data]: the conversation data found
    for the packet's flow, or fresh data.  The second inflater is only
    initialised when the first initialisation succeeded. *)
Definition get_or_create_spdy_conversation_data
    (conv_data : option spdy_conv_t) : spdy_conv_t :=
  match conv_data with
  | Some c => c
  | None =>
      if spdy_decompress_headers Prefs then
        let (retcode, rq) := inflateInit_core Zl (zs_zero Zl) in
        let rp := if retcode =? Z_OK
                  then snd (inflateInit_core Zl (zs_zero Zl))
                  else zs_zero Zl in
        {| streams := [];
           rqst := Some (new_z_stream rq);
           rply := Some (new_z_stream rp);
           dictionary_id :=
             adler32 Zl (adler32 Zl 0 None) (Some spdy_dictionary) |}
      else
        {| streams := []; rqst := None; rply := None; dictionary_id := 0 |}
  end.

(** ** Stream state *)

Definition g_array_index {A} (a : list (option A)) (i : Z) : option A :=
  nth (Z.to_nat i) a None.

(** [g_array_set_size] on a zero-filling array. *)
Definition g_array_set_size {A} (a : list (option A)) (n : Z)
    : list (option A) :=
  firstn (Z.to_nat n) a ++ repeat None (Z.to_nat n - List.length a).

Fixpoint list_set {A} (l : list A) (i : nat) (x : A) : list A :=
  match l, i with
  | [], _ => []
  | _ :: t, O => x :: t
  | h :: t, S j => h :: list_set t j x
  end.

Definition set_streams (c : spdy_conv_t)
    (a : list (option spdy_stream_info_t)) : spdy_conv_t :=
  {| streams := a; rqst := rqst c; rply := rply c;
     dictionary_id := dictionary_id c |}.

(** An assignment through a stream-info pointer: the array slot the
    pointer was read from gets the new record. *)
Definition store_stream_info (c : spdy_conv_t) (stream_id : Z)
    (si : spdy_stream_info_t) : spdy_conv_t :=
  set_streams c (list_set (streams c) (Z.to_nat stream_id) (Some si)).

Definition spdy_save_stream_info (stream_id : Z)
    (content_type content_type_params content_encoding : option cstring)
    : M unit :=
  c <- get_conv ;;
  (if stream_id <? len (streams c) then
     match g_array_index (streams c) stream_id with
     | Some _ => throw DissectorError
     | None => ret tt
     end
   else
     put_conv (set_streams c (g_array_set_size (streams c) (stream_id + 1)))) ;;
  c <- get_conv ;;
  put_conv
    (store_stream_info c stream_id
       {| si_content_type := content_type;
          si_content_type_parameters := content_type_params;
          si_content_encoding := content_encoding;
          si_data_frames := [];
          si_assembled_data := None;
          si_num_data_frames := 0 |}).

Definition spdy_get_stream_info (conv_data : spdy_conv_t) (stream_id : Z)
    : option spdy_stream_info_t :=
  if len (streams conv_data) <=? stream_id then None
  else g_array_index (streams conv_data) stream_id.

Definition spdy_add_data_chunk (conv_data : spdy_conv_t)
    (stream_id frame : Z) (data : list byte) (length : Z) : spdy_conv_t :=
  match spdy_get_stream_info conv_data stream_id with
  | None => conv_data
  | Some si =>
      let df := {| df_data := Some data; df_length := length;
                   df_framenum := frame |} in
      store_stream_info conv_data stream_id
        {| si_content_type := si_content_type si;
           si_content_type_parameters := si_content_type_parameters si;
           si_content_encoding := si_content_encoding si;
           si_data_frames := si_data_frames si ++ [df];
           si_assembled_data := si_assembled_data si;
           si_num_data_frames := to_guint32 (si_num_data_frames si + 1) |}
  end.

Definition spdy_increment_data_chunk_count (conv_data : spdy_conv_t)
    (stream_id : Z) : spdy_conv_t :=
  match spdy_get_stream_info conv_data stream_id with
  | None => conv_data
  | Some si =>
      store_stream_info conv_data stream_id
        {| si_content_type := si_content_type si;
           si_content_type_parameters := si_content_type_parameters si;
           si_content_encoding := si_content_encoding si;
           si_data_frames := si_data_frames si;
           si_assembled_data := si_assembled_data si;
           si_num_data_frames := to_guint32 (si_num_data_frames si + 1) |}
  end.

Definition spdy_get_num_data_frames (conv_data : spdy_conv_t)
    (stream_id : Z) : Z :=
  match spdy_get_stream_info conv_data stream_id with
  | None => 0
  | Some si => si_num_data_frames si
  end.

Definition set_si_data_frames (si : spdy_stream_info_t)
    (l : list spdy_data_frame_t) : spdy_stream_info_t :=
  {| si_content_type := si_content_type si;
     si_content_type_parameters := si_content_type_parameters si;
     si_content_encoding := si_content_encoding si;
     si_data_frames := l;
     si_assembled_data := si_assembled_data si;
     si_num_data_frames := si_num_data_frames si |}.

Definition set_si_assembled_data (si : spdy_stream_info_t)
    (tvb : option Tvb.t) : spdy_stream_info_t :=
  {| si_content_type := si_content_type si;
     si_content_type_parameters := si_content_type_parameters si;
     si_content_encoding := si_content_encoding si;
     si_data_frames := si_data_frames si;
     si_assembled_data := tvb;
     si_num_data_frames := si_num_data_frames si |}.

(** The first loop of [spdy_assemble_data_frames]: a [guint32] sum. *)
Definition datalen_of (dflist : list spdy_data_frame_t) : Z :=
  fold_left (fun datalen df => to_guint32 (datalen + df_length df)) dflist 0.

(** The second loop: [memcpy] of [length] bytes out of every chunk, in
    list order.  [None] is undefined behaviour: a null source, or a source
    shorter than [length]. *)
Fixpoint memcpy_chunks (dflist : list spdy_data_frame_t)
    : option (list byte) :=
  match dflist with
  | [] => Some []
  | df :: rest =>
      match df_data df, memcpy_chunks rest with
      | Some d, Some r =>
          if (0 <=? df_length df) && (df_length df <=? len d)
          then Some (firstn (Z.to_nat (df_length df)) d ++ r)
          else None
      | _, _ => None
      end
  end.

(** [spdy_assemble_data_frames]: the stream record, with its chunks
    concatenated into [assembled_data] if that was not done before.
    Copying more than the [datalen] bytes allocated is undefined. *)
Definition spdy_assemble_data_frames (stream_id : Z)
    : M (option spdy_stream_info_t) :=
  c <- get_conv ;;
  match spdy_get_stream_info c stream_id with
  | None => ret None
  | Some si =>
      match si_assembled_data si with
      | Some _ => ret (Some si)
      | None =>
          match si_data_frames si with
          | [] => ret (Some si)
          | dflist =>
              let datalen := datalen_of dflist in
              if datalen =? 0 then ret (Some si)
              else
                match memcpy_chunks dflist with
                | None => throw Undefined
                | Some data =>
                    if len data =? datalen then
                      let si' := set_si_assembled_data si (Some data) in
                      put_conv (store_stream_info c stream_id si') ;;
                      ret (Some si')
                    else throw Undefined
                end
          end
      end
  end.

(** The loop of [spdy_discard_data_frames]: every buffer still there is
    handed to [g_free] and its pointer nulled; the list cells stay. *)
Fixpoint discard_loop (dflist : list spdy_data_frame_t)
    : list spdy_data_frame_t * list (list byte) :=
  match dflist with
  | [] => ([], [])
  | df :: rest =>
      let (rest', freed) := discard_loop rest in
      match df_data df with
      | Some d =>
          ({| df_data := None; df_length := df_length df;
              df_framenum := df_framenum df |} :: rest', d :: freed)
      | None => (df :: rest', freed)
      end
  end.

(** [spdy_discard_data_frames]: the record after the call and the buffers
    freed, in order. *)
Definition spdy_discard_data_frames (si : spdy_stream_info_t)
    : spdy_stream_info_t * list (list byte) :=
  match si_data_frames si with
  | [] => (si, [])
  | dflist =>
      let (dflist', freed) := discard_loop dflist in
      (set_si_data_frames si dflist', freed)
  end.

Definition spdy_tvb_child_uncompress (tvb : Tvb.t) : option Tvb.t :=
  tvb_uncompress Host tvb.

(** ** Frame header decoration *)

Definition dissect_spdy_control_bit (tvb : Tvb.t) (offset : Z)
    (frame_tree : bool) : M unit :=
  proto_tree_add_bits_item frame_tree n_spdy_tree hf_spdy_control_bit tvb
    (offset * 8) 1.

Definition dissect_spdy_flags (tvb : Tvb.t) (offset : Z)
    (frame_tree : bool) (frame_type : Z) : M unit :=
  if negb frame_tree then ret tt
  else
    flags <- lift (tvb_get_guint8 tvb offset) ;;
    proto_tree_add_item true n_spdy_tree hf_spdy_flags tvb offset 1 ;;
    when ((frame_type =? SPDY_DATA) || (frame_type =? SPDY_SYN_STREAM)
          || (frame_type =? SPDY_SYN_REPLY) || (frame_type =? SPDY_HEADERS))
      (proto_tree_add_item true n_flags_tree hf_spdy_flags_fin tvb offset 1 ;;
       when (negb (Z.land flags SPDY_FLAG_FIN =? 0))
         (proto_item_append_text true n_spdy_tree " (FIN)" [] ;;
          proto_item_append_text true n_flags_ti " (FIN)" [])) ;;
    when (frame_type =? SPDY_SYN_STREAM)
      (proto_tree_add_item true n_flags_tree hf_spdy_flags_unidirectional
         tvb offset 1 ;;
       when (negb (Z.land flags SPDY_FLAG_UNIDIRECTIONAL =? 0))
         (proto_item_append_text true n_flags_ti " (UNIDIRECTIONAL)" [])) ;;
    when (frame_type =? SPDY_SETTINGS)
      (proto_tree_add_item true n_flags_tree hf_spdy_flags_clear_settings
         tvb offset 1 ;;
       when (negb (Z.land flags SPDY_FLAG_SETTINGS_CLEAR_SETTINGS =? 0))
         (proto_item_append_text true n_flags_ti " (CLEAR)" [])).

(** ** DATA frames

    [dissect_spdy_data_payload] is written as the sequence of its four
    parts; a part answers [None] where the source jumps to
    [body_dissected]. *)

Definition set_private_data (p : packet_info)
    (private match_str : option cstring) : packet_info :=
  {| fd_num := fd_num p; fd_visited := fd_visited p; pfd := pfd p;
     match_port := match_port p; match_string := match_str;
     private_data := private;
     desegment_offset := desegment_offset p;
     desegment_len := desegment_len p |}.

(** Creating the payload buffer and, on the first visit of a frame that is
    not a whole body by itself, recording the chunk (or only counting it).
    Answers [next_tvb] and [is_single_chunk]. *)
Definition data_record_chunk (tvb : Tvb.t) (offset : Z)
    (stream_id flags frame_length num_data_frames : Z)
    : M (option Tvb.t * bool) :=
  if negb (frame_length =? 0) then
    next_tvb <- lift (tvb_new_subset tvb offset frame_length) ;;
    let is_single_chunk :=
      (num_data_frames =? 0) && negb (Z.land flags SPDY_FLAG_FIN =? 0) in
    p <- get_pinfo ;;
    (if negb (fd_visited p) && negb is_single_chunk then
       if spdy_assemble_entity_bodies Prefs then
         copied_data <- lift (tvb_memdup next_tvb 0 frame_length) ;;
         c <- get_conv ;;
         put_conv (spdy_add_data_chunk c stream_id (fd_num p)
                     copied_data frame_length)
       else
         c <- get_conv ;;
         put_conv (spdy_increment_data_chunk_count c stream_id)
     else ret tt) ;;
    ret (Some next_tvb, is_single_chunk)
  else ret (None, num_data_frames =? 1).

(** Without FIN the body is partial.  With FIN the chunks are assembled;
    the body [data_tvb] is the assembled buffer, or the frame's own
    payload when the stream record holds none. *)
Definition data_assemble (stream_id flags : Z) (spdy_proto : bool)
    (next_tvb : option Tvb.t) (is_single_chunk : bool)
    : M (option (spdy_stream_info_t * option Tvb.t)) :=
  if Z.land flags SPDY_FLAG_FIN =? 0 then
    col_set_fence COL_INFO ;;
    col_add_fstr COL_INFO " (partial entity)" [] ;;
    proto_item_append_text spdy_proto n_spdy_proto
      " (partial entity body)" [] ;;
    ret None
  else
    let have_entire_body := is_single_chunk in
    si <- spdy_assemble_data_frames stream_id ;;
    match si with
    | None => ret None
    | Some si =>
        let data_tvb := si_assembled_data si in
        let have_entire_body :=
          if spdy_assemble_entity_bodies Prefs then true
          else have_entire_body in
        if negb have_entire_body then ret None
        else
          match data_tvb with
          | None => ret (Some (si, next_tvb))
          | Some d =>
              add_new_data_source d "Assembled entity body" ;;
              ret (Some (si, Some d))
          end
    end.

(** The frame numbers of the chunks, each run of equal numbers once. *)
Fixpoint data_frames_text (present : bool)
    (dflist : list spdy_data_frame_t) (framenum : Z) : M unit :=
  match dflist with
  | [] => ret tt
  | df :: rest =>
      if negb (framenum =? df_framenum df) then
        proto_item_append_text present n_ce_ti " #%u"
          [AInt (df_framenum df)] ;;
        data_frames_text present rest (df_framenum df)
      else data_frames_text present rest framenum
  end.

(** [tvb_length] asserts that its buffer is there. *)
Definition tvb_length_of (tvb : option Tvb.t) : M Z :=
  match tvb with
  | Some t => ret (tvb_length t)
  | None => throw DissectorError
  end.

(** A body with a content encoding other than identity: it is inflated
    when that is enabled and the encoding is gzip or deflate; a body that
    stays encoded goes to the data dissector and nothing else is done. *)
Definition data_decode (top_level_tree : bool) (si : spdy_stream_info_t)
    (data_tvb : option Tvb.t) : M (option (option Tvb.t)) :=
  match si_content_encoding si with
  | None => ret (Some data_tvb)
  | Some content_encoding =>
      if g_ascii_strcasecmp content_encoding (lit "identity") =? 0
      then ret (Some data_tvb)
      else
        length <- tvb_length_of data_tvb ;;
        let body := match data_tvb with Some t => t | None => [] end in
        let uncomp_tvb :=
          if spdy_decompress_body Prefs
             && ((g_ascii_strcasecmp content_encoding (lit "gzip") =? 0)
                 || (g_ascii_strcasecmp content_encoding (lit "deflate")
                     =? 0))
          then spdy_tvb_child_uncompress body
          else None in
        proto_tree_add_text top_level_tree n_tree body 0 length
          "Content-encoded entity body (%s): %u bytes"
          [AStr content_encoding; AInt length] ;;
        when (1 <? si_num_data_frames si)
          (proto_tree_add_text top_level_tree n_e_tree body 0 length
             "Assembled from %d frames in packet(s)"
             [AInt (si_num_data_frames si)] ;;
           data_frames_text top_level_tree (si_data_frames si) 0) ;;
        match uncomp_tvb with
        | Some u =>
            proto_item_append_text top_level_tree n_e_ti " -> %u bytes"
              [AInt (tvb_length u)] ;;
            add_new_data_source u "Uncompressed entity body" ;;
            ret (Some (Some u))
        | None =>
            when (spdy_decompress_body Prefs)
              (proto_item_append_text top_level_tree n_e_ti
                 " [Error: Decompression failed]" []) ;;
            _ <- call_dissector data_handle data_tvb ;;
            ret None
        end
  end.

(** The chunk buffers are released, then the sub-dissectors are tried.
    Answers the private data to restore when it was changed. *)
Definition data_dispatch (stream_id : Z) (si : spdy_stream_info_t)
    (data_tvb next_tvb : option Tvb.t) : M (option (option cstring)) :=
  let (si', freed) := spdy_discard_data_frames si in
  c <- get_conv ;;
  put_conv (store_stream_info c stream_id si') ;;
  fold_right (fun d k => emit (E_g_free d) ;; k) (ret tt) freed ;;
  p <- get_pinfo ;;
  let handle :=
    match port_subdissector_table Host with
    | Some table => table (match_port p)
    | None => None
    end in
  ' (handle, changed) <-
    match handle, si_content_type si', media_type_subdissector_table Host with
    | None, Some content_type, Some table =>
        put_pinfo (set_private_data p (si_content_type_parameters si')
                     (Some content_type)) ;;
        ret (table content_type, Some (private_data p))
    | _, _, _ => ret (handle, None)
    end ;;
  dissected <-
    match handle with
    | Some h => call_dissector h data_tvb
    | None => ret 0
    end ;;
  _ <- (if (dissected =? 0)
           && match si_content_type si' with Some _ => true | None => false end
        then call_dissector media_handle next_tvb
        else call_dissector data_handle next_tvb) ;;
  ret changed.

Definition dissect_spdy_data_payload (tvb : Tvb.t) (offset : Z)
    (top_level_tree spdy_tree spdy_proto : bool)
    (stream_id flags frame_length : Z) : M Z :=
  col_add_fstr COL_INFO "DATA[%u] length=%d"
    [AInt stream_id; AInt frame_length] ;;
  when spdy_tree
    (proto_item_append_text spdy_proto n_spdy_proto " stream=%d length=%d"
       [AInt stream_id; AInt frame_length] ;;
     proto_tree_add_item true n_spdy_tree hf_spdy_data tvb offset
       frame_length) ;;
  c <- get_conv ;;
  let num_data_frames := spdy_get_num_data_frames c stream_id in
  (if negb (frame_length =? 0) || negb (num_data_frames =? 0) then
     ' (next_tvb, is_single_chunk) <-
       data_record_chunk tvb offset stream_id flags frame_length
         num_data_frames ;;
     a <- data_assemble stream_id flags spdy_proto next_tvb
            is_single_chunk ;;
     changed <-
       match a with
       | None => ret None
       | Some (si, data_tvb) =>
           d <- data_decode top_level_tree si data_tvb ;;
           match d with
           | None => ret None
           | Some data_tvb => data_dispatch stream_id si data_tvb next_tvb
           end
       end ;;
     match changed with
     | Some save_private_data =>
         p <- get_pinfo ;;
         put_pinfo (set_private_data p save_private_data (match_string p))
     | None => ret tt
     end
   else ret tt) ;;
  ret frame_length.

(** ** SETTINGS frames *)

(** The loop over the entries; [num_entries] is positive at every turn,
    and [fuel] is its value at loop entry. *)
Fixpoint settings_entries (fuel : nat) (tvb : Tvb.t) (offset : Z)
    (frame_tree : bool) (num_entries : Z) : M unit :=
  match fuel with
  | O => ret tt
  | S fuel' =>
      offset <-
        (if frame_tree then
           proto_tree_add_item true n_spdy_tree hf_spdy_setting tvb offset 8 ;;
           proto_tree_add_item true n_setting_tree hf_spdy_flags tvb offset 1 ;;
           proto_tree_add_item true n_setting_flags_tree
             hf_spdy_flags_persist_value tvb offset 1 ;;
           proto_tree_add_item true n_setting_flags_tree
             hf_spdy_flags_persisted tvb offset 1 ;;
           let offset := offset + 1 in
           proto_tree_add_item true n_setting_tree hf_spdy_setting_id tvb
             offset 3 ;;
           id <- lift (tvb_get_ntoh24 tvb offset) ;;
           proto_item_append_text true n_spdy_tree "%s"
             [val_to_str id setting_id_names "Unknown(%d)"] ;;
           when (negb (num_entries =? 1))
             (proto_item_append_text true n_spdy_tree ", " []) ;;
           let offset := offset + 3 in
           proto_tree_add_item true n_setting_tree hf_spdy_setting_value tvb
             offset 4 ;;
           ret (offset + 4)
         else ret (offset + 8)) ;;
      settings_entries fuel' tvb offset frame_tree (num_entries - 1)
  end.

(** [dissect_spdy_settings_payload]; [num_entries] is an [int], and so is
    the product [num_entries * 8]. *)
Definition dissect_spdy_settings_payload (tvb : Tvb.t) (offset : Z)
    (length : Z) (frame_tree : bool) : M Z :=
  if length <? 4 then
    expert_add_info_format n_spdy_tree PI_MALFORMED PI_ERROR
      "SETTINGS frame too small for number of entries field." [] ;;
    return_ (-1)
  else
    n <- lift (tvb_get_ntohl tvb offset) ;;
    let num_entries := to_gint n in
    if length <? to_gint (num_entries * 8) then
      expert_add_info_format n_spdy_tree PI_MALFORMED PI_ERROR
        "SETTINGS frame too small [num_entries=%d]" [AInt num_entries] ;;
      return_ (-1)
    else
      proto_tree_add_item frame_tree n_spdy_tree hf_spdy_num_settings tvb
        offset 4 ;;
      let offset := offset + 4 in
      when (0 <? num_entries)
        (proto_item_append_text frame_tree n_spdy_tree " [" [] ;;
         settings_entries (Z.to_nat num_entries) tvb offset frame_tree
           num_entries ;;
         proto_item_append_text frame_tree n_spdy_tree "]" []) ;;
      return_ length.

(** ** Header blocks *)

(** The [z_stream] a [z_streamp] points to; [None] for a null pointer. *)
Definition z_stream_of (c : spdy_conv_t) (decomp : z_streamp)
    : option z_stream :=
  match decomp with
  | rqst_decompressor => rqst c
  | rply_decompressor => rply c
  end.

Definition load (decomp : z_streamp) : M z_stream :=
  c <- get_conv ;;
  match z_stream_of c decomp with
  | Some strm => ret strm
  | None => throw Undefined
  end.

Definition store (decomp : z_streamp) (strm : z_stream) : M unit :=
  c <- get_conv ;;
  put_conv
    match decomp with
    | rqst_decompressor =>
        {| streams := streams c; rqst := Some strm; rply := rply c;
           dictionary_id := dictionary_id c |}
    | rply_decompressor =>
        {| streams := streams c; rqst := rqst c; rply := Some strm;
           dictionary_id := dictionary_id c |}
    end.

(** [inflate(decomp, Z_SYNC_FLUSH)]. *)
Definition inflate (decomp : z_streamp) : M Z :=
  strm <- load decomp ;;
  let r := inflate_core Zl (z_state strm) (z_next_in strm)
             (z_avail_out strm) in
  store decomp
    {| z_next_in := skipn (Z.to_nat (ir_consumed r)) (z_next_in strm);
       z_out := z_out strm ++ ir_output r;
       z_avail_out := z_avail_out strm - len (ir_output r);
       z_adler := ir_adler r;
       z_state := ir_state r |} ;;
  emit (E_inflate decomp (ir_ret r)) ;;
  ret (ir_ret r).

Definition inflateSetDictionary (decomp : z_streamp)
    (dictionary : list byte) : M Z :=
  strm <- load decomp ;;
  let (retcode, st) :=
    inflateSetDictionary_core Zl (z_state strm) dictionary in
  store decomp
    {| z_next_in := z_next_in strm; z_out := z_out strm;
       z_avail_out := z_avail_out strm; z_adler := z_adler strm;
       z_state := st |} ;;
  emit (E_inflateSetDictionary decomp retcode) ;;
  ret retcode.

(** [spdy_decompress_header_block]: [None] is the null result; otherwise
    the copy of the inflated bytes and their number.  [length] arrives as
    a [guint32]; handing the inflater more input than the buffer holds is
    undefined. *)
Definition spdy_decompress_header_block (tvb : Tvb.t) (decomp : z_streamp)
    (dictionary_id : Z) (offset : Z) (length : Z)
    : M (option (list byte * Z)) :=
  let bufsize := 16384 in
  hptr <- lift (tvb_get_ptr tvb offset (to_gint length)) ;;
  strm <- load decomp ;;
  if negb (len hptr =? to_guint32 length) then throw Undefined
  else
    store decomp
      {| z_next_in := hptr; z_out := []; z_avail_out := bufsize;
         z_adler := z_adler strm; z_state := z_state strm |} ;;
    retcode <- inflate decomp ;;
    retcode <-
      (if retcode =? Z_NEED_DICT then
         strm <- load decomp ;;
         if negb (z_adler strm =? dictionary_id) then ret retcode
         else
           retcode <- inflateSetDictionary decomp spdy_dictionary ;;
           if retcode =? Z_OK then inflate decomp else ret retcode
       else ret retcode) ;;
    if negb (retcode =? Z_OK) then ret None
    else
      strm <- load decomp ;;
      let uncomp_length := bufsize - z_avail_out strm in
      ret (Some (firstn (Z.to_nat uncomp_length) (z_out strm),
                 uncomp_length)).

Definition p_get_proto_data (fd : packet_info) : list spdy_frame_info_t :=
  pfd fd.

Definition p_add_proto_data (fd : packet_info)
    (filist : list spdy_frame_info_t) : packet_info :=
  {| fd_num := fd_num fd; fd_visited := fd_visited fd; pfd := filist;
     match_port := match_port fd; match_string := match_string fd;
     private_data := private_data fd;
     desegment_offset := desegment_offset fd;
     desegment_len := desegment_len fd |}.

Definition spdy_p_remove_proto_data (fd : packet_info) : packet_info :=
  p_add_proto_data fd [].

(** [spdy_save_header_block]: the record goes to the end of the packet's
    list. *)
Definition spdy_save_header_block (stream_id frame_type : Z)
    (header : list byte) (length : Z) : M spdy_frame_info_t :=
  fd <- get_pinfo ;;
  let filist := p_get_proto_data fd in
  let fd := match filist with
            | [] => fd
            | _ => spdy_p_remove_proto_data fd
            end in
  let frame_info :=
    {| fi_stream_id := stream_id; fi_header_block := header;
       fi_header_block_len := length; fi_frame_type := frame_type |} in
  put_pinfo (p_add_proto_data fd (filist ++ [frame_info])) ;;
  ret frame_info.

(** [spdy_find_saved_header_block]: the first record of the packet with
    this stream id and frame type. *)
Fixpoint find_saved (filist : list spdy_frame_info_t)
    (stream_id frame_type : Z) : option spdy_frame_info_t :=
  match filist with
  | [] => None
  | fi :: rest =>
      if (fi_stream_id fi =? stream_id) && (fi_frame_type fi =? frame_type)
      then Some fi
      else find_saved rest stream_id frame_type
  end.

Definition spdy_find_saved_header_block (fd : packet_info)
    (stream_id frame_type : Z) : option spdy_frame_info_t :=
  find_saved (p_get_proto_data fd) stream_id frame_type.

(** [spdy_parse_content_type]: the media type, lowered and cut at the
    first [;] or white space, and the parameter string after the
    separators, if any. *)
Fixpoint lower_media_type (s : cstring) : cstring * option cstring :=
  match s with
  | [] => ([], None)
  | c :: rest =>
      if Byte.eqb c x3b || isspace c then ([], Some rest)
      else let (m, r) := lower_media_type rest in (tolower c :: m, r)
  end.

Fixpoint skip_separators (s : cstring) : cstring :=
  match s with
  | [] => []
  | c :: rest =>
      if Byte.eqb c x3b || isspace c then skip_separators rest else s
  end.

Definition spdy_parse_content_type (content_type : cstring)
    : cstring * option cstring :=
  let (media, cp) := lower_media_type content_type in
  match cp with
  | None => (media, None)
  | Some rest =>
      match skip_separators rest with
      | [] => (media, None)
      | params => (media, Some params)
      end
  end.

(** ** Frames *)

(** The type-specific fields of a control frame (the [switch] of
    [dissect_spdy_frame]); answers the offset and the stream id. *)
Definition frame_type_fields (tvb : Tvb.t) (offset : Z)
    (tree spdy_tree : bool) (frame_type frame_length stream_id : Z)
    : M (Z * Z) :=
  if (frame_type =? SPDY_SYN_STREAM) || (frame_type =? SPDY_SYN_REPLY)
     || (frame_type =? SPDY_HEADERS) then
    stream_id <- lift (tvb_get_bits32 tvb (Z.shiftl offset 3 + 1) 31) ;;
    let offset := offset + 4 in
    proto_tree_add_item tree n_spdy_tree hf_spdy_streamid tvb offset 4 ;;
    offset <-
      (if frame_type =? SPDY_SYN_STREAM then
         _ <- lift (tvb_get_bits32 tvb (Z.shiftl offset 3 + 1) 31) ;;
         proto_tree_add_item spdy_tree n_spdy_tree
           hf_spdy_associated_streamid tvb offset 4 ;;
         let offset := offset + 4 in
         _ <- lift (tvb_get_bits8 tvb (Z.shiftl offset 3) 3) ;;
         proto_tree_add_bits_item spdy_tree n_spdy_tree hf_spdy_priority
           tvb (offset * 8) 3 ;;
         ret (offset + 2)
       else ret offset) ;;
    col_append_fstr COL_INFO "[%u]" [AInt stream_id] ;;
    ret (offset, stream_id)
  else if frame_type =? SPDY_RST_STREAM then
    stream_id <- lift (tvb_get_bits32 tvb (Z.shiftl offset 3 + 1) 31) ;;
    col_append_fstr COL_INFO "[%d]" [AInt stream_id] ;;
    rst_status <- lift (tvb_get_ntohl tvb offset) ;;
    when (match match_strval rst_status rst_stream_status_names with
          | None => true
          | Some _ => false
          end)
      (expert_add_info_format n_spdy_tree PI_PROTOCOL PI_ERROR
         "Invalid status code for RST_STREAM: %u" [AInt rst_status]) ;;
    col_append_fstr COL_INFO " %s"
      [val_to_str rst_status rst_stream_status_names "Unknown (%d)"] ;;
    ret (offset + 8, stream_id)
  else if frame_type =? SPDY_SETTINGS then
    r <- call (dissect_spdy_settings_payload tvb offset frame_length
                 spdy_tree) ;;
    if r <? 0 then return_ (-1) else ret (offset, stream_id)
  else if frame_type =? SPDY_NOOP then ret (offset, stream_id)
  else if frame_type =? SPDY_PING then
    ping_id <- lift (tvb_get_ntohl tvb offset) ;;
    col_append_fstr COL_INFO " ID=%u" [AInt ping_id] ;;
    ret (offset + 4, stream_id)
  else if frame_type =? SPDY_GOAWAY then ret (offset, stream_id)
  else if frame_type =? SPDY_WINDOW_UPDATE then
    stream_id <- lift (tvb_get_bits32 tvb (Z.shiftl offset 3 + 1) 31) ;;
    let offset := offset + 4 in
    window_update_delta <-
      lift (tvb_get_bits32 tvb (Z.shiftl offset 3 + 1) 31) ;;
    col_append_fstr COL_INFO "[%u] Delta=%u"
      [AInt stream_id; AInt window_update_delta] ;;
    ret (offset + 4, stream_id)
  else if frame_type =? SPDY_CREDENTIAL then ret (offset, stream_id)
  else
    expert_add_info_format n_spdy_tree PI_MALFORMED PI_ERROR
      "Unhandled SPDY frame type: %d" [AInt frame_type] ;;
    return_ (-1).

(** The inflater a header block goes through. *)
Definition select_decompressor (stream_id frame_type : Z) : M z_streamp :=
  if stream_id mod 2 =? 0 then ret rply_decompressor
  else if frame_type =? SPDY_HEADERS then ret rply_decompressor
  else if frame_type =? SPDY_SYN_STREAM then ret rqst_decompressor
  else if frame_type =? SPDY_SYN_REPLY then ret rply_decompressor
  else throw Undefined.

(** The header plaintext of a frame when header decompression is on: the
    block saved with the packet for this stream id and frame type, or else
    the block just inflated, which is then saved.  Answers the buffer
    shown as "Uncompressed headers". *)
Definition frame_header_plaintext (tvb : Tvb.t) (offset : Z)
    (spdy_proto : bool) (stream_id frame_type header_block_length : Z)
    : M Tvb.t :=
  fd <- get_pinfo ;;
  per_frame_info <-
    match spdy_find_saved_header_block fd stream_id frame_type with
    | Some per_frame_info => ret per_frame_info
    | None =>
        decomp <- select_decompressor stream_id frame_type ;;
        c <- get_conv ;;
        uncomp <- spdy_decompress_header_block tvb decomp (dictionary_id c)
                    offset (to_guint32 header_block_length) ;;
        match uncomp with
        | None =>
            expert_add_info_format n_spdy_tree PI_UNDECODED PI_ERROR
              "Inflation failed. Aborting." [] ;;
            proto_item_append_text spdy_proto n_spdy_proto
              " [Error: Header decompression failed]" [] ;;
            return_ (-1)
        | Some (uncomp_ptr, uncomp_length) =>
            spdy_save_header_block stream_id frame_type uncomp_ptr
              uncomp_length
        end
    end ;;
  let header_tvb :=
    firstn (Z.to_nat (fi_header_block_len per_frame_info))
      (fi_header_block per_frame_info) in
  add_new_data_source header_tvb "Uncompressed headers" ;;
  ret header_tvb.

(** The header block of SYN_STREAM, SYN_REPLY and HEADERS; answers
    [header_tvb], [hdr_offset], [num_headers] and whether the item [ti]
    exists. *)
Definition frame_header_block (tvb : Tvb.t) (offset orig_offset : Z)
    (spdy_tree spdy_proto : bool) (stream_id frame_type frame_length : Z)
    : M (Tvb.t * Z * Z * bool) :=
  let header_block_length := frame_length + 8 - (offset - orig_offset) in
  proto_tree_add_item spdy_tree n_spdy_tree hf_spdy_header_block tvb offset
    header_block_length ;;
  if negb (spdy_decompress_headers Prefs) then
    ret (tvb, offset + 4, 0, false)
  else
    header_tvb <- frame_header_plaintext tvb offset spdy_proto stream_id
                    frame_type header_block_length ;;
    num_headers <- lift (tvb_get_ntohl header_tvb 0) ;;
    proto_tree_add_item spdy_tree n_spdy_tree hf_spdy_num_headers
      header_tvb 0 4 ;;
    ret (header_tvb, 4, num_headers, spdy_tree).

(** The header values the frame loop remembers. *)
Record headers := {
  hdr_verb : option cstring;
  hdr_url : option cstring;
  hdr_version : option cstring;
  content_type : option cstring;
  content_encoding : option cstring
}.

Definition no_headers : headers :=
  {| hdr_verb := None; hdr_url := None; hdr_version := None;
     content_type := None; content_encoding := None |}.

Definition remember_header (h : headers) (header_name header_value : cstring)
    : headers :=
  if (g_ascii_strcasecmp header_name (lit "method") =? 0)
     || (g_ascii_strcasecmp header_name (lit "status") =? 0) then
    {| hdr_verb := Some header_value; hdr_url := hdr_url h;
       hdr_version := hdr_version h; content_type := content_type h;
       content_encoding := content_encoding h |}
  else if g_ascii_strcasecmp header_name (lit "url") =? 0 then
    {| hdr_verb := hdr_verb h; hdr_url := Some header_value;
       hdr_version := hdr_version h; content_type := content_type h;
       content_encoding := content_encoding h |}
  else if g_ascii_strcasecmp header_name (lit "version") =? 0 then
    {| hdr_verb := hdr_verb h; hdr_url := hdr_url h;
       hdr_version := Some header_value; content_type := content_type h;
       content_encoding := content_encoding h |}
  else if g_ascii_strcasecmp header_name (lit "content-type") =? 0 then
    {| hdr_verb := hdr_verb h; hdr_url := hdr_url h;
       hdr_version := hdr_version h; content_type := Some header_value;
       content_encoding := content_encoding h |}
  else if g_ascii_strcasecmp header_name (lit "content-encoding") =? 0 then
    {| hdr_verb := hdr_verb h; hdr_url := hdr_url h;
       hdr_version := hdr_version h; content_type := content_type h;
       content_encoding := Some header_value |}
  else h.

(** The loop over the name/value pairs; [fuel] is [num_headers]. *)
Fixpoint header_loop (fuel : nat) (header_tvb : Tvb.t) (hdr_offset : Z)
    (tree : bool) (h : headers) : M headers :=
  match fuel with
  | O => ret h
  | S fuel' =>
      if tvb_length_remaining header_tvb hdr_offset =? 0 then ret h
      else
        let header_name_offset := hdr_offset in
        header_name_length <- lift (tvb_get_ntohl header_tvb hdr_offset) ;;
        let hdr_offset := hdr_offset + 4 in
        header_name <- lift (tvb_memdup header_tvb hdr_offset
                               (to_gint header_name_length)) ;;
        let hdr_offset := hdr_offset + header_name_length in
        let header_value_offset := hdr_offset in
        header_value_length <- lift (tvb_get_ntohl header_tvb hdr_offset) ;;
        let hdr_offset := hdr_offset + 4 in
        header_value <- lift (tvb_memdup header_tvb hdr_offset
                                (to_gint header_value_length)) ;;
        let hdr_offset := hdr_offset + header_value_length in
        when tree
          (proto_tree_add_item true n_spdy_tree hf_spdy_header header_tvb
             header_name_offset (hdr_offset - header_name_offset) ;;
           proto_item_append_text true n_header ": %s: %s"
             [AStr (c_str header_name); AStr (c_str header_value)] ;;
           proto_tree_add_item true n_header_tree hf_spdy_header_name
             header_tvb header_name_offset 4 ;;
           proto_tree_add_item true n_header_tree hf_spdy_header_value
             header_tvb header_value_offset 4) ;;
        header_loop fuel' header_tvb hdr_offset tree
          (remember_header h (c_str header_name) (c_str header_value))
  end.

Definition opt_arg (s : option cstring) : arg :=
  match s with
  | Some s => AStr s
  | None => ANull
  end.

(** The 8-byte frame header (the part of [dissect_spdy_frame] before the
    payload is looked at); answers [control_bit], [version], [frame_type],
    [stream_id], [flags], [frame_length] and the offset of the payload. *)
Definition frame_prelude (tvb : Tvb.t) (offset : Z) (tree : bool)
    : M (Z * Z * Z * Z * Z * Z * Z) :=
  if tvb_length_remaining tvb offset <? 8 then
    expert_add_info_format n_tree PI_MALFORMED PI_ERROR
      "Reported length remaining too small (%d < 8)"
      [AInt (tvb_length_remaining tvb offset)] ;;
    return_ (-1)
  else
    col_set_str COL_PROTOCOL "SPDY" ;;
    proto_tree_add_item tree n_tree proto_spdy tvb offset (-1) ;;
    let spdy_proto := tree in
    let spdy_tree := tree in
    control_bit <- lift (tvb_get_bits8 tvb (Z.shiftl offset 3) 1) ;;
    when spdy_tree (dissect_spdy_control_bit tvb offset spdy_tree) ;;
    ' (version, frame_type, stream_id, offset) <-
      (if negb (control_bit =? 0) then
         version <- lift (tvb_get_bits16 tvb (offset * 8 + 1) 15) ;;
         proto_tree_add_bits_item spdy_tree n_spdy_tree hf_spdy_version tvb
           (offset * 8 + 1) 15 ;;
         let offset := offset + 2 in
         frame_type <- lift (tvb_get_ntohs tvb offset) ;;
         if SPDY_INVALID <=? frame_type then
           expert_add_info_format n_tree PI_PROTOCOL PI_ERROR
             "Invalid SPDY control frame type: %d" [AInt frame_type] ;;
           return_ (-1)
         else
           proto_tree_add_item spdy_tree n_spdy_tree hf_spdy_type tvb
             offset 2 ;;
           ret (version, frame_type, 0, offset + 2)
       else
         stream_id <- lift (tvb_get_bits32 tvb (offset * 8 + 1) 31) ;;
         proto_tree_add_item spdy_tree n_spdy_tree hf_spdy_streamid tvb
           offset 4 ;;
         ret (0, SPDY_DATA, stream_id, offset + 4)) ;;
    let frame_type_name :=
      nth (Z.to_nat frame_type) frame_type_names ""%string in
    col_add_str COL_INFO frame_type_name ;;
    proto_item_append_text spdy_tree n_spdy_tree ", %s"
      [ALit frame_type_name] ;;
    flags <- lift (tvb_get_guint8 tvb offset) ;;
    when spdy_tree (dissect_spdy_flags tvb offset spdy_tree frame_type) ;;
    let offset := offset + 1 in
    frame_length <- lift (tvb_get_ntoh24 tvb offset) ;;
    when spdy_tree
      (proto_item_set_len spdy_proto n_spdy_proto (frame_length + 8) ;;
       proto_tree_add_item true n_spdy_tree hf_spdy_length tvb offset 3) ;;
    let offset := offset + 3 in
    if to_guint32 (tvb_length_remaining tvb offset) <? frame_length then
      expert_add_info_format n_tree PI_MALFORMED PI_ERROR
        "Not enough frame data: %d vs. %d"
        [AInt frame_length; AInt (tvb_length_remaining tvb offset)] ;;
      return_ (-1)
    else
      ret (control_bit, version, frame_type, stream_id, flags, frame_length,
           offset).

(** The name/value pairs of a control frame and what follows them (the
    part of [dissect_spdy_frame] after the [switch]). *)
Definition frame_headers (tvb : Tvb.t) (offset orig_offset : Z)
    (tree : bool) (frame_type stream_id frame_length : Z) : M Z :=
  let spdy_proto := tree in
  let spdy_tree := tree in
  let frame_type_name :=
    nth (Z.to_nat frame_type) frame_type_names ""%string in
  ' (header_tvb, hdr_offset, num_headers, ti) <-
    (if (frame_type =? SPDY_SYN_STREAM) || (frame_type =? SPDY_SYN_REPLY)
        || (frame_type =? SPDY_HEADERS)
     then frame_header_block tvb offset orig_offset spdy_tree spdy_proto
            stream_id frame_type frame_length
     else ret ([], 0, 0, false)) ;;
  if frame_length <? num_headers then
    expert_add_info_format n_spdy_tree PI_MALFORMED PI_ERROR
      "Number of headers is greater than frame length!" [] ;;
    proto_item_append_text ti n_ti
      " [Error: Number of headers is larger than frame length]" [] ;;
    col_append_fstr COL_INFO "%s[%u]"
      [ALit frame_type_name; AInt stream_id] ;;
    return_ (frame_length + 8)
  else
    h <- header_loop (Z.to_nat num_headers) header_tvb hdr_offset tree
           no_headers ;;
    match hdr_version h with
    | Some version =>
        match hdr_url h with
        | Some url =>
            col_append_fstr COL_INFO ": %s %s %s"
              [opt_arg (hdr_verb h); AStr url; AStr version]
        | None =>
            col_append_fstr COL_INFO ": %s %s"
              [opt_arg (hdr_verb h); AStr version]
        end
    | None => ret tt
    end ;;
    p <- get_pinfo ;;
    match content_type h with
    | Some content_type =>
        if negb (fd_visited p) then
          let (media, content_type_params) :=
            spdy_parse_content_type content_type in
          spdy_save_stream_info stream_id (Some media)
            content_type_params (content_encoding h)
        else ret tt
    | None => ret tt
    end ;;
    return_ (8 + frame_length).

(** [dissect_spdy_frame]: a DATA frame answers the offset after its
    payload; a control frame answers its size, or -1. *)
Definition dissect_spdy_frame (tvb : Tvb.t) (offset : Z) (tree : bool)
    : M Z :=
  let spdy_proto := tree in
  let spdy_tree := tree in
  let orig_offset := offset in
  ' (control_bit, version, frame_type, stream_id, flags, frame_length,
     offset) <- frame_prelude tvb offset tree ;;
  if control_bit =? 0 then
    n <- call (dissect_spdy_data_payload tvb offset tree spdy_tree
                 spdy_proto stream_id flags frame_length) ;;
    return_ (offset + n)
  else if version <? MIN_SPDY_VERSION then
    proto_item_append_text spdy_tree n_spdy_proto
      " [Unsupported Version]" [] ;;
    return_ (frame_length + 8)
  else
    ' (offset, stream_id) <-
      frame_type_fields tvb offset tree spdy_tree frame_type frame_length
        stream_id ;;
    frame_headers tvb offset orig_offset tree frame_type stream_id
      frame_length.

(** ** The driver loop *)

(** What outlives one call of the driver: the packet, the conversation
    data of its flow if it was created, and the trace. *)
Record driver_state := {
  d_pinfo : packet_info;
  d_conv : option spdy_conv_t;
  d_ui : list event
}.

Definition set_desegment (p : packet_info) (offset length : Z)
    : packet_info :=
  {| fd_num := fd_num p; fd_visited := fd_visited p; pfd := pfd p;
     match_port := match_port p; match_string := match_string p;
     private_data := private_data p;
     desegment_offset := offset; desegment_len := length |}.

Definition get_spdy_message_len (tvb : Tvb.t) (offset : Z) : option Z :=
  option_map (fun length => length + 8) (tvb_get_ntoh24 tvb (offset + 5)).

(** The [while] loop of [dissect_spdy], one turn per unit of [fuel];
    [None] when the fuel runs out. *)
Fixpoint dissect_spdy_loop (fuel : nat) (tvb : Tvb.t) (tree : bool)
    (offset remaining_len : Z) (d : driver_state)
    : option (outcome Z * driver_state) :=
  match fuel with
  | O => None
  | S fuel' =>
      if 0 <? remaining_len then
        if remaining_len <? 8 then
          Some (Val offset,
                {| d_pinfo := set_desegment (d_pinfo d) offset
                                DESEGMENT_ONE_MORE_SEGMENT;
                   d_conv := d_conv d; d_ui := d_ui d |})
        else
          match get_spdy_message_len tvb offset with
          | None => Some (Raise ReportedBoundsError, d)
          | Some expected_frame_len =>
              if remaining_len <? expected_frame_len then
                Some (Val offset,
                      {| d_pinfo := set_desegment (d_pinfo d) offset
                                      (expected_frame_len - remaining_len);
                         d_conv := d_conv d; d_ui := d_ui d |})
              else
                let conv_data :=
                  get_or_create_spdy_conversation_data (d_conv d) in
                let (r, s) :=
                  call (dissect_spdy_frame tvb offset tree)
                    {| pinfo := d_pinfo d; conv := conv_data;
                       ui := d_ui d |} in
                let d' := {| d_pinfo := pinfo s; d_conv := Some (conv s);
                             d_ui := ui s |} in
                match r with
                | Val dissected_len | Return dissected_len =>
                    if negb (dissected_len =? expected_frame_len) then
                      Some (Val offset, d')
                    else
                      let offset := offset + dissected_len in
                      dissect_spdy_loop fuel' tvb tree offset
                        (tvb_length_remaining tvb offset)
                        {| d_pinfo := pinfo s; d_conv := Some (conv s);
                           d_ui := ui s ++ [E_col_set_fence COL_INFO] |}
                | Raise e => Some (Raise e, d')
                end
          end
      else Some (Val offset, d)
  end.

(** [dissect_spdy]: every turn of the loop that goes on consumes at least
    the 8 bytes of a frame header, so the buffer's length bounds the
    turns. *)
Definition dissect_spdy (tvb : Tvb.t) (tree : bool) (d : driver_state)
    : option (outcome Z * driver_state) :=
  dissect_spdy_loop (S (List.length tvb)) tvb tree 0
    (tvb_length_remaining tvb 0) d.

(** [dissect_spdy_heur]: the heuristic entry point.  The two [int] copies
    of the desegment fields are written back as they were read. *)
Definition dissect_spdy_heur (tvb : Tvb.t) (tree : bool) (d : driver_state)
    : option (outcome bool * driver_state) :=
  let old_desegment_offset := desegment_offset (d_pinfo d) in
  let old_desegment_len := desegment_len (d_pinfo d) in
  match tvb_get_guint8 tvb 0 with
  | None => Some (Raise ReportedBoundsError, d)
  | Some first_byte =>
      if negb (first_byte =? 0x80) && negb (first_byte =? 0x0) then
        Some (Val false, d)
      else
        match dissect_spdy tvb tree d with
        | None => None
        | Some (Raise e, d') => Some (Raise e, d')
        | Some (Val n, d') | Some (Return n, d') =>
            if negb (n =? 0) then Some (Val true, d')
            else
              Some (Val false,
                    {| d_pinfo := set_desegment (d_pinfo d')
                                    old_desegment_offset old_desegment_len;
                       d_conv := d_conv d'; d_ui := d_ui d' |})
        end
  end.

End Dissector.

Arguments Val {A} a.
Arguments Return {A} v.
Arguments Raise {A} e.

(** ** Notions used to state the properties *)

Section Notions.

Variable zs : Type.

(** The state after more calls into the host, and nothing else. *)
Definition add_ui (s : state zs) (evs : list event) : state zs :=
  {| pinfo := pinfo s; conv := conv s; ui := ui s ++ evs |}.


(** The driver's state once it has asked for [length] more bytes at
    [offset]. *)
Definition need_more (d : driver_state zs) (offset length : Z)
    : driver_state zs :=
  {| d_pinfo := set_desegment (d_pinfo d) offset length;
     d_conv := d_conv d; d_ui := d_ui d |}.

End Notions.

(** The packet's request for more bytes: where, and how many. *)
Definition desegment_of (p : packet_info) : Z * Z :=
  (desegment_offset p, desegment_len p).

(** A computation that leaves the packet's request for more bytes at [d]
    when it finds it there, however it ends. *)
Definition keeps_desegment {zs A} (d : Z * Z) (m : M zs A) : Prop :=
  forall s, desegment_of (pinfo s) = d -> desegment_of (pinfo (snd (m s))) = d.

(** A computation that, from every state, ends in [r] after the host calls
    [evs] and changes nothing else. *)
Definition emits {zs A} (m : M zs A) (r : outcome A) (evs : list event)
    : Prop :=
  forall s, m s = (r, add_ui s evs).

(** A whole control frame lies at [offset] of [tvb], with these header
    fields.  Buffer lengths fit a [gint]. *)
Definition control_frame_at (tvb : Tvb.t)
    (offset version frame_type flags frame_length : Z) : Prop :=
  0 <= offset /\ len tvb < 2 ^ 31 /\
  tvb_get_bits8 tvb (Z.shiftl offset 3) 1 = Some 1 /\
  tvb_get_bits16 tvb (offset * 8 + 1) 15 = Some version /\
  tvb_get_ntohs tvb (offset + 2) = Some frame_type /\
  tvb_get_guint8 tvb (offset + 4) = Some flags /\
  tvb_get_ntoh24 tvb (offset + 5) = Some frame_length /\
  frame_length + 8 <= len tvb - offset.

(** The payload of a SETTINGS frame at [offset] fails the checks of
    [dissect_spdy_settings_payload]: no room for the count, or fewer bytes
    than 8 times the count (in [int] arithmetic). *)
Definition settings_undersized (tvb : Tvb.t) (offset length : Z) : Prop :=
  length < 4 \/
  exists n, tvb_get_ntohl tvb offset = Some n /\
            length < to_gint (to_gint n * 8).


(** The sub-dissector calls of a trace, in order. *)
Fixpoint dissector_calls (evs : list event)
    : list (dissector_handle_t * option Tvb.t) :=
  match evs with
  | [] => []
  | E_call_dissector h tvb :: rest => (h, tvb) :: dissector_calls rest
  | _ :: rest => dissector_calls rest
  end.

(** The calls into zlib of a trace, in order. *)
Fixpoint zlib_calls (evs : list event) : list event :=
  match evs with
  | [] => []
  | E_inflate d r :: rest => E_inflate d r :: zlib_calls rest
  | E_inflateSetDictionary d r :: rest =>
      E_inflateSetDictionary d r :: zlib_calls rest
  | _ :: rest => zlib_calls rest
  end.

(** The host calls that decorate the 8-byte frame header. *)
Definition header_event (e : event) : bool :=
  match e with
  | E_col_set_str COL_PROTOCOL _ | E_col_add_str COL_INFO _ => true
  | E_proto_tree_add_item _ hf _ _ =>
      match hf with
      | proto_spdy | hf_spdy_type | hf_spdy_flags | hf_spdy_flags_fin
      | hf_spdy_flags_unidirectional | hf_spdy_flags_clear_settings
      | hf_spdy_length => true
      | _ => false
      end
  | E_proto_tree_add_bits_item _ hf _ _ =>
      match hf with
      | hf_spdy_control_bit | hf_spdy_version => true
      | _ => false
      end
  | E_proto_item_append_text (n_spdy_tree | n_flags_ti) _ _ => true
  | E_proto_item_set_len _ _ => true
  | _ => false
  end.

Section DriverNotions.

Variable zs : Type.
Variable Zl : zlib zs.
Variable Host : host.
Variable Prefs : prefs.




(** The trace the driver leaves over whole frames that lie one after the
    other from [offset], with payloads of the lengths [lengths]: for each
    frame in turn what its dissection shows, which is the decoration of its
    header, then the fence the driver sets on the info column. *)
Fixpoint frames_trace (tvb : Tvb.t) (tree : bool) (offset : Z)
    (lengths : list Z) (evs : list event) : Prop :=
  match lengths with
  | [] => evs = []
  | frame_length :: rest =>
      exists shown later,
        evs = shown ++ E_col_set_fence COL_INFO :: later /\
        emits (call (dissect_spdy_frame Zl Host Prefs tvb offset tree))
          (Val (frame_length + 8)) shown /\
        forallb header_event shown = true /\
        frames_trace tvb tree (offset + (frame_length + 8)) rest later
  end.

End DriverNotions.

(** A chunk as [spdy_add_data_chunk] records it and before it is
    discarded: its buffer is there, and holds [length] bytes, at least
    one. *)
Definition chunk_intact (df : spdy_data_frame_t) : Prop :=
  exists d, df_data df = Some d /\ len d = df_length df /\ 0 < df_length df.

(** The bytes of the chunks of a list, in list order. *)
Definition chunk_bytes (dflist : list spdy_data_frame_t) : list byte :=
  flat_map (fun df => match df_data df with Some d => d | None => [] end)
    dflist.

(** The bytes at which [spdy_parse_content_type] cuts a content type. *)
Definition separator (c : byte) : bool := Byte.eqb c x3b || isspace c.

(** From [offset] up to [stop] the buffer holds whole NOOP, GOAWAY or
    CREDENTIAL frames of supported versions, one after the other, with
    payloads of the lengths [lengths]. *)
Fixpoint plain_frames_upto (tvb : Tvb.t) (offset : Z) (lengths : list Z)
    (stop : Z) : Prop :=
  match lengths with
  | [] => offset = stop
  | frame_length :: rest =>
      (exists version frame_type flags,
         control_frame_at tvb offset version frame_type flags frame_length /\
         MIN_SPDY_VERSION <= version /\
         (frame_type = SPDY_NOOP \/ frame_type = SPDY_GOAWAY \/
          frame_type = SPDY_CREDENTIAL)) /\
      plain_frames_upto tvb (offset + (frame_length + 8)) rest stop
  end.

(** The byte with the value [z mod 256]. *)
Definition byte_of (z : Z) : byte :=
  match Byte.of_N (Z.to_N (z mod 256)) with
  | Some b => b
  | None => x00
  end.

(** A 32-bit count as it is on the wire, most significant byte first. *)
Definition be32 (n : Z) : list byte :=
  [byte_of (n / 2 ^ 24); byte_of (n / 2 ^ 16); byte_of (n / 2 ^ 8);
   byte_of n].

(** The name/value pairs of a header block as SPDY/3 lays them out after
    the count of pairs: every string behind its 32-bit length. *)
Definition encode_header (p : list byte * list byte) : list byte :=
  be32 (len (fst p)) ++ fst p ++ be32 (len (snd p)) ++ snd p.

Definition encode_headers (pairs : list (list byte * list byte))
    : list byte :=
  flat_map encode_header pairs.

(** The extents of the setting items of a trace, in order. *)
Fixpoint setting_items (evs : list event) : list (Z * Z) :=
  match evs with
  | [] => []
  | E_proto_tree_add_item _ hf_spdy_setting start length :: rest =>
      (start, length) :: setting_items rest
  | _ :: rest => setting_items rest
  end.

(** Where the header block of a SYN_STREAM, SYN_REPLY or HEADERS frame at
    [offset] starts: behind the frame header and the stream id, and for
    SYN_STREAM also behind the associated stream id and the two bytes of
    priority and slot. *)
Definition header_block_offset (offset frame_type : Z) : Z :=
  offset + 8 + (if frame_type =? SPDY_SYN_STREAM then 10 else 4).

(** A whole DATA frame lies at [offset] of [tvb], with these header
    fields. *)
Definition data_frame_at (tvb : Tvb.t)
    (offset stream_id flags frame_length : Z) : Prop :=
  0 <= offset /\ len tvb < 2 ^ 31 /\
  tvb_get_bits8 tvb (Z.shiftl offset 3) 1 = Some 0 /\
  tvb_get_bits32 tvb (offset * 8 + 1) 31 = Some stream_id /\
  tvb_get_guint8 tvb (offset + 4) = Some flags /\
  tvb_get_ntoh24 tvb (offset + 5) = Some frame_length /\
  frame_length + 8 <= len tvb - offset.

(** ** Sample instances

    Concrete hosts, preferences and inputs on which the model is run. *)

(** Adler-32 as zlib computes it: [None] is the null buffer, which answers
    the initial value. *)
Definition adler32_ref (adler : Z) (buf : option (list byte)) : Z :=
  match buf with
  | None => 1
  | Some l =>
      let '(a, b) :=
        fold_left
          (fun '(a, b) c =>
             let a' := (a + byte_val c) mod 65521 in
             (a', (b + a') mod 65521))
          l (Z.land adler 65535, Z.land (Z.shiftr adler 16) 65535) in
      Z.lor (Z.shiftl b 16) a
  end.

(** A toy inflater: it wants the SPDY dictionary once, then hands its input
    through unchanged.  Its state says whether the dictionary is set. *)
Definition toy_zlib : zlib bool :=
  {| zs_zero := false;
     inflateInit_core := fun _ => (Z_OK, false);
     inflate_core := fun st next_in avail_out =>
       if st then
         {| ir_ret := Z_OK; ir_state := true; ir_consumed := len next_in;
            ir_output := next_in;
            ir_adler := adler32_ref (adler32_ref 0 None) (Some spdy_dictionary) |}
       else
         {| ir_ret := Z_NEED_DICT; ir_state := false; ir_consumed := 0;
            ir_output := [];
            ir_adler := adler32_ref (adler32_ref 0 None) (Some spdy_dictionary) |};
     inflateSetDictionary_core := fun _ _ => (Z_OK, true);
     adler32 := adler32_ref |}.

Definition sample_prefs : prefs :=
  {| spdy_assemble_entity_bodies := true;
     spdy_decompress_body := true;
     spdy_decompress_headers := true |}.

(** A host with a dissector registered for port 80 and one for text/plain;
    every dissector takes the whole buffer, and no body can be inflated. *)
Definition sample_host : host :=
  {| port_subdissector_table :=
       Some (fun port => if port =? 80 then Some "http-sub"%string else None);
     media_type_subdissector_table :=
       Some (fun content_type =>
               if g_ascii_strcasecmp content_type (lit "text/plain") =? 0
               then Some "text"%string else None);
     call_dissector_ret :=
       fun _ tvb => match tvb with Some t => len t | None => 0 end;
     tvb_uncompress := fun _ => None |}.

(** A first visit of packet 1 of a flow to port 8080, nothing requested. *)
Definition sample_pinfo : packet_info :=
  {| fd_num := 1; fd_visited := false; pfd := []; match_port := 8080;
     match_string := None; private_data := None;
     desegment_offset := 0; desegment_len := 0 |}.

Definition sample_driver_state : driver_state bool :=
  {| d_pinfo := sample_pinfo; d_conv := None; d_ui := [] |}.

Definition sample_state : state bool :=
  {| pinfo := sample_pinfo;
     conv := get_or_create_spdy_conversation_data toy_zlib sample_prefs None;
     ui := [] |}.


(** A control frame of version 2 with the type code 11. *)
Definition old_invalid_type_frame : Tvb.t :=
  [x80; x02; x00; x0b; x00; x00; x00; x00].

(** A SYN_STREAM frame of version 2 and of length 20. *)
Definition old_version_frame : Tvb.t :=
  [x80; x02; x00; x01; x00; x00; x00; x14] ++ repeat x00 20.

(** A NOOP frame of version 3. *)
Definition noop_frame : Tvb.t := [x80; x03; x00; x05; x00; x00; x00; x00].

(** A SETTINGS frame of length 12 that declares 5 entries, then a NOOP. *)
Definition settings_undersized_then_noop : Tvb.t :=
  [x80; x03; x00; x04; x00; x00; x00; x0c; x00; x00; x00; x05]
  ++ repeat x00 8 ++ noop_frame.

(** The first 10 bytes of a DATA frame of length 200 on stream 1. *)
Definition partial_data_frame : Tvb.t :=
  [x00; x00; x00; x01; x00; x00; x00; xc8; x68; x69].

(** A SETTINGS frame of length 8 that declares 1 entry, then a NOOP: the
    payload ends at offset 16. *)
Definition settings_length_8_one_entry : Tvb.t :=
  [x80; x03; x00; x04; x00; x00; x00; x08; x00; x00; x00; x01;
   x00; x00; x00; x07] ++ noop_frame.

(** An inflater that finds every input corrupt. *)
Definition broken_zlib : zlib unit :=
  {| zs_zero := tt;
     inflateInit_core := fun _ => (Z_OK, tt);
     inflate_core := fun _ _ _ =>
       {| ir_ret := Z_DATA_ERROR; ir_state := tt; ir_consumed := 0;
          ir_output := []; ir_adler := 0 |};
     inflateSetDictionary_core := fun _ _ => (Z_STREAM_ERROR, tt);
     adler32 := adler32_ref |}.

Definition broken_state : state unit :=
  {| pinfo := sample_pinfo;
     conv := get_or_create_spdy_conversation_data broken_zlib sample_prefs
               None;
     ui := [] |}.

(** A SYN_REPLY frame on stream 1 whose header block, as the toy inflater
    reads it, holds status, version and content-type (text/plain). *)
Definition syn_reply_frame : Tvb.t :=
  [ x80; x03; x00; x02; x00; x00; x00; x51; x00; x00; x00; x01;
    x00; x00; x00; x03; x00; x00; x00; x06; x73; x74; x61; x74;
    x75; x73; x00; x00; x00; x06; x32; x30; x30; x20; x4f; x4b;
    x00; x00; x00; x07; x76; x65; x72; x73; x69; x6f; x6e; x00;
    x00; x00; x08; x48; x54; x54; x50; x2f; x31; x2e; x31; x00;
    x00; x00; x0c; x63; x6f; x6e; x74; x65; x6e; x74; x2d; x74;
    x79; x70; x65; x00; x00; x00; x0a; x74; x65; x78; x74; x2f;
    x70; x6c; x61; x69; x6e ].

(** The same frame followed by a NOOP frame, and a driver that starts on
    it with the inflater that finds every input corrupt. *)
Definition syn_reply_then_noop : Tvb.t := syn_reply_frame ++ noop_frame.

Definition broken_driver_state : driver_state unit :=
  {| d_pinfo := sample_pinfo; d_conv := None; d_ui := [] |}.

(** An inflater that takes the SPDY dictionary and then finds the input
    corrupt. *)
Definition corrupt_zlib : zlib bool :=
  {| zs_zero := false;
     inflateInit_core := fun _ => (Z_OK, false);
     inflate_core := fun st next_in avail_out =>
       {| ir_ret := if st then Z_DATA_ERROR else Z_NEED_DICT;
          ir_state := st; ir_consumed := 0; ir_output := [];
          ir_adler := adler32_ref (adler32_ref 0 None) (Some spdy_dictionary) |};
     inflateSetDictionary_core := fun _ _ => (Z_OK, true);
     adler32 := adler32_ref |}.

Definition corrupt_state : state bool :=
  {| pinfo := sample_pinfo;
     conv := get_or_create_spdy_conversation_data corrupt_zlib sample_prefs
               None;
     ui := [] |}.


(** The five bytes of "hello", and the same in two pieces. *)
Definition hello : list byte := [x68; x65; x6c; x6c; x6f].

Definition hel : list byte := [x68; x65; x6c].

Definition lo : list byte := [x6c; x6f].

(** A DATA frame of stream 1 with FIN and the payload "hello". *)
Definition data_fin_frame : Tvb.t :=
  [x00; x00; x00; x01; x01; x00; x00; x05] ++ hello.

(** A DATA frame of stream 1 with FIN and the payload "lo". *)
Definition data_fin_lo_frame : Tvb.t :=
  [x00; x00; x00; x01; x01; x00; x00; x02] ++ lo.

Definition stream_info_of (content_type content_encoding : option cstring)
    (data_frames : list spdy_data_frame_t) : spdy_stream_info_t :=
  {| si_content_type := content_type;
     si_content_type_parameters := None;
     si_content_encoding := content_encoding;
     si_data_frames := data_frames;
     si_assembled_data := None;
     si_num_data_frames := len data_frames |}.

(** The state of packet [p] in a conversation whose stream 1 has the
    record [si]. *)
Definition state_with_stream (p : packet_info) (si : spdy_stream_info_t)
    : state bool :=
  {| pinfo := p;
     conv := set_streams (conv sample_state) [None; Some si];
     ui := [] |}.

(** Packet 2 of a flow to port 8080, packet 1 of a flow to port 80. *)
Definition second_pinfo : packet_info :=
  {| fd_num := 2; fd_visited := false; pfd := []; match_port := 8080;
     match_string := None; private_data := None;
     desegment_offset := 0; desegment_len := 0 |}.


(** Stream 1 after a first DATA frame "hel" in packet 1. *)
Definition one_chunk_info : spdy_stream_info_t :=
  stream_info_of (Some (lit "text/plain")) None
    [{| df_data := Some hel; df_length := 3; df_framenum := 1 |}].

(** Stream 1 with the chunks "hel" of packet 1 and "lo" of packet 2. *)
Definition two_chunks_info : spdy_stream_info_t :=
  stream_info_of (Some (lit "text/plain")) None
    [{| df_data := Some hel; df_length := 3; df_framenum := 1 |};
     {| df_data := Some lo; df_length := 2; df_framenum := 2 |}].


Definition plain_info : spdy_stream_info_t :=
  stream_info_of (Some (lit "text/plain")) None [].

Definition untyped_info : spdy_stream_info_t :=
  stream_info_of None None [].

(** Stream 1 once its two chunks are assembled. *)
Definition assembled_info : spdy_stream_info_t :=
  set_si_assembled_data two_chunks_info (Some hello).

(** A DATA frame of stream 1 with FIN and the payload "!?". *)
Definition more : list byte := [x21; x3f].


(** A control frame of version 3 with the type code 0. *)
Definition type_zero_frame : Tvb.t :=
  [x80; x03; x00; x00; x00; x00; x00; x00].

Definition two_noop_frames : Tvb.t := noop_frame ++ noop_frame.

(** A DATA frame of stream 1 without FIN and with the payload "hel", alone
    and behind a NOOP frame. *)
Definition data_hel_frame : Tvb.t :=
  [x00; x00; x00; x01; x00; x00; x00; x03] ++ hel.

Definition noop_then_data : Tvb.t := noop_frame ++ data_hel_frame.

(** An RST_STREAM frame for stream 1 with the status 5, and a PING frame
    with the id 7. *)
Definition rst_stream_frame : Tvb.t :=
  [x80; x03; x00; x03; x00; x00; x00; x08;
   x00; x00; x00; x01; x00; x00; x00; x05].

Definition ping_frame : Tvb.t :=
  [x80; x03; x00; x06; x00; x00; x00; x04; x00; x00; x00; x07].

Definition headers_off_prefs : prefs :=
  {| spdy_assemble_entity_bodies := true;
     spdy_decompress_body := true;
     spdy_decompress_headers := false |}.

(** Two name/value pairs, the name of the first in mixed case. *)
Definition sample_pairs : list (list byte * list byte) :=
  [(lit "Content-Type", lit "text/plain"); (lit "url", lit "/index")].

(** The name/value pairs of the header block of [syn_reply_frame]. *)
Definition syn_reply_pairs : list (list byte * list byte) :=
  [(lit "status", lit "200 OK"); (lit "version", lit "HTTP/1.1");
   (lit "content-type", lit "text/plain")].

(** A SYN_REPLY frame of length 8 on stream 1 whose header block announces
    200 pairs. *)
Definition syn_reply_many : Tvb.t :=
  [x80; x03; x00; x02; x00; x00; x00; x08;
   x00; x00; x00; x01; x00; x00; x00; xc8].

(** ** Properties *)

Unset Implicit Arguments.

Section Properties.

Variable zs : Type.
Variable Zl : zlib zs.
Variable Host : host.
Variable Prefs : prefs.

(** *** Buffers *)

Lemma len_nonneg {A} (l : list A) : 0 <= len l.
Proof. unfold len. lia. Qed.

Lemma compute_offset_in tvb offset :
  0 <= offset <= len tvb -> compute_offset tvb offset = Some offset.
Proof.
  intros H. unfold compute_offset.
  destruct (Z.leb_spec 0 offset); [|lia].
  destruct (Z.leb_spec offset (len tvb)); [reflexivity|lia].
Qed.

Lemma tvb_length_remaining_in tvb offset :
  0 <= offset <= len tvb -> tvb_length_remaining tvb offset = len tvb - offset.
Proof.
  intros H. unfold tvb_length_remaining.
  now rewrite compute_offset_in.
Qed.

Lemma bytes_at_in tvb offset n :
  0 <= offset -> 0 <= n -> offset + n <= len tvb ->
  bytes_at tvb offset n
  = Some (firstn (Z.to_nat n) (skipn (Z.to_nat offset) tvb)).
Proof.
  intros Ho Hn Hl. unfold bytes_at.
  rewrite compute_offset_in by lia.
  destruct (Z.leb_spec 0 n); [|lia].
  destruct (Z.leb_spec (offset + n) (len tvb)); [reflexivity|lia].
Qed.

Lemma be_combine_nonneg l : 0 <= be_combine l.
Proof.
  unfold be_combine.
  assert (H : forall acc, 0 <= acc ->
    0 <= fold_left (fun acc b => Z.lor (Z.shiftl acc 8) (byte_val b)) l acc).
  { induction l as [|b l IH]; intros acc Hacc; cbn [fold_left];
      [exact Hacc|].
    apply IH. apply Z.lor_nonneg. split.
    - rewrite Z.shiftl_nonneg. exact Hacc.
    - unfold byte_val. lia. }
  apply H. lia.
Qed.


(** *** What the dissection of a frame leaves of the packet

    Only the driver writes the packet's desegment fields; whatever a frame
    holds and however its dissection ends, it leaves them as they were. *)

Lemma keeps_ret {A} d (a : A) : keeps_desegment (zs:=zs) d (ret a).
Proof. intros s H. exact H. Qed.

Lemma keeps_return {A} d v : keeps_desegment (zs:=zs) (A:=A) d (return_ v).
Proof. intros s H. exact H. Qed.

Lemma keeps_throw {A} d e : keeps_desegment (zs:=zs) (A:=A) d (throw e).
Proof. intros s H. exact H. Qed.

Lemma keeps_emit d e : keeps_desegment (zs:=zs) d (emit e).
Proof. intros s H. exact H. Qed.

Lemma keeps_lift {A} d (o : option A) : keeps_desegment (zs:=zs) d (lift o).
Proof. intros s H. destruct o; exact H. Qed.

Lemma keeps_get_conv d : keeps_desegment d (@get_conv zs).
Proof. intros s H. exact H. Qed.

Lemma keeps_put_conv d c : keeps_desegment (zs:=zs) d (put_conv c).
Proof. intros s H. exact H. Qed.

Lemma keeps_put_pinfo d p :
  desegment_of p = d -> keeps_desegment (zs:=zs) d (put_pinfo p).
Proof. intros Hp s H. exact Hp. Qed.

Lemma keeps_bind {A B} d (m : M zs A) (k : A -> M zs B) :
  keeps_desegment d m -> (forall a, keeps_desegment d (k a)) ->
  keeps_desegment d (bind m k).
Proof.
  intros Hm Hk s H. unfold bind. specialize (Hm s H).
  destruct (m s) as [[a|v|e] s']; cbn [snd] in *; [|exact Hm|exact Hm].
  exact (Hk a s' Hm).
Qed.

Lemma keeps_bind_get_pinfo {A} d (k : packet_info -> M zs A) :
  (forall p, desegment_of p = d -> keeps_desegment d (k p)) ->
  keeps_desegment d (bind (@get_pinfo zs) k).
Proof. intros Hk s H. unfold bind, get_pinfo. exact (Hk (pinfo s) H s H). Qed.

Lemma keeps_when d (b : bool) (m : M zs unit) :
  keeps_desegment d m -> keeps_desegment d (when b m).
Proof. intros Hm. destruct b; [exact Hm|apply keeps_ret]. Qed.

Lemma keeps_call d (m : M zs Z) :
  keeps_desegment d m -> keeps_desegment d (call m).
Proof.
  intros Hm s H. unfold call. specialize (Hm s H).
  destruct (m s) as [[a|v|e] s']; exact Hm.
Qed.

(** One step through a computation, down to the reads and writes of the
    state. *)
Ltac keeps_step :=
  lazymatch goal with
  | |- keeps_desegment _ (bind (@get_pinfo _) _) =>
      apply keeps_bind_get_pinfo; intros ? ?
  | |- keeps_desegment _ (bind _ _) => apply keeps_bind; [|intros ?]
  | |- keeps_desegment _ (ret _) => apply keeps_ret
  | |- keeps_desegment _ (return_ _) => apply keeps_return
  | |- keeps_desegment _ (throw _) => apply keeps_throw
  | |- keeps_desegment _ (emit _) => apply keeps_emit
  | |- keeps_desegment _ (lift _) => apply keeps_lift
  | |- keeps_desegment _ (@get_conv _) => apply keeps_get_conv
  | |- keeps_desegment _ (put_conv _) => apply keeps_put_conv
  | |- keeps_desegment _ (put_pinfo _) =>
      apply keeps_put_pinfo;
      repeat match goal with
             | |- context [match ?c with _ => _ end] => destruct c
             end;
      assumption
  | |- keeps_desegment _ (call _) => apply keeps_call
  | |- keeps_desegment _ (when _ _) => apply keeps_when
  | |- keeps_desegment _ (match ?c with _ => _ end) => destruct c
  end.

Ltac keeps_auto :=
  repeat (cbv beta zeta; first [solve [auto with keeps nocore] | keeps_step]).

Ltac keeps_host :=
  unfold col_set_str, col_add_str, col_add_fstr, col_append_fstr,
    col_set_fence, proto_tree_add_item, proto_tree_add_bits_item,
    proto_tree_add_text, proto_item_append_text, proto_item_set_len,
    expert_add_info_format, add_new_data_source, call_dissector,
    tvb_length_of, load, store.

Lemma keeps_data_frames_text d present dflist :
  forall framenum,
    keeps_desegment (zs:=zs) d (data_frames_text present dflist framenum).
Proof.
  induction dflist as [|df rest IH]; intros framenum; cbn [data_frames_text];
    keeps_host; keeps_auto; apply IH.
Qed.

Lemma keeps_free_loop d (freed : list (list byte)) :
  keeps_desegment (zs:=zs) d
    (fold_right (fun b k => bind (emit (E_g_free b)) (fun _ => k)) (ret tt)
       freed).
Proof.
  induction freed as [|b rest IH]; cbn [fold_right]; keeps_auto. exact IH.
Qed.

Lemma keeps_settings_entries d fuel :
  forall tvb offset frame_tree num_entries,
    keeps_desegment (zs:=zs) d
      (settings_entries fuel tvb offset frame_tree num_entries).
Proof.
  induction fuel as [|fuel IH]; intros tvb offset frame_tree num_entries;
    cbn [settings_entries]; keeps_host; keeps_auto; apply IH.
Qed.

Lemma keeps_header_loop d fuel :
  forall header_tvb hdr_offset tree h,
    keeps_desegment (zs:=zs) d
      (header_loop fuel header_tvb hdr_offset tree h).
Proof.
  induction fuel as [|fuel IH]; intros header_tvb hdr_offset tree h;
    cbn [header_loop]; keeps_host; keeps_auto; apply IH.
Qed.

Create HintDb keeps.

#[local] Hint Resolve keeps_data_frames_text keeps_free_loop
  keeps_settings_entries keeps_header_loop : keeps.

Lemma keeps_data_payload d tvb offset top_level_tree spdy_tree spdy_proto
    stream_id flags frame_length :
  keeps_desegment (zs:=zs) d
    (dissect_spdy_data_payload Host Prefs tvb offset top_level_tree spdy_tree
       spdy_proto stream_id flags frame_length).
Proof.
  unfold dissect_spdy_data_payload, data_record_chunk, data_assemble,
    data_decode, data_dispatch, spdy_assemble_data_frames.
  keeps_host. keeps_auto.
Qed.

Lemma keeps_settings_payload d tvb offset length frame_tree :
  keeps_desegment (zs:=zs) d
    (dissect_spdy_settings_payload tvb offset length frame_tree).
Proof. unfold dissect_spdy_settings_payload. keeps_host. keeps_auto. Qed.

Lemma keeps_frame_prelude d tvb offset tree :
  keeps_desegment (zs:=zs) d (frame_prelude tvb offset tree).
Proof.
  unfold frame_prelude, dissect_spdy_control_bit, dissect_spdy_flags.
  keeps_host. keeps_auto.
Qed.

#[local] Hint Resolve keeps_data_payload keeps_settings_payload
  keeps_frame_prelude : keeps.

Lemma keeps_frame_type_fields d tvb offset tree spdy_tree frame_type
    frame_length stream_id :
  keeps_desegment (zs:=zs) d
    (frame_type_fields tvb offset tree spdy_tree frame_type frame_length
       stream_id).
Proof. unfold frame_type_fields. keeps_host. keeps_auto. Qed.

Lemma keeps_frame_headers d tvb offset orig_offset tree frame_type stream_id
    frame_length :
  keeps_desegment (zs:=zs) d
    (frame_headers Zl Prefs tvb offset orig_offset tree frame_type stream_id
       frame_length).
Proof.
  unfold frame_headers, frame_header_block, frame_header_plaintext,
    spdy_decompress_header_block, spdy_save_header_block,
    spdy_save_stream_info, select_decompressor, inflate,
    inflateSetDictionary, p_get_proto_data, spdy_p_remove_proto_data.
  keeps_host. keeps_auto.
Qed.

#[local] Hint Resolve keeps_frame_type_fields keeps_frame_headers : keeps.


(** *** The driver loop *)




(** C5 (amended).  At the loop's current offset, with at least one byte
    remaining: fewer than 8 bytes make the driver ask for one more segment
    and return the offset; a frame whose declared size exceeds the
    remaining bytes makes it ask for the difference and return the
    offset. *)
Theorem C5_need_more fuel tvb tree offset remaining_len
    (d : driver_state zs) :
  0 < remaining_len ->
  (remaining_len < 8 ->
   dissect_spdy_loop Zl Host Prefs (S fuel) tvb tree offset remaining_len d
   = Some (Val offset, need_more d offset DESEGMENT_ONE_MORE_SEGMENT)) /\
  (forall expected_frame_len,
     8 <= remaining_len ->
     get_spdy_message_len tvb offset = Some expected_frame_len ->
     remaining_len < expected_frame_len ->
     dissect_spdy_loop Zl Host Prefs (S fuel) tvb tree offset
       remaining_len d
     = Some (Val offset,
             need_more d offset (expected_frame_len - remaining_len))).
Proof.
  intros Hpos. cbn [dissect_spdy_loop].
  destruct (Z.ltb_spec 0 remaining_len) as [_|]; [|lia].
  split.
  - intros Hshort.
    destruct (Z.ltb_spec remaining_len 8); [reflexivity|lia].
  - intros e Hhdr He Hpart.
    destruct (Z.ltb_spec remaining_len 8); [lia|].
    rewrite He.
    destruct (Z.ltb_spec remaining_len e); [reflexivity|lia].
Qed.

(** *** Computations that only call the host *)

Lemma add_ui_app (s : state zs) a b :
  add_ui (add_ui s a) b = add_ui s (a ++ b).
Proof. unfold add_ui; cbn. now rewrite app_assoc. Qed.

Lemma add_ui_nil (s : state zs) : add_ui s [] = s.
Proof. destruct s. unfold add_ui; cbn. now rewrite app_nil_r. Qed.

Lemma emits_ret {A} (a : A) : emits (zs:=zs) (ret a) (Val a) [].
Proof. intros s. now rewrite add_ui_nil. Qed.

Lemma emits_return {A} v : emits (zs:=zs) (A:=A) (return_ v) (Return v) [].
Proof. intros s. now rewrite add_ui_nil. Qed.

Lemma emits_throw {A} e : emits (zs:=zs) (A:=A) (throw e) (Raise e) [].
Proof. intros s. now rewrite add_ui_nil. Qed.

Lemma emits_emit e : emits (zs:=zs) (emit e) (Val tt) [e].
Proof. intros s. reflexivity. Qed.

Lemma emits_lift {A} (o : option A) a :
  o = Some a -> emits (zs:=zs) (lift o) (Val a) [].
Proof. intros ->. apply emits_ret. Qed.

Lemma emits_bind {A B} (m : M zs A) (k : A -> M zs B) a r e1 e2 :
  emits m (Val a) e1 -> emits (k a) r e2 -> emits (bind m k) r (e1 ++ e2).
Proof.
  intros Hm Hk s. unfold bind. rewrite Hm, Hk. now rewrite add_ui_app.
Qed.

Lemma emits_bind_return {A B} (m : M zs A) (k : A -> M zs B) v e1 :
  emits m (Return v) e1 -> emits (bind m k) (Return v) e1.
Proof. intros Hm s. unfold bind. now rewrite Hm. Qed.

Lemma emits_when (b : bool) (m : M zs unit) evs :
  emits m (Val tt) evs -> emits (when b m) (Val tt) (if b then evs else []).
Proof. intros Hm. destruct b; [exact Hm|apply emits_ret]. Qed.

Lemma emits_call (m : M zs Z) v evs :
  emits m (Return v) evs -> emits (call m) (Val v) evs.
Proof. intros Hm s. unfold call. now rewrite Hm. Qed.

Lemma get_be_item_in_bounds tvb o n v :
  Tvb.get_be tvb o n = Some v -> 0 <= n -> item_in_bounds tvb o n = true.
Proof.
  unfold Tvb.get_be, item_in_bounds, tvb_get_ptr. intros H Hn.
  destruct (Z.eqb_spec n (-1)); [lia|].
  destruct (bytes_at tvb o n); [reflexivity|discriminate].
Qed.

Lemma emits_item (present : bool) parent hf tvb start length :
  item_in_bounds tvb start length = true ->
  emits (zs:=zs) (proto_tree_add_item present parent hf tvb start length)
    (Val tt)
    (if present then [E_proto_tree_add_item parent hf start length]
     else []).
Proof.
  intros Hb. unfold proto_tree_add_item. rewrite Hb.
  apply emits_when, emits_emit.
Qed.

Lemma emits_bits_item (present : bool) parent hf tvb bit_offset n v :
  tvb_get_bits tvb bit_offset n = Some v ->
  emits (zs:=zs) (proto_tree_add_bits_item present parent hf tvb bit_offset n)
    (Val tt)
    (if present then [E_proto_tree_add_bits_item parent hf bit_offset n]
     else []).
Proof.
  intros Hb. unfold proto_tree_add_bits_item.
  apply emits_when.
  change [E_proto_tree_add_bits_item parent hf bit_offset n]
    with ([] ++ [E_proto_tree_add_bits_item parent hf bit_offset n]).
  eapply emits_bind; [apply emits_lift; exact Hb|apply emits_emit].
Qed.

Lemma emits_append_text (present : bool) item fmt args :
  emits (zs:=zs) (proto_item_append_text present item fmt args) (Val tt)
    (if present then [E_proto_item_append_text item fmt args] else []).
Proof. apply emits_when, emits_emit. Qed.

Lemma dissect_spdy_flags_ui tvb offset frame_tree frame_type flags :
  tvb_get_guint8 tvb offset = Some flags ->
  exists evs,
    emits (zs:=zs) (dissect_spdy_flags tvb offset frame_tree frame_type)
      (Val tt) evs /\
    forallb header_event evs = true.
Proof.
  intros Hf.
  assert (Hb : item_in_bounds tvb offset 1 = true).
  { eapply get_be_item_in_bounds; [exact Hf|lia]. }
  destruct frame_tree.
  2:{ exists []. split; [apply emits_ret|reflexivity]. }
  eexists. split.
  - unfold dissect_spdy_flags. cbn [negb].
    eapply emits_bind; [apply emits_lift; exact Hf|].
    repeat first
      [ eapply emits_bind
      | apply emits_item; exact Hb
      | apply emits_append_text
      | apply emits_when ].
  - repeat match goal with |- context [if ?b then _ else _] => destruct b end;
      reflexivity.
Qed.

Lemma emits_eq {A} (m : M zs A) r e e' :
  emits m r e -> e = e' -> emits m r e'.
Proof. now intros H <-. Qed.

(** Stepping through a computation whose buffer reads and branch
    conditions are settled by the hypotheses at hand. *)
Ltac emits_auto :=
  repeat
    (cbv beta iota;
     first
       [ eassumption
       | apply emits_ret | apply emits_emit | apply emits_return
       | apply emits_throw | apply emits_append_text
       | solve [apply emits_lift; eassumption]
       | solve [eapply emits_item; eassumption]
       | solve [eapply emits_bits_item; eassumption]
       | eapply emits_when
       | solve [eapply emits_call; emits_auto]
       | match goal with
         | H : ?c = _ |- emits (if ?c then _ else _) _ _ => rewrite H
         end
       | solve [eapply emits_bind_return; emits_auto]
       | (eapply emits_bind; [solve [emits_auto]|idtac]) ]).

Ltac header_events H :=
  repeat match goal with
         | |- context [if ?b then _ else _] => destruct b
         end;
  repeat first [rewrite forallb_app | rewrite H | progress cbn];
  reflexivity.

Section ControlFrame.

Variables (tvb : Tvb.t) (offset : Z) (tree : bool).
Variables version frame_type flags frame_length : Z.
Hypothesis Hframe :
  control_frame_at tvb offset version frame_type flags frame_length.

Lemma frame_length_nonneg : 0 <= frame_length.
Proof.
  destruct Hframe as (_ & _ & _ & _ & _ & _ & Hlen & _).
  unfold tvb_get_ntoh24, Tvb.get_be in Hlen.
  destruct (bytes_at _ _ _); [|discriminate].
  injection Hlen as <-. apply be_combine_nonneg.
Qed.

(** The facts the frame header's dissection needs, in the shape the
    reads take in [frame_prelude]. *)
Ltac prelude_setup :=
  pose proof frame_length_nonneg as Hl0;
  destruct Hframe as (Ho & Hmax & Hcb & Hv & Ht & Hfl & Hlen & Hwhole);
  assert (Hcb' : tvb_get_bits tvb (offset * 8) 1 = Some 1)
    by (rewrite <- Hcb; unfold tvb_get_bits8; f_equal;
        now rewrite Z.shiftl_mul_pow2 by lia);
  assert (H0 : item_in_bounds tvb offset (-1) = true)
    by (unfold item_in_bounds, tvb_get_ptr; cbn [Z.eqb Pos.eqb];
        now rewrite compute_offset_in by lia);
  assert (Hti : item_in_bounds tvb (offset + 2) 2 = true)
    by (eapply get_be_item_in_bounds; [exact Ht|lia]);
  replace (offset + 4) with (offset + 2 + 2) in Hfl by lia;
  replace (offset + 5) with (offset + 2 + 2 + 1) in Hlen by lia;
  assert (Hli : item_in_bounds tvb (offset + 2 + 2 + 1) 3 = true)
    by (eapply get_be_item_in_bounds; [exact Hlen|lia]);
  destruct (dissect_spdy_flags_ui tvb (offset + 2 + 2) tree frame_type
              flags Hfl) as (fevs & Hfe & Hfh);
  assert (Hrem :
    (to_guint32 (tvb_length_remaining tvb (offset + 2 + 2 + 1 + 3))
     <? frame_length) = false)
    by (rewrite tvb_length_remaining_in by lia;
        unfold to_guint32; rewrite Z.mod_small by lia;
        apply Z.ltb_ge; lia);
  assert (Hshort : (tvb_length_remaining tvb offset <? 8) = false)
    by (rewrite tvb_length_remaining_in by lia; apply Z.ltb_ge; lia);
  assert (Hnz : negb (1 =? 0) = true) by reflexivity;
  unfold frame_prelude, col_set_str, col_add_str,
    dissect_spdy_control_bit, expert_add_info_format, proto_item_set_len.

Lemma frame_prelude_control :
  frame_type < SPDY_INVALID ->
  exists evs,
    emits (zs:=zs) (frame_prelude tvb offset tree)
      (Val (1, version, frame_type, 0, flags, frame_length, offset + 8))
      evs /\
    forallb header_event evs = true.
Proof.
  intros Hgood. prelude_setup.
  assert (Hty : (SPDY_INVALID <=? frame_type) = false)
    by (apply Z.leb_gt; exact Hgood).
  replace (offset + 8) with (offset + 2 + 2 + 1 + 3) by lia.
  eexists. split.
  - emits_auto.
  - header_events Hfh.
Qed.

Lemma frame_prelude_invalid_type :
  SPDY_INVALID <= frame_type ->
  exists evs,
    emits (zs:=zs) (frame_prelude tvb offset tree) (Return (-1))
      (evs ++ [E_expert_add_info_format n_tree PI_PROTOCOL PI_ERROR
                 "Invalid SPDY control frame type: %d"
                 [AInt frame_type]]) /\
    forallb header_event evs = true.
Proof.
  intros Hbad. prelude_setup.
  assert (Hty : (SPDY_INVALID <=? frame_type) = true)
    by (apply Z.leb_le; exact Hbad).
  eexists. split.
  - eapply emits_eq; [emits_auto|].
    rewrite !app_nil_r, !app_assoc. reflexivity.
  - header_events Hfh.
Qed.

(** C6 (amended).  A whole control frame with a valid type code and a
    version below 3: [dissect_spdy_frame] answers the frame's length
    plus 8 from every state, changes nothing in the packet's and the
    conversation's data (no inflater is touched, nothing is saved), and
    calls the host only to decorate the frame header and, when a tree is
    built, to mark the frame as of an unsupported version. *)
Theorem C6_unsupported_version :
  frame_type < SPDY_INVALID ->
  version < MIN_SPDY_VERSION ->
  exists evs,
    emits (call (dissect_spdy_frame Zl Host Prefs tvb offset tree))
      (Val (frame_length + 8))
      (evs ++ if tree
              then [E_proto_item_append_text n_spdy_proto
                      " [Unsupported Version]" []]
              else []) /\
    forallb header_event evs = true.
Proof.
  intros Hgood Hold.
  destruct (frame_prelude_control Hgood) as (evs & Hpre & Hhdr).
  exists evs. split; [|exact Hhdr].
  assert (Hv3 : (version <? MIN_SPDY_VERSION) = true)
    by (apply Z.ltb_lt; exact Hold).
  assert (Hcontrol : (1 =? 0) = false) by reflexivity.
  unfold dissect_spdy_frame.
  eapply emits_eq; [emits_auto|].
  now rewrite !app_nil_r.
Qed.

End ControlFrame.
(** *** Undersized SETTINGS frames *)

Lemma settings_undersized_emits tvb o length frame_tree :
  settings_undersized tvb o length ->
  exists fmt args,
    emits (zs:=zs) (dissect_spdy_settings_payload tvb o length frame_tree)
      (Return (-1))
      [E_expert_add_info_format n_spdy_tree PI_MALFORMED PI_ERROR fmt args].
Proof.
  intros Hu. unfold dissect_spdy_settings_payload, expert_add_info_format.
  destruct (length <? 4) eqn:Hroom.
  - do 2 eexists. eapply emits_eq; [emits_auto|reflexivity].
  - destruct Hu as [Hs|(n & Hn & Hl)]; [apply Z.ltb_ge in Hroom; lia|].
    apply Z.ltb_lt in Hl.
    do 2 eexists. eapply emits_eq; [emits_auto|reflexivity].
Qed.

Section SettingsFrame.

Variables (tvb : Tvb.t) (offset : Z) (tree : bool).
Variables version flags frame_length : Z.
Hypothesis Hframe :
  control_frame_at tvb offset version SPDY_SETTINGS flags frame_length.
Hypothesis Hversion : MIN_SPDY_VERSION <= version.
Hypothesis Hsmall : settings_undersized tvb (offset + 8) frame_length.

Lemma frame_settings_undersized :
  exists evs fmt args,
    emits (call (dissect_spdy_frame Zl Host Prefs tvb offset tree)) (Val (-1))
      (evs ++ [E_expert_add_info_format n_spdy_tree PI_MALFORMED PI_ERROR
                 fmt args]) /\
    forallb header_event evs = true.
Proof.
  destruct (frame_prelude_control tvb offset tree version SPDY_SETTINGS flags
              frame_length Hframe) as (evs & Hpre & Hhdr); [reflexivity|].
  destruct (settings_undersized_emits tvb (offset + 8) frame_length tree Hsmall)
    as (fmt & args & Hset).
  exists evs, fmt, args. split; [|exact Hhdr].
  assert (Hv3 : (version <? MIN_SPDY_VERSION) = false)
    by (apply Z.ltb_ge; exact Hversion).
  assert (Hcontrol : (1 =? 0) = false) by reflexivity.
  assert (Hneg : (-1 <? 0) = true) by reflexivity.
  unfold dissect_spdy_frame, frame_type_fields.
  change ((SPDY_SETTINGS =? SPDY_SYN_STREAM) || (SPDY_SETTINGS =? SPDY_SYN_REPLY)
          || (SPDY_SETTINGS =? SPDY_HEADERS)) with false.
  change (SPDY_SETTINGS =? SPDY_RST_STREAM) with false.
  change (SPDY_SETTINGS =? SPDY_SETTINGS) with true.
  eapply emits_eq; [emits_auto|].
  now rewrite !app_nil_r.
Qed.

(** C3 (amended).  When the driver loop reaches a whole SETTINGS frame of a
    supported version whose payload is undersized, the frame's dissection
    ends with a malformed-frame annotation and the driver returns the offset
    at which the frame starts: it does not advance past the frame, dissects
    nothing after it, and records no request for more bytes. *)
Theorem C3_settings_undersized fuel (d : driver_state zs) :
  exists evs fmt args,
    dissect_spdy_loop Zl Host Prefs (S fuel) tvb tree offset
      (len tvb - offset) d
    = Some (Val offset,
            {| d_pinfo := d_pinfo d;
               d_conv := Some (get_or_create_spdy_conversation_data Zl Prefs
                                 (d_conv d));
               d_ui := d_ui d ++ evs
                       ++ [E_expert_add_info_format n_spdy_tree PI_MALFORMED
                             PI_ERROR fmt args] |}) /\
    forallb header_event evs = true.
Proof.
  destruct frame_settings_undersized as (evs & fmt & args & Hrun & Hhdr).
  exists evs, fmt, args. split; [|exact Hhdr].
  pose proof (frame_length_nonneg _ _ _ _ _ _ Hframe) as Hl0.
  destruct Hframe as (Ho & Hmax & _ & _ & _ & _ & Hlen & Hwhole).
  cbn [dissect_spdy_loop].
  destruct (Z.ltb_spec 0 (len tvb - offset)); [|lia].
  destruct (Z.ltb_spec (len tvb - offset) 8); [lia|].
  unfold get_spdy_message_len. rewrite Hlen. cbn [option_map].
  destruct (Z.ltb_spec (len tvb - offset) (frame_length + 8)); [lia|].
  rewrite Hrun.
  destruct (Z.eqb_spec (-1) (frame_length + 8)); [lia|].
  reflexivity.
Qed.

End SettingsFrame.

(** *** Stream records *)

Lemma discard_loop_spec dflist :
  map df_data (fst (discard_loop dflist)) = map (fun _ => None) dflist /\
  map df_length (fst (discard_loop dflist)) = map df_length dflist /\
  map df_framenum (fst (discard_loop dflist)) = map df_framenum dflist /\
  snd (discard_loop dflist)
  = flat_map (fun df => match df_data df with Some d => [d] | None => [] end)
      dflist.
Proof.
  induction dflist as [|df rest (IHd & IHl & IHf & IHs)]; [now cbn|].
  cbn [discard_loop]. destruct (discard_loop rest) as [rest' freed].
  cbn [fst snd] in *.
  destruct df as [[d|] l f]; cbn [df_data df_length df_framenum map flat_map
    fst snd app]; rewrite ?IHd, ?IHl, ?IHf, ?IHs; auto.
Qed.

(** C10.  Discarding the data frames of a stream record hands every chunk
    buffer still there to [g_free], in list order, and nulls every chunk's
    data pointer; the chunk list keeps its cells, with their lengths and
    frame numbers, and the counter, the assembled buffer and the content
    fields of the record stay as they were.  On a record without chunks it
    does nothing. *)
Theorem C10_discard_data_frames (si : spdy_stream_info_t) :
  let si' := fst (spdy_discard_data_frames si) in
  let freed := snd (spdy_discard_data_frames si) in
  map df_data (si_data_frames si') = map (fun _ => None) (si_data_frames si) /\
  freed
  = flat_map (fun df => match df_data df with Some d => [d] | None => [] end)
      (si_data_frames si) /\
  List.length (si_data_frames si') = List.length (si_data_frames si) /\
  map df_length (si_data_frames si') = map df_length (si_data_frames si) /\
  map df_framenum (si_data_frames si') = map df_framenum (si_data_frames si) /\
  si_num_data_frames si' = si_num_data_frames si /\
  si_assembled_data si' = si_assembled_data si /\
  si_content_type si' = si_content_type si /\
  si_content_type_parameters si' = si_content_type_parameters si /\
  si_content_encoding si' = si_content_encoding si /\
  (si_data_frames si = [] -> si' = si /\ freed = []).
Proof.
  cbv zeta. unfold spdy_discard_data_frames.
  destruct (si_data_frames si) as [|df rest] eqn:Hl.
  - cbn [fst snd]. rewrite Hl. cbn. repeat split; reflexivity.
  - destruct (discard_loop_spec (df :: rest)) as (Hd & Hlen & Hf & Hs).
    destruct (discard_loop (df :: rest)) as [dflist' freed].
    cbn [fst snd] in *. cbn [set_si_data_frames si_data_frames
      si_num_data_frames si_assembled_data si_content_type
      si_content_type_parameters si_content_encoding].
    repeat split; try assumption; try discriminate.
    rewrite <- (length_map df_length dflist'), Hlen. apply length_map.
Qed.


(** *** Header decompression *)

Lemma firstn_len {A} (l : list A) : firstn (Z.to_nat (len l)) l = l.
Proof. unfold len. rewrite Nat2Z.id. apply firstn_all. Qed.

Lemma len_app {A} (a b : list A) : len (a ++ b) = len a + len b.
Proof. unfold len. rewrite length_app. lia. Qed.

Lemma memdup_out (o1 : list byte) :
  (firstn (Z.to_nat (16384 - (16384 - len o1))) ([] ++ o1),
   16384 - (16384 - len o1)) = (o1, len o1).
Proof.
  replace (16384 - (16384 - len o1)) with (len o1) by lia.
  cbn [app]. now rewrite firstn_len.
Qed.

Lemma memdup_out2 (o1 o3 : list byte) :
  (firstn (Z.to_nat (16384 - (16384 - len o1 - len o3))) (([] ++ o1) ++ o3),
   16384 - (16384 - len o1 - len o3)) = (o1 ++ o3, len (o1 ++ o3)).
Proof.
  replace (16384 - (16384 - len o1 - len o3)) with (len (o1 ++ o3))
    by (rewrite len_app; lia).
  cbn [app]. now rewrite firstn_len.
Qed.

Ltac run_in H :=
  cbv beta iota zeta delta
    [bind load store get_conv put_conv ret emit throw z_stream_of inflate
     inflateSetDictionary conv pinfo ui rqst rply streams dictionary_id
     z_next_in z_out z_avail_out z_adler z_state negb fst snd] in H.

Lemma run_inv {A} (a b : A) (s1 s2 : state zs) :
  (Val a, s1) = (Val b, s2) -> a = b /\ s1 = s2.
Proof. intros H. injection H as -> ->. now split. Qed.

Ltac leaf_open H :=
  run_in H; apply run_inv in H; destruct H as [<- <-];
  eexists; (split; [reflexivity|]); (split; [reflexivity|]);
  (split; [reflexivity|]);
  (split; [cbn [ui]; rewrite <- ?app_assoc; cbn [app]; reflexivity|]);
  cbv zeta.

(** The ways [spdy_decompress_header_block] can go once the buffer and the
    inflater are there. *)
Ltac inflate_cases Hrun st0 hptr dict_id :=
  let r1 := fresh "r1" in
  let Hr1 := fresh "Hr1" in
  remember (inflate_core Zl st0 hptr 16384) as r1 eqn:Hr1; clear Hr1;
  destruct (Z.eqb_spec (ir_ret r1) Z_NEED_DICT) as [Hnd|Hnd];
  [ destruct (Z.eqb_spec (ir_adler r1) dict_id) as [Had|Had];
    [ let rc2 := fresh "rc2" in
      let st2 := fresh "st2" in
      destruct (inflateSetDictionary_core Zl (ir_state r1) spdy_dictionary)
        as [rc2 st2];
      run_in Hrun;
      destruct (Z.eqb_spec rc2 Z_OK) as [Hrc2|Hrc2];
      [ let r3 := fresh "r3" in
        let Hr3 := fresh "Hr3" in
        remember (inflate_core Zl st2
                    (skipn (Z.to_nat (ir_consumed r1)) hptr)
                    (16384 - len (ir_output r1))) as r3 eqn:Hr3;
        clear Hr3;
        destruct (Z.eqb_spec (ir_ret r3) Z_OK) as [Hok|Hok];
        leaf_open Hrun; right; right; exists (ir_ret r3);
        rewrite Hnd, Hrc2;
        (split; [reflexivity|]); (split; [reflexivity|]);
        (split; [exact Had|]);
        (split;
         [ intros Hbad; first [contradiction|reflexivity]
         | intros Hgood; first [contradiction
                               |eexists; f_equal; apply memdup_out2] ])
      | run_in Hrun;
        destruct (Z.eqb_spec rc2 Z_OK) as [Hrc2'|_]; [contradiction|];
        leaf_open Hrun; right; left; exists rc2;
        rewrite Hnd; repeat split; assumption ]
    | run_in Hrun;
      destruct (Z.eqb_spec (ir_ret r1) Z_OK) as [Hok|_];
      [rewrite Hnd in Hok; discriminate Hok|];
      leaf_open Hrun; left; rewrite Hnd;
      (split; [reflexivity|]); (split; [right; exact Had|]);
      (split; [reflexivity|]); intros Hgood; discriminate Hgood ]
  | destruct (Z.eqb_spec (ir_ret r1) Z_OK) as [Hok|Hok];
    leaf_open Hrun; left;
    (split; [reflexivity|]); (split; [left; exact Hnd|]);
    (split;
     [ intros Hbad; first [contradiction|reflexivity]
     | intros Hgood; first [contradiction|f_equal; apply memdup_out] ]) ].

Lemma decompress_header_block_cases tvb decomp dict_id offset length
    (s : state zs) r s' :
  spdy_decompress_header_block Zl tvb decomp dict_id offset length s
  = (Val r, s') ->
  exists strm0 hptr evs,
    z_stream_of (conv s) decomp = Some strm0 /\
    tvb_get_ptr tvb offset (to_gint length) = Some hptr /\
    pinfo s' = pinfo s /\ ui s' = ui s ++ evs /\
    let r1 := inflate_core Zl (z_state strm0) hptr 16384 in
    (evs = [E_inflate decomp (ir_ret r1)] /\
     (ir_ret r1 <> Z_NEED_DICT \/ ir_adler r1 <> dict_id) /\
     (ir_ret r1 <> Z_OK -> r = None) /\
     (ir_ret r1 = Z_OK ->
      r = Some (ir_output r1, len (ir_output r1)))) \/
    (exists rc2,
       evs = [E_inflate decomp Z_NEED_DICT;
              E_inflateSetDictionary decomp rc2] /\
       ir_ret r1 = Z_NEED_DICT /\ ir_adler r1 = dict_id /\
       rc2 <> Z_OK /\ r = None) \/
    (exists rc3,
       evs = [E_inflate decomp Z_NEED_DICT;
              E_inflateSetDictionary decomp Z_OK;
              E_inflate decomp rc3] /\
       ir_ret r1 = Z_NEED_DICT /\ ir_adler r1 = dict_id /\
       (rc3 <> Z_OK -> r = None) /\
       (rc3 = Z_OK -> exists out, r = Some (out, len out))).
Proof.
  unfold spdy_decompress_header_block.
  unfold bind at 1. unfold lift.
  destruct (tvb_get_ptr tvb offset (to_gint length)) as [hptr|] eqn:Hptr;
    [|discriminate].
  cbn [ret].
  unfold bind at 1. unfold load at 1. unfold bind at 1, get_conv at 1.
  destruct (z_stream_of (conv s) decomp) as [strm0|] eqn:Hs0; [|discriminate].
  cbn [ret].
  destruct (len hptr =? to_guint32 length); cbn [negb]; [|discriminate].
  intros Hrun. exists strm0, hptr.
  destruct s as [p [sts rq rp did] u]. destruct strm0 as [ni0 o0 ao0 ad0 st0].
  cbn [conv pinfo ui z_state] in *.
  destruct decomp; cbn [z_stream_of rqst rply] in Hs0; subst;
    run_in Hrun; inflate_cases Hrun st0 hptr dict_id.
Qed.




(** [spdy_decompress_header_block] looks at the conversation data only:
    its outcome, the conversation data it leaves and the calls it makes
    are the same whatever was shown before. *)
Lemma decompress_header_block_any_ui tvb decomp dict_id offset length p
    (c : spdy_conv_t zs) :
  exists r c' zevs,
    forall u,
      spdy_decompress_header_block Zl tvb decomp dict_id offset length
        {| pinfo := p; conv := c; ui := u |}
      = (r, {| pinfo := p; conv := c'; ui := u ++ zevs |}).
Proof.
  unfold spdy_decompress_header_block, lift.
  destruct (tvb_get_ptr tvb offset (to_gint length)) as [hptr|].
  2:{ exists (Raise ReportedBoundsError), c, []. intros u.
      unfold bind, throw. now rewrite app_nil_r. }
  destruct c as [sts rq rp did].
  destruct (z_stream_of {| streams := sts; rqst := rq; rply := rp;
                           dictionary_id := did |} decomp)
    as [[ni0 o0 ao0 ad0 st0]|] eqn:Hs0.
  2:{ eexists (Raise Undefined), _, []. intros u.
      cbv beta iota zeta delta [bind ret load get_conv conv pinfo ui].
      rewrite Hs0. unfold throw. now rewrite app_nil_r. }
  destruct (len hptr =? to_guint32 length) eqn:Hlen.
  2:{ eexists (Raise Undefined), _, []. intros u.
      cbv beta iota zeta delta [bind ret load get_conv conv pinfo ui].
      rewrite Hs0. cbv beta iota. rewrite Hlen.
      cbv beta iota delta [negb throw]. now rewrite app_nil_r. }
  remember (inflate_core Zl st0 hptr 16384) as r1 eqn:Hr1.
  destruct (inflateSetDictionary_core Zl (ir_state r1) spdy_dictionary)
    as [rc2 st2] eqn:Hsd.
  remember (inflate_core Zl st2 (skipn (Z.to_nat (ir_consumed r1)) hptr)
              (16384 - len (ir_output r1))) as r3 eqn:Hr3.
  destruct (ir_ret r1 =? Z_NEED_DICT) eqn:E1;
    destruct (ir_adler r1 =? dict_id) eqn:E2;
    destruct (rc2 =? Z_OK) eqn:E3;
    destruct (ir_ret r3 =? Z_OK) eqn:E4;
    destruct (ir_ret r1 =? Z_OK) eqn:E5;
    destruct decomp; cbn [z_stream_of rqst rply] in Hs0; subst;
    eexists _, _, _; intros u;
    repeat
      (progress
         (cbv beta iota zeta delta
            [bind load store get_conv put_conv ret emit throw z_stream_of
             inflate inflateSetDictionary conv pinfo ui rqst rply streams
             dictionary_id z_next_in z_out z_avail_out z_adler z_state negb
             fst snd];
          rewrite ?Hlen, ?E1, ?E2, ?Hsd, ?E3, ?E4, ?E5));
    rewrite <- ?app_assoc; reflexivity.
Qed.

(** *** The header block memo *)

Lemma find_saved_app filist more stream_id frame_type fi :
  find_saved filist stream_id frame_type = Some fi ->
  find_saved (filist ++ more) stream_id frame_type = Some fi.
Proof.
  induction filist as [|fi0 rest IH]; [discriminate|].
  cbn [find_saved app].
  destruct ((fi_stream_id fi0 =? stream_id) && (fi_frame_type fi0 =? frame_type));
    [trivial|exact IH].
Qed.

Lemma find_saved_new filist stream_id frame_type header length :
  find_saved filist stream_id frame_type = None ->
  find_saved
    (filist ++ [{| fi_stream_id := stream_id; fi_header_block := header;
                   fi_header_block_len := length;
                   fi_frame_type := frame_type |}])
    stream_id frame_type
  = Some {| fi_stream_id := stream_id; fi_header_block := header;
            fi_header_block_len := length; fi_frame_type := frame_type |}.
Proof.
  induction filist as [|fi0 rest IH]; cbn [find_saved app].
  - cbn [fi_stream_id fi_frame_type]. now rewrite !Z.eqb_refl.
  - destruct ((fi_stream_id fi0 =? stream_id)
              && (fi_frame_type fi0 =? frame_type));
      [discriminate|exact IH].
Qed.









(** *** Body reassembly *)

Lemma chunk_bytes_cons df rest :
  chunk_intact df ->
  exists d, df_data df = Some d /\ len d = df_length df /\
            0 < df_length df /\ chunk_bytes (df :: rest) = d ++ chunk_bytes rest.
Proof.
  intros (d & Hd & Hl & Hp). exists d. unfold chunk_bytes.
  cbn [flat_map]. rewrite Hd. auto.
Qed.

Lemma to_guint32_small z : 0 <= z < 2 ^ 32 -> to_guint32 z = z.
Proof. intros H. unfold to_guint32. now apply Z.mod_small. Qed.

Lemma datalen_of_intact dflist :
  Forall chunk_intact dflist ->
  forall datalen,
    0 <= datalen -> datalen + len (chunk_bytes dflist) < 2 ^ 32 ->
    fold_left (fun datalen df => to_guint32 (datalen + df_length df)) dflist
      datalen
    = datalen + len (chunk_bytes dflist).
Proof.
  induction 1 as [|df rest Hdf _ IH]; intros datalen H0 Hmax.
  - cbn [fold_left chunk_bytes flat_map]. unfold len. cbn [List.length]. lia.
  - destruct (chunk_bytes_cons df rest Hdf) as (d & _ & Hl & Hp & Hcb).
    rewrite Hcb, len_app in *. pose proof (len_nonneg (chunk_bytes rest)).
    cbn [fold_left].
    change (2 ^ 32) with 4294967296 in Hmax.
    rewrite to_guint32_small by (change (2 ^ 32) with 4294967296; lia).
    rewrite IH by (change (2 ^ 32) with 4294967296; lia). lia.
Qed.

Lemma memcpy_chunks_intact dflist :
  Forall chunk_intact dflist ->
  memcpy_chunks dflist = Some (chunk_bytes dflist).
Proof.
  induction 1 as [|df rest Hdf _ IH]; [reflexivity|].
  destruct (chunk_bytes_cons df rest Hdf) as (d & Hd & Hl & Hp & ->).
  cbn [memcpy_chunks]. rewrite Hd, IH, <- Hl.
  destruct (Z.leb_spec 0 (len d)); [|lia].
  rewrite Z.leb_refl. cbn [andb]. now rewrite firstn_len.
Qed.

Lemma nth_list_set {A} (l : list A) n x d :
  (n < List.length l)%nat -> nth n (list_set l n x) d = x.
Proof.
  revert n. induction l as [|a l IH]; intros [|n] Hn; cbn in *;
    try lia; [reflexivity|]. apply IH. lia.
Qed.

Lemma length_list_set {A} (l : list A) n x :
  List.length (list_set l n x) = List.length l.
Proof.
  revert n. induction l as [|a l IH]; intros [|n]; cbn; auto.
Qed.

Lemma get_store_stream_info (c : spdy_conv_t zs) stream_id si si' :
  spdy_get_stream_info c stream_id = Some si ->
  spdy_get_stream_info (store_stream_info c stream_id si') stream_id
  = Some si'.
Proof.
  unfold spdy_get_stream_info, store_stream_info, set_streams, g_array_index.
  cbn [streams]. unfold len. rewrite length_list_set.
  destruct (Z.leb_spec (Z.of_nat (List.length (streams c))) stream_id);
    [discriminate|].
  intros Hget. apply nth_list_set.
  destruct (streams c) as [|a l]; [destruct (Z.to_nat stream_id); discriminate|].
  cbn [List.length] in *. lia.
Qed.

Lemma bytes_at_len tvb offset n bs :
  bytes_at tvb offset n = Some bs -> len bs = n /\ 0 <= n.
Proof.
  unfold bytes_at. destruct (compute_offset tvb offset) as [a|] eqn:Ha;
    [|discriminate].
  assert (0 <= a).
  { unfold compute_offset in Ha.
    destruct (Z.leb_spec 0 offset).
    - destruct (offset <=? len tvb); [|discriminate]. injection Ha as <-. lia.
    - destruct (Z.leb_spec (- offset) (len tvb)); [|discriminate].
      injection Ha as <-. lia. }
  destruct (Z.leb_spec 0 n); [|discriminate].
  destruct (Z.leb_spec (a + n) (len tvb)); [|discriminate].
  cbn [andb]. intros [= <-]. split; [|assumption].
  unfold len in *. rewrite length_firstn, length_skipn. lia.
Qed.


(** *** Dispatch of an assembled body *)

Lemma dissector_calls_app a b :
  dissector_calls (a ++ b) = dissector_calls a ++ dissector_calls b.
Proof.
  induction a as [|e a IH]; [reflexivity|].
  destruct e; cbn [app dissector_calls]; rewrite IH; reflexivity.
Qed.

Lemma dissector_calls_free freed :
  dissector_calls (map E_g_free freed) = [].
Proof. induction freed as [|d freed IH]; [reflexivity|exact IH]. Qed.

Lemma free_loop_emits freed :
  emits (zs:=zs)
    (fold_right (fun d k => bind (emit (E_g_free d)) (fun _ => k)) (ret tt)
       freed)
    (Val tt) (map E_g_free freed).
Proof.
  induction freed as [|d freed IH]; cbn [fold_right map].
  - apply emits_ret.
  - change (E_g_free d :: map E_g_free freed)
      with ([E_g_free d] ++ map E_g_free freed).
    eapply emits_bind; [apply emits_emit|exact IH].
Qed.

Lemma discard_content_type si :
  si_content_type (fst (spdy_discard_data_frames si)) = si_content_type si.
Proof.
  unfold spdy_discard_data_frames.
  destruct (si_data_frames si) as [|df rest]; [reflexivity|].
  destruct (discard_loop (df :: rest)). reflexivity.
Qed.









(** *** Content types *)

Lemma lower_media_type_spec content_type :
  exists prefix,
    fst (lower_media_type content_type) = map tolower prefix /\
    forallb (fun c => negb (separator c)) prefix = true /\
    match snd (lower_media_type content_type) with
    | None => content_type = prefix
    | Some rest =>
        exists c, separator c = true /\ content_type = prefix ++ c :: rest
    end.
Proof.
  induction content_type as [|c rest IH]; cbn [lower_media_type].
  - exists []. repeat split.
  - fold (separator c). destruct (separator c) eqn:Hc.
    + exists []. cbn [fst snd map forallb app]. repeat split.
      exists c. split; [exact Hc|reflexivity].
    + destruct IH as (prefix & Hm & Hp & Hr).
      destruct (lower_media_type rest) as [m r]. cbn [fst snd] in *.
      exists (c :: prefix). cbn [map forallb]. rewrite Hc, Hp, Hm.
      repeat split. destruct r as [r|].
      * destruct Hr as (c' & Hc' & ->). exists c'. split; [exact Hc'|].
        reflexivity.
      * now rewrite Hr.
Qed.

Lemma skip_separators_spec s :
  exists seps,
    s = seps ++ skip_separators s /\
    forallb separator seps = true /\
    match skip_separators s with
    | [] => True
    | c :: _ => separator c = false
    end.
Proof.
  induction s as [|c rest IH]; cbn [skip_separators].
  - exists []. repeat split.
  - fold (separator c). destruct (separator c) eqn:Hc.
    + destruct IH as (seps & Hs & Hf & Hh).
      exists (c :: seps). cbn [forallb app]. rewrite Hc, Hf, <- Hs.
      repeat split. exact Hh.
    + exists []. repeat split. exact Hc.
Qed.

(** X1.  [spdy_parse_content_type] splits a content type in three: the
    bytes before the first [;] or white space, which lowered are the media
    type; the run of separators that follows; and the rest, which is the
    parameter string.  The cut is at the first separator: the first part
    holds no separator, the second holds nothing else, and where the second
    is empty the first is the whole content type.  The parameter string is
    null exactly when nothing follows the separators, and otherwise starts
    with a byte that is no separator. *)
Theorem parse_content_type_split (content_type : cstring) :
  exists prefix seps,
    content_type
    = prefix ++ seps
      ++ match snd (spdy_parse_content_type content_type) with
         | Some params => params
         | None => []
         end /\
    fst (spdy_parse_content_type content_type) = map tolower prefix /\
    forallb (fun c => negb (separator c)) prefix = true /\
    forallb separator seps = true /\
    (seps = [] ->
     content_type = prefix /\
     snd (spdy_parse_content_type content_type) = None) /\
    match snd (spdy_parse_content_type content_type) with
    | Some params => exists c rest, params = c :: rest /\ separator c = false
    | None => True
    end.
Proof.
  unfold spdy_parse_content_type.
  destruct (lower_media_type_spec content_type) as (prefix & Hm & Hp & Hr).
  destruct (lower_media_type content_type) as [media cp].
  cbn [fst snd] in *. exists prefix.
  destruct cp as [rest|].
  - destruct Hr as (c & Hc & ->).
    destruct (skip_separators_spec rest) as (seps & Hs & Hf & Hh).
    exists (c :: seps). cbn [forallb]. rewrite Hc, Hf.
    destruct (skip_separators rest) as [|c' params] eqn:Hskip;
      cbn [fst snd]; rewrite Hs at 1; repeat split; try assumption;
      try discriminate.
    exists c', params. split; [reflexivity|exact Hh].
  - exists []. cbn [fst snd app forallb]. rewrite app_nil_r.
    repeat split; assumption.
Qed.

Lemma tolower_separator c : separator (tolower c) = separator c.
Proof. destruct c; vm_compute; reflexivity. Qed.

Lemma tolower_idem c : tolower (tolower c) = tolower c.
Proof. destruct c; vm_compute; reflexivity. Qed.

Lemma lower_media_type_clean prefix :
  forallb (fun c => negb (separator c)) prefix = true ->
  lower_media_type (map tolower prefix) = (map tolower prefix, None).
Proof.
  induction prefix as [|c rest IH]; cbn [forallb map lower_media_type];
    [reflexivity|].
  intros [Hc Hrest]%andb_true_iff.
  fold (separator (tolower c)). rewrite tolower_separator.
  apply negb_true_iff in Hc. rewrite Hc, (IH Hrest), tolower_idem.
  reflexivity.
Qed.

(** X2.  The media type that [spdy_parse_content_type] answers is in its
    final form: parsing it again gives the same media type and no
    parameters. *)
Theorem parse_content_type_idempotent (content_type : cstring) :
  spdy_parse_content_type (fst (spdy_parse_content_type content_type))
  = (fst (spdy_parse_content_type content_type), None).
Proof.
  assert (Hfst : fst (spdy_parse_content_type content_type)
                 = fst (lower_media_type content_type)).
  { unfold spdy_parse_content_type.
    destruct (lower_media_type content_type) as [media [rest|]];
      [destruct (skip_separators rest)|]; reflexivity. }
  rewrite Hfst.
  destruct (lower_media_type_spec content_type) as (prefix & Hm & Hp & _).
  rewrite Hm. unfold spdy_parse_content_type.
  rewrite (lower_media_type_clean prefix Hp). reflexivity.
Qed.

(** *** The stream table *)

Lemma nth_list_set_other {A} (l : list A) n m x d :
  n <> m -> nth m (list_set l n x) d = nth m l d.
Proof.
  revert n m. induction l as [|a l IH]; intros [|n] [|m] Hne; cbn;
    try reflexivity; try congruence.
  apply IH. congruence.
Qed.

Lemma get_store_same (c : spdy_conv_t zs) i si :
  0 <= i < len (streams c) ->
  spdy_get_stream_info (store_stream_info c i si) i = Some si.
Proof.
  intros Hi.
  unfold spdy_get_stream_info, store_stream_info, set_streams, g_array_index.
  cbn [streams]. unfold len in *. rewrite length_list_set.
  destruct (Z.leb_spec (Z.of_nat (List.length (streams c))) i); [lia|].
  apply nth_list_set. lia.
Qed.

Lemma get_store_other (c : spdy_conv_t zs) i j si :
  0 <= i -> 0 <= j -> i <> j ->
  spdy_get_stream_info (store_stream_info c i si) j
  = spdy_get_stream_info c j.
Proof.
  intros Hi Hj Hne.
  unfold spdy_get_stream_info, store_stream_info, set_streams, g_array_index.
  cbn [streams]. unfold len. rewrite length_list_set.
  destruct (Z.of_nat (List.length (streams c)) <=? j); [reflexivity|].
  apply nth_list_set_other. lia.
Qed.

Lemma length_set_size {A} (a : list (option A)) n :
  len a <= n -> len (g_array_set_size a n) = n.
Proof.
  unfold len, g_array_set_size. intros Hn.
  rewrite length_app, length_firstn, repeat_length. lia.
Qed.

Lemma get_set_size (c : spdy_conv_t zs) n j :
  len (streams c) <= n -> 0 <= j ->
  spdy_get_stream_info (set_streams c (g_array_set_size (streams c) n)) j
  = spdy_get_stream_info c j.
Proof.
  intros Hn Hj. unfold spdy_get_stream_info, set_streams. cbn [streams].
  rewrite (length_set_size _ _ Hn).
  unfold g_array_index, g_array_set_size. unfold len in *.
  rewrite firstn_all2 by lia.
  destruct (Z.leb_spec (Z.of_nat (List.length (streams c))) j) as [Hout|Hin].
  - destruct (n <=? j); [reflexivity|].
    rewrite app_nth2 by lia. apply nth_repeat.
  - destruct (Z.leb_spec n j); [lia|]. apply app_nth1. lia.
Qed.

Lemma save_stream_info_fresh
    (stream_id : Z) (content_type content_type_params content_encoding
      : option cstring) (s : state zs) :
  0 <= stream_id ->
  spdy_get_stream_info (conv s) stream_id = None ->
  exists s',
    spdy_save_stream_info stream_id content_type content_type_params
      content_encoding s = (Val tt, s') /\
    spdy_get_stream_info (conv s') stream_id
    = Some {| si_content_type := content_type;
              si_content_type_parameters := content_type_params;
              si_content_encoding := content_encoding;
              si_data_frames := [];
              si_assembled_data := None;
              si_num_data_frames := 0 |} /\
    spdy_get_num_data_frames (conv s') stream_id = 0 /\
    (forall j, 0 <= j -> j <> stream_id ->
       spdy_get_stream_info (conv s') j = spdy_get_stream_info (conv s) j) /\
    pinfo s' = pinfo s /\ ui s' = ui s /\
    rqst (conv s') = rqst (conv s) /\ rply (conv s') = rply (conv s) /\
    dictionary_id (conv s') = dictionary_id (conv s).
Proof.
  intros Hid Hnone. destruct s as [p c u]. cbn [conv pinfo ui] in *.
  unfold spdy_save_stream_info.
  cbv beta iota zeta delta [bind get_conv put_conv ret conv pinfo ui].
  destruct (Z.ltb_spec stream_id (len (streams c))) as [Hin|Hout].
  - assert (Hslot : g_array_index (streams c) stream_id = None).
    { unfold spdy_get_stream_info in Hnone.
      destruct (Z.leb_spec (len (streams c)) stream_id); [lia|exact Hnone]. }
    rewrite Hslot. cbv beta iota.
    eexists. split; [reflexivity|]. cbn [conv pinfo ui].
    unfold spdy_get_num_data_frames.
    rewrite get_store_same by lia. cbn [si_num_data_frames].
    repeat split.
    intros j Hj Hne. apply get_store_other; lia.
  - cbv beta iota.
    eexists. split; [reflexivity|]. cbn [conv pinfo ui].
    set (c1 := set_streams c _).
    assert (Hlen : len (streams c1) = stream_id + 1).
    { apply length_set_size. lia. }
    unfold spdy_get_num_data_frames.
    rewrite get_store_same by lia. cbn [si_num_data_frames].
    repeat split.
    intros j Hj Hne. rewrite get_store_other by lia.
    apply get_set_size; lia.
Qed.

(** X3.  Saving the state of a stream that has none, then looking it up:
    [spdy_save_stream_info] answers without an error, [spdy_get_stream_info]
    then finds for this stream a record with the three content fields as
    given, no chunk, nothing assembled and a count of 0, and finds for
    every other stream what it found before.  Only the stream table
    changes. *)
Theorem save_then_get_stream_info
    (stream_id : Z) (content_type content_type_params content_encoding
      : option cstring) (s : state zs) :
  0 <= stream_id ->
  spdy_get_stream_info (conv s) stream_id = None ->
  exists s',
    spdy_save_stream_info stream_id content_type content_type_params
      content_encoding s = (Val tt, s') /\
    spdy_get_stream_info (conv s') stream_id
    = Some {| si_content_type := content_type;
              si_content_type_parameters := content_type_params;
              si_content_encoding := content_encoding;
              si_data_frames := [];
              si_assembled_data := None;
              si_num_data_frames := 0 |} /\
    spdy_get_num_data_frames (conv s') stream_id = 0 /\
    (forall j, 0 <= j -> j <> stream_id ->
       spdy_get_stream_info (conv s') j = spdy_get_stream_info (conv s) j) /\
    pinfo s' = pinfo s /\ ui s' = ui s /\
    rqst (conv s') = rqst (conv s) /\ rply (conv s') = rply (conv s) /\
    dictionary_id (conv s') = dictionary_id (conv s).
Proof.
  exact (save_stream_info_fresh stream_id content_type content_type_params
           content_encoding s).
Qed.

(** X4.  Saving the state of a stream that already has a record fails the
    dissector's assertion: [spdy_save_stream_info] raises and the stream
    table keeps the record it had. *)
Theorem save_stream_info_twice
    (stream_id : Z) (content_type content_type_params content_encoding
      : option cstring) (s : state zs) si :
  0 <= stream_id ->
  spdy_get_stream_info (conv s) stream_id = Some si ->
  spdy_save_stream_info stream_id content_type content_type_params
    content_encoding s = (Raise DissectorError, s).
Proof.
  intros Hid Hsome. destruct s as [p c u]. cbn [conv] in *.
  unfold spdy_save_stream_info.
  cbv beta iota zeta delta [bind get_conv put_conv ret throw conv pinfo ui].
  unfold spdy_get_stream_info in Hsome.
  destruct (Z.leb_spec (len (streams c)) stream_id) as [|Hin];
    [discriminate|].
  destruct (Z.ltb_spec stream_id (len (streams c))); [|lia].
  rewrite Hsome. reflexivity.
Qed.

(** X5.  Counting the DATA frames of a stream that has a record.  Both
    [spdy_add_data_chunk] and [spdy_increment_data_chunk_count] make
    [spdy_get_num_data_frames] answer one more; the first puts its chunk at
    the end of the chunk list, the second leaves the list alone.  A count
    that is at least the number of chunks stays so. *)
Theorem data_chunk_count (c : spdy_conv_t zs) (stream_id : Z)
    (si : spdy_stream_info_t) (frame : Z) (data : list byte) (length : Z) :
  0 <= stream_id ->
  spdy_get_stream_info c stream_id = Some si ->
  len (si_data_frames si) <= si_num_data_frames si ->
  si_num_data_frames si + 1 < 2 ^ 32 ->
  spdy_get_num_data_frames c stream_id = si_num_data_frames si /\
  (exists si1,
     spdy_get_stream_info (spdy_add_data_chunk c stream_id frame data length)
       stream_id = Some si1 /\
     si_num_data_frames si1 = si_num_data_frames si + 1 /\
     si_data_frames si1
     = si_data_frames si
       ++ [{| df_data := Some data; df_length := length;
              df_framenum := frame |}] /\
     len (si_data_frames si1) <= si_num_data_frames si1) /\
  (exists si2,
     spdy_get_stream_info (spdy_increment_data_chunk_count c stream_id)
       stream_id = Some si2 /\
     si_num_data_frames si2 = si_num_data_frames si + 1 /\
     si_data_frames si2 = si_data_frames si /\
     len (si_data_frames si2) <= si_num_data_frames si2).
Proof.
  intros Hid Hsi Hinv Hmax.
  pose proof (len_nonneg (si_data_frames si)) as Hn.
  assert (Hcount : to_guint32 (si_num_data_frames si + 1)
                   = si_num_data_frames si + 1)
    by (apply to_guint32_small; lia).
  assert (Hin : 0 <= stream_id < len (streams c)).
  { unfold spdy_get_stream_info in Hsi.
    destruct (Z.leb_spec (len (streams c)) stream_id); [discriminate|lia]. }
  split; [unfold spdy_get_num_data_frames; now rewrite Hsi|].
  unfold spdy_add_data_chunk, spdy_increment_data_chunk_count.
  rewrite Hsi. split; eexists; (split; [apply get_store_same; exact Hin|]);
    cbn [si_num_data_frames si_data_frames]; rewrite Hcount;
    repeat split; try lia.
  rewrite len_app. unfold len at 2. cbn [List.length]. lia.
Qed.

(** X6.  The chunk bookkeeping of one stream leaves the others alone, and
    does nothing at all for a stream without a record: the stream table
    stays as it is and the count of such a stream is 0. *)
Theorem data_chunk_other_streams (c : spdy_conv_t zs) (stream_id : Z)
    (frame : Z) (data : list byte) (length : Z) :
  (spdy_get_stream_info c stream_id = None ->
   spdy_add_data_chunk c stream_id frame data length = c /\
   spdy_increment_data_chunk_count c stream_id = c /\
   spdy_get_num_data_frames c stream_id = 0) /\
  (forall j, 0 <= stream_id -> 0 <= j -> j <> stream_id ->
     spdy_get_stream_info (spdy_add_data_chunk c stream_id frame data length)
       j = spdy_get_stream_info c j /\
     spdy_get_stream_info (spdy_increment_data_chunk_count c stream_id) j
     = spdy_get_stream_info c j).
Proof.
  unfold spdy_add_data_chunk, spdy_increment_data_chunk_count,
    spdy_get_num_data_frames.
  split.
  - intros ->. repeat split.
  - intros j Hid Hj Hne.
    destruct (spdy_get_stream_info c stream_id); [|split; reflexivity].
    split; apply get_store_other; lia.
Qed.

(** *** Chunk buffers after the dispatch *)

Lemma discard_loop_nulled dflist :
  Forall (fun df => df_data df = None) dflist ->
  discard_loop dflist = (dflist, []).
Proof.
  induction 1 as [|df rest Hdf _ IH]; [reflexivity|].
  cbn [discard_loop]. now rewrite IH, Hdf.
Qed.

Lemma discard_nulls si :
  Forall (fun df => df_data df = None)
    (si_data_frames (fst (spdy_discard_data_frames si))).
Proof.
  unfold spdy_discard_data_frames.
  destruct (si_data_frames si) as [|df rest] eqn:Hl.
  - cbn [fst]. rewrite Hl. constructor.
  - destruct (discard_loop_spec (df :: rest)) as (Hd & _).
    destruct (discard_loop (df :: rest)) as [dflist' freed].
    cbn [fst set_si_data_frames si_data_frames] in *.
    revert Hd. generalize (df :: rest). clear.
    induction dflist' as [|df' rest' IH]; intros l Hd; [constructor|].
    destruct l as [|x l]; [discriminate|]. cbn [map] in Hd.
    injection Hd as Hd0 Hd. constructor; [exact Hd0|exact (IH l Hd)].
Qed.

(** X7.  Discarding the data frames of a stream record a second time frees
    nothing and changes nothing: no chunk buffer is handed to [g_free]
    twice. *)
Theorem discard_data_frames_twice (si : spdy_stream_info_t) :
  spdy_discard_data_frames (fst (spdy_discard_data_frames si))
  = (fst (spdy_discard_data_frames si), []).
Proof.
  pose proof (discard_nulls si) as Hnull.
  destruct (fst (spdy_discard_data_frames si)) as [ct cp ce dfl ad n].
  cbn [si_data_frames] in Hnull.
  unfold spdy_discard_data_frames. cbn [si_data_frames].
  destruct dfl as [|df rest]; [reflexivity|].
  rewrite (discard_loop_nulled _ Hnull). reflexivity.
Qed.

Lemma data_dispatch_conv stream_id si data_tvb next_tvb (s : state zs) :
  exists changed s',
    data_dispatch Host stream_id si data_tvb next_tvb s = (Val changed, s') /\
    conv s'
    = store_stream_info (conv s) stream_id (fst (spdy_discard_data_frames si)).
Proof.
  unfold data_dispatch.
  destruct (spdy_discard_data_frames si) as [si' freed]. cbn [fst].
  pose proof (free_loop_emits freed) as Hloop. unfold emits in Hloop.
  set (loop := fold_right _ _ freed) in *.
  destruct s as [p c u].
  cbv beta iota zeta delta [bind get_conv put_conv get_pinfo ret pinfo conv ui].
  rewrite Hloop. cbv beta iota delta [add_ui pinfo conv ui].
  destruct (port_subdissector_table Host) as [pt|];
    [destruct (pt (match_port p)) as [h|]|];
    (destruct (si_content_type si') as [ct|];
     [destruct (media_type_subdissector_table Host) as [mt|];
      [destruct (mt ct) as [h'|]|]|]);
    cbv beta iota zeta
      delta [bind put_pinfo ret call_dissector emit pinfo conv ui];
    try match goal with
        | |- context [call_dissector_ret Host ?h ?t =? 0] =>
            destruct (call_dissector_ret Host h t =? 0)
        end;
    cbn [andb Z.eqb];
    do 2 eexists; split; reflexivity.
Qed.

(** X8.  The dispatch of an assembled body releases the chunk buffers and
    keeps the body: afterwards every chunk of the stream's record has a
    null buffer, the assembled body is still in the record, and any later
    DATA frame with FIN on this stream (a second visit of the packet) gets
    this same body from the record, as a new data source, without the
    stream table changing again. *)
Theorem body_kept_after_dispatch (stream_id : Z) (si : spdy_stream_info_t)
    (body : Tvb.t) (data_tvb next_tvb : option Tvb.t) (s : state zs) :
  spdy_get_stream_info (conv s) stream_id = Some si ->
  si_assembled_data si = Some body ->
  exists changed s' si',
    data_dispatch Host stream_id si data_tvb next_tvb s = (Val changed, s') /\
    spdy_get_stream_info (conv s') stream_id = Some si' /\
    Forall (fun df => df_data df = None) (si_data_frames si') /\
    si_assembled_data si' = Some body /\
    forall flags spdy_proto next_tvb2 is_single_chunk (s2 : state zs),
      conv s2 = conv s' ->
      Z.land flags SPDY_FLAG_FIN <> 0 ->
      spdy_assemble_entity_bodies Prefs = true \/ is_single_chunk = true ->
      data_assemble Prefs stream_id flags spdy_proto next_tvb2 is_single_chunk
        s2
      = (Val (Some (si', Some body)),
         add_ui s2 [E_add_new_data_source body "Assembled entity body"]).
Proof.
  intros Hsi Hbody.
  destruct (data_dispatch_conv stream_id si data_tvb next_tvb s)
    as (changed & s' & Hrun & Hconv).
  exists changed, s', (fst (spdy_discard_data_frames si)).
  split; [exact Hrun|].
  assert (Hget : spdy_get_stream_info (conv s') stream_id
                 = Some (fst (spdy_discard_data_frames si))).
  { rewrite Hconv. eapply get_store_stream_info. exact Hsi. }
  assert (Hkept : si_assembled_data (fst (spdy_discard_data_frames si))
                  = Some body).
  { rewrite <- Hbody. unfold spdy_discard_data_frames.
    destruct (si_data_frames si); [reflexivity|].
    destruct (discard_loop _). reflexivity. }
  split; [exact Hget|]. split; [apply discard_nulls|]. split; [exact Hkept|].
  intros flags spdy_proto next_tvb2 is_single_chunk s2 Hc Hfin Hwhole.
  unfold data_assemble.
  destruct (Z.eqb_spec (Z.land flags SPDY_FLAG_FIN) 0); [contradiction|].
  unfold bind at 1. unfold spdy_assemble_data_frames.
  unfold bind at 1. unfold get_conv at 1. rewrite Hc, Hget, Hkept.
  cbn [ret].
  replace (negb (if spdy_assemble_entity_bodies Prefs then true
                 else is_single_chunk)) with false.
  2:{ destruct Hwhole as [-> | ->];
        [|destruct (spdy_assemble_entity_bodies Prefs)]; reflexivity. }
  rewrite Hkept. reflexivity.
Qed.

(** *** The header blocks saved with a packet *)

Lemma find_saved_other filist fi stream_id frame_type :
  fi_stream_id fi <> stream_id \/ fi_frame_type fi <> frame_type ->
  find_saved (filist ++ [fi]) stream_id frame_type
  = find_saved filist stream_id frame_type.
Proof.
  intros Hne. induction filist as [|fi0 rest IH]; cbn [find_saved app].
  - destruct (Z.eqb_spec (fi_stream_id fi) stream_id),
      (Z.eqb_spec (fi_frame_type fi) frame_type); cbn [andb];
      try reflexivity. destruct Hne; contradiction.
  - now rewrite IH.
Qed.

(** X9.  Saving a header block with a packet, then looking one up.
    [spdy_save_header_block] puts its record at the end of the packet's
    list and touches nothing else.  A lookup under the same stream id and
    frame type then finds the record that was there first under this key,
    and the new one only if there was none; a lookup under any other key
    finds what it found before. *)
Theorem save_then_find_header_block (stream_id frame_type : Z)
    (header : list byte) (length : Z) (s : state zs) :
  let fi := {| fi_stream_id := stream_id; fi_header_block := header;
               fi_header_block_len := length;
               fi_frame_type := frame_type |} in
  exists s',
    spdy_save_header_block stream_id frame_type header length s
    = (Val fi, s') /\
    pfd (pinfo s') = pfd (pinfo s) ++ [fi] /\
    conv s' = conv s /\ ui s' = ui s /\
    fd_num (pinfo s') = fd_num (pinfo s) /\
    fd_visited (pinfo s') = fd_visited (pinfo s) /\
    spdy_find_saved_header_block (pinfo s') stream_id frame_type
    = Some match spdy_find_saved_header_block (pinfo s) stream_id
                   frame_type with
           | Some first => first
           | None => fi
           end /\
    forall stream_id2 frame_type2,
      stream_id2 <> stream_id \/ frame_type2 <> frame_type ->
      spdy_find_saved_header_block (pinfo s') stream_id2 frame_type2
      = spdy_find_saved_header_block (pinfo s) stream_id2 frame_type2.
Proof.
  intros fi. destruct s as [p c u].
  unfold spdy_save_header_block.
  cbv beta iota zeta delta [bind get_pinfo put_pinfo ret pinfo conv ui].
  eexists. split; [reflexivity|]. cbn [pinfo conv ui].
  unfold spdy_find_saved_header_block, p_get_proto_data.
  assert (Hpfd : forall fd l, pfd (p_add_proto_data fd l) = l)
    by reflexivity.
  rewrite Hpfd.
  assert (Hnum : forall fd l,
            fd_num (p_add_proto_data fd l) = fd_num fd /\
            fd_visited (p_add_proto_data fd l) = fd_visited fd)
    by (intros; split; reflexivity).
  repeat split.
  - destruct (pfd p); unfold spdy_p_remove_proto_data; now rewrite ?(proj1 (Hnum _ _)).
  - destruct (pfd p); unfold spdy_p_remove_proto_data; now rewrite ?(proj2 (Hnum _ _)).
  - destruct (find_saved (pfd p) stream_id frame_type) as [first|] eqn:Hf.
    + now apply find_saved_app.
    + now apply find_saved_new.
  - intros stream_id2 frame_type2 Hne. apply find_saved_other.
    subst fi. cbn [fi_stream_id fi_frame_type].
    destruct Hne; [left|right]; congruence.
Qed.

(** *** The heuristic entry point *)



Lemma set_desegment_same p :
  set_desegment p (desegment_offset p) (desegment_len p) = p.
Proof. destruct p. reflexivity. Qed.

Lemma set_desegment_twice p o l o' l' :
  set_desegment (set_desegment p o l) o' l' = set_desegment p o' l'.
Proof. reflexivity. Qed.

(** X10.  The heuristic entry point on a buffer whose first frame is not
    whole (fewer than 8 bytes, or fewer than the first frame declares): the
    driver's request for more bytes is reverted, so [dissect_spdy_heur]
    answers FALSE and leaves the packet, the conversation and the display
    exactly as they were. *)
Theorem heur_drops_need_more (tvb : Tvb.t) (tree : bool)
    (d : driver_state zs) :
  0 < len tvb ->
  (len tvb < 8 \/
   exists expected_frame_len,
     get_spdy_message_len tvb 0 = Some expected_frame_len /\
     len tvb < expected_frame_len) ->
  dissect_spdy_heur Zl Host Prefs tvb tree d = Some (Val false, d).
Proof.
  intros Hpos Hpart. unfold dissect_spdy_heur.
  assert (Hb : exists b, tvb_get_guint8 tvb 0 = Some b).
  { unfold tvb_get_guint8, get_be. rewrite bytes_at_in by lia.
    eexists. reflexivity. }
  destruct Hb as (b & ->).
  destruct (negb (b =? 128) && negb (b =? 0)); [reflexivity|].
  unfold dissect_spdy. rewrite tvb_length_remaining_in by lia.
  rewrite Z.sub_0_r. cbn [dissect_spdy_loop].
  destruct (Z.ltb_spec 0 (len tvb)); [|lia].
  destruct d as [p c u]. cbn [d_pinfo d_conv d_ui].
  destruct Hpart as [Hshort|(e & He & Hlt)].
  - destruct (Z.ltb_spec (len tvb) 8); [|lia].
    cbn [negb Z.eqb]. cbn [d_pinfo d_conv d_ui].
    now rewrite set_desegment_twice, set_desegment_same.
  - destruct (Z.ltb_spec (len tvb) 8).
    + cbn [negb Z.eqb]. cbn [d_pinfo d_conv d_ui].
      now rewrite set_desegment_twice, set_desegment_same.
    + rewrite He. destruct (Z.ltb_spec (len tvb) e); [|lia].
      cbn [negb Z.eqb]. cbn [d_pinfo d_conv d_ui].
      now rewrite set_desegment_twice, set_desegment_same.
Qed.


(** *** Control frames without header block *)

Lemma emits_bind_get_pinfo {A} (k : packet_info -> M zs A) r evs :
  (forall p, emits (k p) r evs) -> emits (bind (get_pinfo (zs:=zs)) k) r evs.
Proof. intros H s. unfold bind, get_pinfo. apply H. Qed.

Lemma emits_bind_ret {A B} (a : A) (k : A -> M zs B) r evs :
  emits (k a) r evs -> emits (bind (ret a) k) r evs.
Proof. intros H s. unfold bind, ret. apply H. Qed.

(** Deciding the comparisons of two constants. *)
Ltac decide_constants :=
  repeat match goal with
         | |- context [?a =? ?b] =>
             let v := eval vm_compute in (a =? b) in
             match v with
             | true => change (a =? b) with true
             | false => change (a =? b) with false
             end
         end;
  cbn [orb andb negb].

Lemma frame_headers_none tvb offset orig_offset tree frame_type stream_id
    frame_length :
  0 <= frame_length ->
  frame_type = SPDY_RST_STREAM \/ frame_type = SPDY_SETTINGS \/
  frame_type = SPDY_NOOP \/ frame_type = SPDY_PING \/
  frame_type = SPDY_GOAWAY \/ frame_type = SPDY_WINDOW_UPDATE \/
  frame_type = SPDY_CREDENTIAL ->
  emits (zs:=zs)
    (frame_headers Zl Prefs tvb offset orig_offset tree frame_type stream_id
       frame_length)
    (Return (8 + frame_length)) [].
Proof.
  intros Hl Htype.
  assert (Hn : (frame_length <? 0) = false) by (apply Z.ltb_ge; exact Hl).
  unfold frame_headers.
  assert (Hty : (frame_type =? SPDY_SYN_STREAM)
                || (frame_type =? SPDY_SYN_REPLY)
                || (frame_type =? SPDY_HEADERS) = false).
  { destruct Htype as [->|[->|[->|[->|[->|[->| ->]]]]]]; reflexivity. }
  rewrite Hty. cbv zeta.
  apply emits_bind_ret. cbv beta iota. rewrite Hn.
  change (Z.to_nat 0) with O. cbn [header_loop].
  apply emits_bind_ret. cbn [hdr_version no_headers].
  apply emits_bind_ret.
  apply emits_bind_get_pinfo. intros p. cbn [content_type no_headers].
  apply emits_bind_ret. apply emits_return.
Qed.

Section PlainControlFrame.

Variables (tvb : Tvb.t) (offset : Z) (tree : bool).
Variables version frame_type flags frame_length : Z.
Hypothesis Hframe :
  control_frame_at tvb offset version frame_type flags frame_length.
Hypothesis Hversion : MIN_SPDY_VERSION <= version.

Lemma control_frame_plain :
  frame_type = SPDY_NOOP \/ frame_type = SPDY_GOAWAY \/
  frame_type = SPDY_CREDENTIAL ->
  exists evs,
    emits (call (dissect_spdy_frame Zl Host Prefs tvb offset tree))
      (Val (frame_length + 8)) evs /\
    forallb header_event evs = true.
Proof.
  intros Htype.
  pose proof (frame_length_nonneg tvb offset version frame_type flags
                frame_length Hframe) as Hl.
  destruct (frame_prelude_control tvb offset tree version frame_type flags
              frame_length Hframe) as (evs & Hpre & Hhdr).
  { destruct Htype as [->|[->| ->]]; reflexivity. }
  exists evs. split; [|exact Hhdr].
  assert (Hv3 : (version <? MIN_SPDY_VERSION) = false)
    by (apply Z.ltb_ge; exact Hversion).
  assert (Hcontrol : (1 =? 0) = false) by reflexivity.
  assert (Hfields :
    emits (zs:=zs)
      (frame_type_fields tvb (offset + 8) tree tree frame_type frame_length 0)
      (Val (offset + 8, 0)) []).
  { unfold frame_type_fields.
    destruct Htype as [->|[->| ->]]; decide_constants; apply emits_ret. }
  assert (Hheaders :
    emits (zs:=zs)
      (frame_headers Zl Prefs tvb (offset + 8) offset tree frame_type 0
         frame_length)
      (Return (8 + frame_length)) []).
  { apply frame_headers_none; [exact Hl|]. tauto. }
  replace (frame_length + 8) with (8 + frame_length) by lia.
  unfold dissect_spdy_frame.
  eapply emits_eq; [emits_auto|].
  now rewrite !app_nil_r.
Qed.

(** X12.  A whole NOOP, GOAWAY or CREDENTIAL frame of a supported version:
    [dissect_spdy_frame] answers the frame's length plus 8 whatever the
    payload holds, and calls the host only to decorate the frame header;
    the packet's and the conversation's data stay as they are. *)
Theorem control_frame_payload_ignored :
  frame_type = SPDY_NOOP \/ frame_type = SPDY_GOAWAY \/
  frame_type = SPDY_CREDENTIAL ->
  exists evs,
    emits (call (dissect_spdy_frame Zl Host Prefs tvb offset tree))
      (Val (frame_length + 8)) evs /\
    forallb header_event evs = true.
Proof. exact control_frame_plain. Qed.

(** X13.  A whole control frame of a supported version with the type code
    0, the code of DATA: its header is decorated, then it is reported as
    of an unhandled type and [dissect_spdy_frame] answers -1. *)
Theorem control_frame_type_zero :
  frame_type = 0 ->
  exists evs,
    emits (call (dissect_spdy_frame Zl Host Prefs tvb offset tree))
      (Val (-1))
      (evs ++ [E_expert_add_info_format n_spdy_tree PI_MALFORMED PI_ERROR
                 "Unhandled SPDY frame type: %d" [AInt 0]]) /\
    forallb header_event evs = true.
Proof.
  intros Htype.
  destruct (frame_prelude_control tvb offset tree version frame_type flags
              frame_length Hframe) as (evs & Hpre & Hhdr).
  { rewrite Htype. reflexivity. }
  exists evs. split; [|exact Hhdr].
  assert (Hv3 : (version <? MIN_SPDY_VERSION) = false)
    by (apply Z.ltb_ge; exact Hversion).
  assert (Hcontrol : (1 =? 0) = false) by reflexivity.
  assert (Hfields :
    emits (zs:=zs)
      (frame_type_fields tvb (offset + 8) tree tree frame_type frame_length 0)
      (Return (-1))
      [E_expert_add_info_format n_spdy_tree PI_MALFORMED PI_ERROR
         "Unhandled SPDY frame type: %d" [AInt 0]]).
  { unfold frame_type_fields. rewrite Htype. decide_constants.
    unfold expert_add_info_format.
    eapply emits_eq; [emits_auto|reflexivity]. }
  unfold dissect_spdy_frame.
  eapply emits_eq; [emits_auto|].
  now rewrite ?app_nil_r.
Qed.

End PlainControlFrame.

(** X14.  A frame of which fewer than 8 bytes are left at its offset, or
    whose offset is outside of the buffer: [dissect_spdy_frame] reports
    the remaining length as too small and answers -1, and does nothing
    else. *)
Theorem frame_too_short (tvb : Tvb.t) (offset : Z) (tree : bool) :
  tvb_length_remaining tvb offset < 8 ->
  emits (zs:=zs) (call (dissect_spdy_frame Zl Host Prefs tvb offset tree))
    (Val (-1))
    [E_expert_add_info_format n_tree PI_MALFORMED PI_ERROR
       "Reported length remaining too small (%d < 8)"
       [AInt (tvb_length_remaining tvb offset)]].
Proof.
  intros Hshort.
  assert (Hs : (tvb_length_remaining tvb offset <? 8) = true)
    by (apply Z.ltb_lt; exact Hshort).
  unfold dissect_spdy_frame, frame_prelude, expert_add_info_format.
  rewrite Hs.
  eapply emits_eq; [emits_auto|reflexivity].
Qed.

(** *** The driver on a run of frames *)

Lemma plain_frames_count tvb lengths stop :
  forall offset,
    0 <= offset -> plain_frames_upto tvb offset lengths stop ->
    offset + 8 * len lengths <= stop.
Proof.
  induction lengths as [|l rest IH]; intros offset Ho Hrun;
    cbn [plain_frames_upto] in Hrun.
  - subst offset. unfold len. cbn [List.length]. lia.
  - destruct Hrun as [(version & frame_type & flags & Hframe & _) Hrest].
    pose proof (frame_length_nonneg tvb offset version frame_type flags l
                  Hframe) as Hl.
    specialize (IH (offset + (l + 8)) ltac:(lia) Hrest).
    unfold len in *. cbn [List.length]. lia.
Qed.

(** The turns of the loop over a run of such frames: the loop goes on at
    the end of the run, with the packet as it was, the conversation data
    as found or created, and every frame's dissection in the trace. *)
Lemma plain_frames_loop tvb tree lengths stop :
  forall offset (d : driver_state zs),
    0 <= offset -> stop <= len tvb ->
    plain_frames_upto tvb offset lengths stop ->
    exists d1,
      d_pinfo d1 = d_pinfo d /\
      (exists evs,
         d_ui d1 = d_ui d ++ evs /\
         frames_trace Zl Host Prefs tvb tree offset lengths evs) /\
      d_conv d1
      = match lengths with
        | [] => d_conv d
        | _ :: _ =>
            Some (get_or_create_spdy_conversation_data Zl Prefs (d_conv d))
        end /\
      forall fuel,
        dissect_spdy_loop Zl Host Prefs (List.length lengths + fuel) tvb tree
          offset (len tvb - offset) d
        = dissect_spdy_loop Zl Host Prefs fuel tvb tree stop (len tvb - stop)
            d1.
Proof.
  induction lengths as [|l rest IH]; intros offset d Ho Hstop Hrun;
    cbn [plain_frames_upto] in Hrun.
  - subst offset. exists d. split; [reflexivity|].
    split; [exists []; split; [now rewrite app_nil_r|reflexivity]|].
    split; reflexivity.
  - destruct Hrun as [(version & frame_type & flags & Hframe & Hv & Hty) Hrest].
    pose proof (frame_length_nonneg tvb offset version frame_type flags l
                  Hframe) as Hl.
    destruct (control_frame_plain tvb offset tree version frame_type flags l
                Hframe Hv Hty) as (evs & Hemit & Hhdr).
    destruct Hframe as (_ & _ & _ & _ & _ & _ & Hlen & Hwhole).
    set (s1 := add_ui {| pinfo := d_pinfo d;
                         conv := get_or_create_spdy_conversation_data Zl Prefs
                                   (d_conv d);
                         ui := d_ui d |} evs).
    destruct (IH (offset + (l + 8))
                {| d_pinfo := pinfo s1; d_conv := Some (conv s1);
                   d_ui := ui s1 ++ [E_col_set_fence COL_INFO] |}
                ltac:(lia) Hstop Hrest)
      as (d1 & Hp & (evs1 & Hu & Htr) & Hc & Hloop).
    exists d1. split; [exact Hp|].
    split.
    { exists (evs ++ E_col_set_fence COL_INFO :: evs1). split.
      - rewrite Hu. cbn [d_ui]. unfold s1. cbn [add_ui ui].
        now rewrite <- !app_assoc.
      - cbn [frames_trace]. exists evs, evs1. auto. }
    split.
    { rewrite Hc. cbn [d_conv]. unfold s1. cbn [add_ui conv].
      destruct rest; reflexivity. }
    intros fuel.
    cbn [List.length Nat.add dissect_spdy_loop].
    destruct (Z.ltb_spec 0 (len tvb - offset)); [|lia].
    destruct (Z.ltb_spec (len tvb - offset) 8); [lia|].
    unfold get_spdy_message_len. rewrite Hlen. cbn [option_map].
    destruct (Z.ltb_spec (len tvb - offset) (l + 8)); [lia|].
    rewrite Hemit. fold s1. rewrite Z.eqb_refl. cbn [negb].
    rewrite tvb_length_remaining_in by lia.
    apply Hloop.
Qed.

(** X15.  A buffer that is a run of whole NOOP, GOAWAY and CREDENTIAL
    frames of supported versions: the driver dissects them all, answers the
    length of the buffer and leaves the packet as it was, with no request for
    more bytes.  Its trace is, frame after frame from offset 0, what the
    dissection of the frame at that offset shows (the decoration of its
    header), followed by the fence on the info column; the conversation
    data are those found or created, unchanged. *)
Theorem driver_consumes_plain_frames (tvb : Tvb.t) (tree : bool)
    (d : driver_state zs) (lengths : list Z) :
  plain_frames_upto tvb 0 lengths (len tvb) ->
  exists d' evs,
    dissect_spdy Zl Host Prefs tvb tree d = Some (Val (len tvb), d') /\
    d_pinfo d' = d_pinfo d /\
    d_ui d' = d_ui d ++ evs /\
    frames_trace Zl Host Prefs tvb tree 0 lengths evs /\
    d_conv d'
    = match lengths with
      | [] => d_conv d
      | _ :: _ =>
          Some (get_or_create_spdy_conversation_data Zl Prefs (d_conv d))
      end.
Proof.
  intros Hrun. unfold dissect_spdy.
  pose proof (len_nonneg tvb) as Hn.
  pose proof (plain_frames_count tvb lengths (len tvb) 0 ltac:(lia) Hrun)
    as Hcount.
  destruct (plain_frames_loop tvb tree lengths (len tvb) 0 d ltac:(lia)
              ltac:(lia) Hrun) as (d1 & Hp & (evs & Hu & Htr) & Hc & Hloop).
  rewrite tvb_length_remaining_in by lia.
  replace (S (List.length tvb))
    with (List.length lengths
          + S (List.length tvb - List.length lengths))%nat
    by (unfold len in *; lia).
  rewrite Hloop. cbn [dissect_spdy_loop]. rewrite Z.sub_diag.
  exists d1, evs. auto.
Qed.

(** *** Name/value pairs *)

Lemma byte_val_byte_of z : byte_val (byte_of z) = z mod 256.
Proof.
  unfold byte_val, byte_of.
  pose proof (Z.mod_pos_bound z 256 ltac:(lia)) as Hm.
  destruct (Byte.of_N (Z.to_N (z mod 256))) as [b|] eqn:Hb.
  - rewrite (Byte.to_of_N _ Hb). lia.
  - apply Byte.of_N_None_iff in Hb. lia.
Qed.

Lemma lor_shiftl_8 a b :
  0 <= b < 256 -> Z.lor (Z.shiftl a 8) b = a * 256 + b.
Proof.
  intros Hb.
  assert (Hland : Z.land (Z.shiftl a 8) b = 0).
  { apply Z.bits_inj'. intros n Hn.
    rewrite Z.land_spec, Z.bits_0.
    destruct (Z.ltb_spec n 8) as [Hlow|Hhigh].
    - rewrite Z.shiftl_spec_low by lia. reflexivity.
    - destruct (Z.eqb_spec b 0) as [->|Hnz].
      + rewrite Z.bits_0. apply andb_false_r.
      + assert (Hlog : Z.log2 b < n).
        { apply Z.lt_le_trans with 8; [|lia].
          apply Z.log2_lt_pow2; [lia|]. change (2 ^ 8) with 256. lia. }
        rewrite (Z.bits_above_log2 b n) by lia.
        apply andb_false_r. }
  pose proof (Z.add_lor_land (Z.shiftl a 8) b) as Hadd.
  assert (Hs : Z.shiftl a 8 = a * 256)
    by (rewrite Z.shiftl_mul_pow2 by lia; reflexivity).
  lia.
Qed.

Lemma be_combine_be32 n : 0 <= n < 2 ^ 32 -> be_combine (be32 n) = n.
Proof.
  intros Hn. unfold be_combine, be32. cbn [fold_left].
  change (2 ^ 32) with 4294967296 in Hn.
  change (2 ^ 24) with 16777216. change (2 ^ 16) with 65536.
  change (2 ^ 8) with 256.
  rewrite !lor_shiftl_8
    by (rewrite byte_val_byte_of; apply Z.mod_pos_bound; lia).
  rewrite !byte_val_byte_of. Z.to_euclidean_division_equations. lia.
Qed.

Lemma len_be32 n : len (be32 n) = 4.
Proof. reflexivity. Qed.

Lemma bytes_at_mid (before bs after : list byte) :
  bytes_at (before ++ bs ++ after) (len before) (len bs) = Some bs.
Proof.
  pose proof (len_nonneg before). pose proof (len_nonneg bs).
  pose proof (len_nonneg after).
  rewrite bytes_at_in by (rewrite ?len_app; lia).
  f_equal. unfold len. rewrite !Nat2Z.id.
  rewrite skipn_app, skipn_all, Nat.sub_diag. cbn [app skipn].
  rewrite firstn_app, firstn_all, Nat.sub_diag. cbn [firstn].
  apply app_nil_r.
Qed.

Lemma to_gint_small z : 0 <= z < 2 ^ 31 -> to_gint z = z.
Proof.
  intros H. unfold to_gint.
  change (2 ^ 31) with 2147483648 in *. change (2 ^ 32) with 4294967296.
  rewrite Z.mod_small by lia. lia.
Qed.

Lemma bytes_at_seg (a b c tvb : list byte) o n :
  tvb = a ++ b ++ c -> o = len a -> n = len b -> bytes_at tvb o n = Some b.
Proof. intros -> -> ->. apply bytes_at_mid. Qed.

Lemma get_ntohl_mid (before after : list byte) n :
  0 <= n < 2 ^ 32 ->
  tvb_get_ntohl (before ++ be32 n ++ after) (len before) = Some n.
Proof.
  intros Hn. unfold tvb_get_ntohl, get_be.
  rewrite <- (len_be32 n), bytes_at_mid. cbn [option_map].
  now rewrite be_combine_be32.
Qed.

Lemma get_ntohl_seg (a c tvb : list byte) o n :
  tvb = a ++ be32 n ++ c -> o = len a -> 0 <= n < 2 ^ 32 ->
  tvb_get_ntohl tvb o = Some n.
Proof. intros -> -> Hn. now apply get_ntohl_mid. Qed.

(** The two sides are the same buffer cut differently, or the same
    offset. *)
Ltac seg_eq :=
  first
    [ reflexivity
    | solve [repeat match goal with
                    | x := _ |- _ => progress unfold x
                    end;
             unfold encode_header; cbn [fst snd];
             rewrite <- ?app_assoc; reflexivity]
    | solve [rewrite ?len_app, ?len_be32; lia] ].

Lemma item_in_bounds_in tvb start length :
  0 <= start -> 0 <= length -> start + length <= len tvb ->
  item_in_bounds tvb start length = true.
Proof.
  intros Hs Hl Hin. unfold item_in_bounds, tvb_get_ptr.
  destruct (Z.eqb_spec length (-1)); [lia|].
  now rewrite bytes_at_in by lia.
Qed.

Lemma header_loop_step (before after name value rest : list byte)
    (fuel : nat) (tree : bool) (h : headers) r evs :
  len name < 2 ^ 31 -> len value < 2 ^ 31 ->
  emits (zs:=zs)
    (header_loop fuel
       ((before ++ encode_header (name, value)) ++ rest ++ after)
       (len (before ++ encode_header (name, value))) tree
       (remember_header h (c_str name) (c_str value)))
    r evs ->
  exists evs0,
    emits (zs:=zs)
      (header_loop (S fuel)
         (before ++ (encode_header (name, value) ++ rest) ++ after)
         (len before) tree h)
      r (evs0 ++ evs) /\
    (tree = false -> evs0 = []).
Proof.
  intros Hname Hvalue Hrest.
  pose proof (len_nonneg before) as Hb. pose proof (len_nonneg name) as Hn.
  pose proof (len_nonneg value) as Hv. pose proof (len_nonneg rest) as Hr.
  pose proof (len_nonneg after) as Ha.
  change (2 ^ 31) with 2147483648 in *.
  set (tvb := before ++ (encode_header (name, value) ++ rest) ++ after).
  assert (Htvb : (before ++ encode_header (name, value)) ++ rest ++ after
                 = tvb).
  { unfold tvb. now rewrite <- !app_assoc. }
  rewrite Htvb in Hrest.
  assert (Hlen : len tvb
                 = len before + (4 + len name + (4 + len value)) + len rest
                   + len after).
  { unfold tvb, encode_header. cbn [fst snd].
    rewrite !len_app, !len_be32. lia. }
  assert (Hoff : len (before ++ encode_header (name, value))
                 = len before + 4 + len name + 4 + len value).
  { unfold encode_header. cbn [fst snd]. rewrite !len_app, !len_be32. lia. }
  rewrite Hoff in Hrest.
  assert (Hrem : (tvb_length_remaining tvb (len before) =? 0) = false).
  { rewrite tvb_length_remaining_in by lia. apply Z.eqb_neq. lia. }
  assert (Hnl : tvb_get_ntohl tvb (len before) = Some (len name)).
  { apply (get_ntohl_seg before (name ++ be32 (len value) ++ value ++ rest
                                   ++ after));
      [seg_eq|seg_eq|change (2 ^ 32) with 4294967296; lia]. }
  assert (Hnm : tvb_memdup tvb (len before + 4) (to_gint (len name))
                = Some name).
  { rewrite to_gint_small by (change (2 ^ 31) with 2147483648; lia).
    apply (bytes_at_seg (before ++ be32 (len name)) name
             (be32 (len value) ++ value ++ rest ++ after)); seg_eq. }
  assert (Hvl : tvb_get_ntohl tvb (len before + 4 + len name)
                = Some (len value)).
  { apply (get_ntohl_seg (before ++ be32 (len name) ++ name)
             (value ++ rest ++ after));
      [seg_eq|seg_eq|change (2 ^ 32) with 4294967296; lia]. }
  assert (Hvm : tvb_memdup tvb (len before + 4 + len name + 4)
                  (to_gint (len value)) = Some value).
  { rewrite to_gint_small by (change (2 ^ 31) with 2147483648; lia).
    apply (bytes_at_seg (before ++ be32 (len name) ++ name
                           ++ be32 (len value)) value (rest ++ after));
      seg_eq. }
  assert (Hi1 : item_in_bounds tvb (len before)
                  (len before + 4 + len name + 4 + len value - len before)
                = true) by (apply item_in_bounds_in; lia).
  assert (Hi2 : item_in_bounds tvb (len before) 4 = true)
    by (apply item_in_bounds_in; lia).
  assert (Hi3 : item_in_bounds tvb (len before + 4 + len name) 4 = true)
    by (apply item_in_bounds_in; lia).
  eexists. split.
  - cbn [header_loop]. rewrite Hrem.
    eapply emits_eq; [emits_auto|].
    cbn [app]. reflexivity.
  - intros ->. reflexivity.
Qed.

Lemma header_loop_run (pairs : list (list byte * list byte))
    (before after : list byte) (tree : bool) (h : headers) (extra : nat) :
  Forall (fun p => len (fst p) < 2 ^ 31 /\ len (snd p) < 2 ^ 31) pairs ->
  extra = O \/ after = [] ->
  exists evs,
    emits (zs:=zs)
      (header_loop (List.length pairs + extra)
         (before ++ encode_headers pairs ++ after) (len before) tree h)
      (Val (fold_left
              (fun h p => remember_header h (c_str (fst p)) (c_str (snd p)))
              pairs h))
      evs /\
    (tree = false -> evs = []).
Proof.
  intros Hok Hextra. revert before h.
  induction Hok as [|[name value] rest [Hn Hv] _ IH]; intros before h.
  - cbn [List.length Nat.add encode_headers flat_map app fold_left].
    exists []. split; [|reflexivity].
    destruct extra as [|extra]; [apply emits_ret|].
    destruct Hextra as [Hex| ->]; [discriminate|].
    cbn [header_loop]. rewrite app_nil_r.
    pose proof (len_nonneg before).
    rewrite tvb_length_remaining_in by lia.
    rewrite Z.sub_diag. apply emits_ret.
  - cbn [fst snd] in Hn, Hv.
    destruct (IH (before ++ encode_header (name, value))
                (remember_header h (c_str name) (c_str value)))
      as (evs & Hemit & Hnil).
    destruct (header_loop_step before after name value (encode_headers rest)
                (List.length rest + extra) tree h _ evs Hn Hv Hemit)
      as (evs0 & Hstep & Hnil0).
    exists (evs0 ++ evs). split.
    + exact Hstep.
    + intros Ht. now rewrite Hnil0, Hnil.
Qed.

(** X16.  Decoding what was encoded.  When a header block holds, from some
    offset on, a list of name/value pairs in the wire layout (every string
    behind its 32-bit length), the loop over the pairs of
    [dissect_spdy_frame] reads exactly these pairs: it ends with the header
    values that remembering the pairs one by one, in order, gives, so a
    later pair of the same name wins.  A count of pairs larger than the
    block holds does no harm when the block ends with the last pair: the
    loop stops there.  Without a tree the host is not called. *)
Theorem header_loop_decodes (pairs : list (list byte * list byte))
    (before after : list byte) (tree : bool) (h : headers) (extra : nat) :
  Forall (fun p => len (fst p) < 2 ^ 31 /\ len (snd p) < 2 ^ 31) pairs ->
  extra = O \/ after = [] ->
  exists evs,
    emits (zs:=zs)
      (header_loop (List.length pairs + extra)
         (before ++ encode_headers pairs ++ after) (len before) tree h)
      (Val (fold_left
              (fun h p => remember_header h (c_str (fst p)) (c_str (snd p)))
              pairs h))
      evs /\
    (tree = false -> evs = []).
Proof.
  exact (header_loop_run pairs before after tree h extra).
Qed.

(** *** SETTINGS entries *)

Lemma setting_items_app a b :
  setting_items (a ++ b) = setting_items a ++ setting_items b.
Proof.
  induction a as [|e a IH]; [reflexivity|].
  destruct e as [| | | | |? hf ? ?| | | | | | | | | |];
    cbn [app setting_items]; try exact IH.
  destruct hf; cbn [app]; rewrite ?IH; reflexivity.
Qed.

Lemma settings_entries_emits tvb (frame_tree : bool) fuel :
  forall offset num_entries,
    0 <= offset ->
    (frame_tree = true -> offset + 8 * Z.of_nat fuel <= len tvb) ->
    exists evs,
      emits (zs:=zs) (settings_entries fuel tvb offset frame_tree num_entries)
        (Val tt) evs /\
      setting_items evs
      = if frame_tree
        then map (fun i => (offset + 8 * Z.of_nat i, 8)) (seq 0 fuel)
        else [].
Proof.
  induction fuel as [|fuel IH]; intros offset num_entries Ho Hin;
    cbn [settings_entries].
  - exists []. split; [apply emits_ret|]. now destruct frame_tree.
  - destruct frame_tree.
    + specialize (Hin eq_refl).
      destruct (IH (offset + 1 + 3 + 4) (num_entries - 1) ltac:(lia)
                  ltac:(intros _; lia)) as (evs & Hrest & Hitems).
      assert (Hi8 : item_in_bounds tvb offset 8 = true)
        by (apply item_in_bounds_in; lia).
      assert (Hi1 : item_in_bounds tvb offset 1 = true)
        by (apply item_in_bounds_in; lia).
      assert (Hi3 : item_in_bounds tvb (offset + 1) 3 = true)
        by (apply item_in_bounds_in; lia).
      assert (Hi4 : item_in_bounds tvb (offset + 1 + 3) 4 = true)
        by (apply item_in_bounds_in; lia).
      assert (Hid : exists id, tvb_get_ntoh24 tvb (offset + 1) = Some id).
      { unfold tvb_get_ntoh24, get_be. rewrite bytes_at_in by lia.
        eexists. reflexivity. }
      destruct Hid as (id & Hid).
      eexists. split; [emits_auto|].
      rewrite !setting_items_app, Hitems.
      destruct (negb (num_entries =? 1));
        cbn [setting_items app seq map]; f_equal;
        [f_equal; lia| |f_equal; lia|];
        rewrite <- seq_shift, map_map; apply map_ext; intros i;
        f_equal; lia.
    + destruct (IH (offset + 8) (num_entries - 1) ltac:(lia)
                  ltac:(discriminate)) as (evs & Hrest & Hitems).
      exists evs. split; [|exact Hitems].
      apply emits_bind_ret. exact Hrest.
Qed.

(** X17.  A SETTINGS payload that passes the two checks of
    [dissect_spdy_settings_payload] (at least 4 bytes, and at least 8 times
    the count of entries): the function answers the payload's length.  With
    a tree, and the entries inside the buffer, it shows one setting item
    for every entry the count announces, each 8 bytes long and 8 bytes after
    the one before, the first right behind the count; without a tree it
    shows nothing and does not look at the entries. *)
Theorem settings_entries_shown (tvb : Tvb.t) (offset length : Z)
    (frame_tree : bool) (n : Z) :
  0 <= offset ->
  tvb_get_ntohl tvb offset = Some n ->
  n < 2 ^ 28 ->
  4 <= length -> n * 8 <= length ->
  (frame_tree = true -> offset + 4 + 8 * n <= len tvb) ->
  exists evs,
    emits (zs:=zs) (dissect_spdy_settings_payload tvb offset length frame_tree)
      (Return length) evs /\
    setting_items evs
    = if frame_tree
      then map (fun i => (offset + 4 + 8 * Z.of_nat i, 8))
             (seq 0 (Z.to_nat n))
      else [].
Proof.
  intros Ho Hn Hmax H4 Hroom Hin.
  assert (Hn0 : 0 <= n).
  { unfold tvb_get_ntohl, get_be in Hn.
    destruct (bytes_at tvb offset 4); [|discriminate].
    injection Hn as <-. apply be_combine_nonneg. }
  change (2 ^ 28) with 268435456 in Hmax.
  assert (Hgn : to_gint n = n)
    by (apply to_gint_small; change (2 ^ 31) with 2147483648; lia).
  assert (Hg8 : to_gint (n * 8) = n * 8)
    by (apply to_gint_small; change (2 ^ 31) with 2147483648; lia).
  assert (Hc1 : (length <? 4) = false) by (apply Z.ltb_ge; exact H4).
  assert (Hc2 : (length <? n * 8) = false) by (apply Z.ltb_ge; exact Hroom).
  assert (Hi : item_in_bounds tvb offset 4 = true)
    by (eapply get_be_item_in_bounds; [exact Hn|lia]).
  destruct (settings_entries_emits tvb frame_tree (Z.to_nat n) (offset + 4) n
              ltac:(lia) ltac:(intros Ht; specialize (Hin Ht); lia))
    as (evs & Hentries & Hitems).
  unfold dissect_spdy_settings_payload. rewrite Hc1.
  eexists. split.
  - eapply emits_bind; [apply emits_lift; exact Hn|].
    cbv beta zeta. rewrite Hgn, Hg8, Hc2.
    emits_auto.
  - rewrite !setting_items_app.
    destruct frame_tree, (Z.ltb_spec 0 n);
      cbn [setting_items app]; rewrite ?setting_items_app, ?Hitems;
      cbn [setting_items app]; rewrite ?app_nil_r; try reflexivity.
    replace n with 0 by lia. reflexivity.
Qed.

(** *** DATA frames *)

Lemma header_events_no_calls evs :
  forallb header_event evs = true -> dissector_calls evs = [].
Proof.
  induction evs as [|e evs IH]; [reflexivity|].
  cbn [forallb]. intros [He Hrest]%andb_true_iff.
  destruct e; try discriminate He; cbn [dissector_calls]; exact (IH Hrest).
Qed.

Lemma frame_prelude_data tvb offset tree stream_id flags frame_length :
  data_frame_at tvb offset stream_id flags frame_length ->
  exists evs,
    emits (zs:=zs) (frame_prelude tvb offset tree)
      (Val (0, 0, SPDY_DATA, stream_id, flags, frame_length, offset + 8))
      evs /\
    dissector_calls evs = [].
Proof.
  intros (Ho & Hmax & Hcb & Hsid & Hfl & Hlen & Hwhole).
  assert (Hl0 : 0 <= frame_length).
  { unfold tvb_get_ntoh24, Tvb.get_be in Hlen.
    destruct (bytes_at _ _ _); [|discriminate].
    injection Hlen as <-. apply be_combine_nonneg. }
  assert (Hcb' : tvb_get_bits tvb (offset * 8) 1 = Some 0)
    by (rewrite <- Hcb; unfold tvb_get_bits8; f_equal;
        now rewrite Z.shiftl_mul_pow2 by lia).
  assert (H0 : item_in_bounds tvb offset (-1) = true)
    by (unfold item_in_bounds, tvb_get_ptr; cbn [Z.eqb Pos.eqb];
        now rewrite compute_offset_in by lia).
  assert (Hsi : item_in_bounds tvb offset 4 = true)
    by (apply item_in_bounds_in; lia).
  replace (offset + 5) with (offset + 4 + 1) in Hlen by lia.
  assert (Hli : item_in_bounds tvb (offset + 4 + 1) 3 = true)
    by (eapply get_be_item_in_bounds; [exact Hlen|lia]).
  destruct (dissect_spdy_flags_ui tvb (offset + 4) tree SPDY_DATA flags Hfl)
    as (fevs & Hfe & Hfh).
  assert (Hrem :
    (to_guint32 (tvb_length_remaining tvb (offset + 4 + 1 + 3))
     <? frame_length) = false)
    by (rewrite tvb_length_remaining_in by lia;
        unfold to_guint32; rewrite Z.mod_small by lia;
        apply Z.ltb_ge; lia).
  assert (Hshort : (tvb_length_remaining tvb offset <? 8) = false)
    by (rewrite tvb_length_remaining_in by lia; apply Z.ltb_ge; lia).
  assert (Hz : negb (0 =? 0) = false) by reflexivity.
  unfold frame_prelude, col_set_str, col_add_str,
    dissect_spdy_control_bit, expert_add_info_format, proto_item_set_len.
  replace (offset + 8) with (offset + 4 + 1 + 3) by lia.
  eexists. split.
  - emits_auto.
  - pose proof (header_events_no_calls fevs Hfh) as Hnc.
    destruct tree; rewrite ?dissector_calls_app, ?Hnc; reflexivity.
Qed.

Lemma data_payload_partial tvb offset tree stream_id flags frame_length
    (s : state zs) :
  0 <= offset -> 0 <= frame_length -> offset + frame_length <= len tvb ->
  Z.land flags SPDY_FLAG_FIN = 0 ->
  exists s' evs,
    dissect_spdy_data_payload Host Prefs tvb offset tree tree tree stream_id
      flags frame_length s = (Val frame_length, s') /\
    pinfo s' = pinfo s /\ ui s' = ui s ++ evs /\ dissector_calls evs = [] /\
    hd_error evs
    = Some (E_col_add_fstr COL_INFO "DATA[%u] length=%d"
              [AInt stream_id; AInt frame_length]).
Proof.
  intros Ho Hl Hin Hfin.
  assert (Hi : item_in_bounds tvb offset frame_length = true)
    by (apply item_in_bounds_in; lia).
  assert (Hsub : tvb_new_subset tvb offset frame_length
                 = Some (firstn (Z.to_nat frame_length)
                           (skipn (Z.to_nat offset) tvb))).
  { unfold tvb_new_subset, tvb_get_ptr.
    destruct (Z.eqb_spec frame_length (-1)); [lia|].
    apply bytes_at_in; lia. }
  destruct s as [p c u].
  unfold dissect_spdy_data_payload, data_record_chunk, data_assemble,
    proto_tree_add_item, proto_item_append_text, col_add_fstr,
    col_set_fence.
  rewrite Hi, Hsub, Hfin. cbn [Z.eqb negb andb].
  set (payload := firstn _ _) in *.
  assert (Hdup : tvb_memdup payload 0 frame_length = Some payload).
  { assert (Hpl : len payload = frame_length).
    { unfold payload, len in *. rewrite length_firstn, length_skipn. lia. }
    unfold tvb_memdup. rewrite bytes_at_in by lia.
    cbn [Z.to_nat skipn]. rewrite <- Hpl. now rewrite firstn_len. }
  destruct tree, (Z.eqb_spec frame_length 0) as [Hz|Hnz];
    repeat first
      [ progress cbv beta iota zeta
          delta [bind emit when get_conv get_pinfo put_conv lift ret negb
                 orb andb pinfo conv ui]
      | rewrite Hdup
      | match goal with
        | |- context [fd_visited p] => destruct (fd_visited p)
        | |- context [spdy_assemble_entity_bodies Prefs] =>
            destruct (spdy_assemble_entity_bodies Prefs)
        | |- context [spdy_get_num_data_frames c stream_id =? 0] =>
            destruct (spdy_get_num_data_frames c stream_id =? 0)
        end ];
    (do 2 eexists; split; [reflexivity|]; split; [reflexivity|];
     split; [rewrite <- ?app_assoc; reflexivity|split; reflexivity]).
Qed.

Lemma data_frame_partial tvb offset tree stream_id flags frame_length
    (s : state zs) :
  data_frame_at tvb offset stream_id flags frame_length ->
  Z.land flags SPDY_FLAG_FIN = 0 ->
  exists s' evs,
    call (dissect_spdy_frame Zl Host Prefs tvb offset tree) s
    = (Val (offset + 8 + frame_length), s') /\
    pinfo s' = pinfo s /\ ui s' = ui s ++ evs /\ dissector_calls evs = [] /\
    In (E_col_add_fstr COL_INFO "DATA[%u] length=%d"
          [AInt stream_id; AInt frame_length]) evs.
Proof.
  intros Hframe Hfin.
  destruct (frame_prelude_data tvb offset tree stream_id flags frame_length
              Hframe) as (evs0 & Hpre & Hc0).
  destruct Hframe as (Ho & Hmax & _ & _ & _ & Hlen & Hwhole).
  assert (Hl0 : 0 <= frame_length).
  { unfold tvb_get_ntoh24, Tvb.get_be in Hlen.
    destruct (bytes_at _ _ _); [|discriminate].
    injection Hlen as <-. apply be_combine_nonneg. }
  destruct (data_payload_partial tvb (offset + 8) tree stream_id flags
              frame_length (add_ui s evs0) ltac:(lia) Hl0 ltac:(lia) Hfin)
    as (s' & evs1 & Hrun & Hp & Hu & Hc1 & Hhd).
  exists s', (evs0 ++ evs1).
  unfold dissect_spdy_frame, call, bind. rewrite Hpre.
  cbv beta iota. cbn [Z.eqb]. unfold call, bind. rewrite Hrun.
  unfold return_.
  split; [reflexivity|]. split; [exact Hp|].
  split; [rewrite Hu; cbn [add_ui ui]; now rewrite app_assoc|].
  split; [now rewrite dissector_calls_app, Hc0, Hc1|].
  apply in_or_app. right.
  destruct evs1 as [|e evs1]; [discriminate|].
  injection Hhd as ->. now left.
Qed.

(** X18.  A whole DATA frame without FIN, at any offset of the buffer:
    [dissect_spdy_frame] answers the offset behind the frame (the frame's
    offset plus 8 plus the payload length), not the frame's size; it calls
    no sub-dissector, the body being incomplete, and leaves the packet as
    it was. *)
Theorem data_frame_without_fin (tvb : Tvb.t) (offset : Z) (tree : bool)
    (stream_id flags frame_length : Z) (s : state zs) :
  data_frame_at tvb offset stream_id flags frame_length ->
  Z.land flags SPDY_FLAG_FIN = 0 ->
  exists s' evs,
    call (dissect_spdy_frame Zl Host Prefs tvb offset tree) s
    = (Val (offset + 8 + frame_length), s') /\
    pinfo s' = pinfo s /\ ui s' = ui s ++ evs /\ dissector_calls evs = [].
Proof.
  intros Hframe Hfin.
  destruct (data_frame_partial tvb offset tree stream_id flags frame_length s
              Hframe Hfin) as (s' & evs & Hrun & Hp & Hu & Hc & _).
  exists s', evs. auto.
Qed.

(** X19.  A DATA frame without FIN that is not the first frame of the
    buffer stops the driver.  After a run of NOOP, GOAWAY and CREDENTIAL
    frames the driver dissects the DATA frame, then answers the offset at
    which this frame starts, as if the frame were not there: what the
    frame's dissection answers is an offset, which the driver compares
    with the frame's size.  No request for more bytes is recorded. *)
Theorem driver_stops_at_data_frame (tvb : Tvb.t) (tree : bool)
    (d : driver_state zs) (lengths : list Z)
    (offset stream_id flags frame_length : Z) :
  plain_frames_upto tvb 0 lengths offset ->
  0 < offset ->
  data_frame_at tvb offset stream_id flags frame_length ->
  Z.land flags SPDY_FLAG_FIN = 0 ->
  exists d' evs,
    dissect_spdy Zl Host Prefs tvb tree d = Some (Val offset, d') /\
    offset < len tvb /\
    d_pinfo d' = d_pinfo d /\
    d_ui d' = d_ui d ++ evs /\
    In (E_col_add_fstr COL_INFO "DATA[%u] length=%d"
          [AInt stream_id; AInt frame_length]) evs.
Proof.
  intros Hrun Hpos Hframe Hfin. unfold dissect_spdy.
  pose proof (len_nonneg tvb) as Hn.
  pose proof (plain_frames_count tvb lengths offset 0 ltac:(lia) Hrun)
    as Hcount.
  pose proof Hframe as (Ho & Hmax & _ & _ & _ & Hlen & Hwhole).
  assert (Hl0 : 0 <= frame_length).
  { unfold tvb_get_ntoh24, Tvb.get_be in Hlen.
    destruct (bytes_at _ _ _); [|discriminate].
    injection Hlen as <-. apply be_combine_nonneg. }
  destruct (plain_frames_loop tvb tree lengths offset 0 d ltac:(lia)
              ltac:(lia) Hrun) as (d1 & Hp1 & (evs1 & Hu1 & _) & _ & Hloop).
  rewrite tvb_length_remaining_in by lia.
  replace (S (List.length tvb))
    with (List.length lengths
          + S (List.length tvb - List.length lengths))%nat
    by (unfold len in *; lia).
  rewrite Hloop. cbn [dissect_spdy_loop].
  destruct (Z.ltb_spec 0 (len tvb - offset)); [|lia].
  destruct (Z.ltb_spec (len tvb - offset) 8); [lia|].
  unfold get_spdy_message_len. rewrite Hlen. cbn [option_map].
  destruct (Z.ltb_spec (len tvb - offset) (frame_length + 8)); [lia|].
  match goal with
  | |- context [call _ ?s1] =>
      destruct (data_frame_partial tvb offset tree stream_id flags
                  frame_length s1 Hframe Hfin)
        as (s' & evs & Hcall & Hp & Hu & _ & Hin)
  end.
  rewrite Hcall.
  destruct (Z.eqb_spec (offset + 8 + frame_length) (frame_length + 8));
    [lia|]. cbn [negb].
  eexists _, (evs1 ++ evs). split; [reflexivity|].
  cbn [d_pinfo d_ui]. split; [lia|].
  split; [rewrite Hp; exact Hp1|].
  split; [rewrite Hu; cbn [ui]; rewrite Hu1; now rewrite app_assoc|].
  apply in_or_app. now right.
Qed.

(** X20.  A DATA frame on a stream that has no record (no SYN_STREAM or
    SYN_REPLY with a content type was seen): with or without FIN,
    [dissect_spdy_data_payload] answers the payload's length, records no
    chunk and assembles nothing (the conversation's data stay as they are),
    calls no sub-dissector and leaves the packet as it was. *)
Theorem data_without_stream_record (tvb : Tvb.t) (offset : Z) (tree : bool)
    (stream_id flags frame_length : Z) (s : state zs) :
  0 <= offset -> 0 <= frame_length -> offset + frame_length <= len tvb ->
  spdy_get_stream_info (conv s) stream_id = None ->
  exists evs,
    dissect_spdy_data_payload Host Prefs tvb offset tree tree tree stream_id
      flags frame_length s = (Val frame_length, add_ui s evs) /\
    dissector_calls evs = [].
Proof.
  intros Ho Hl Hin Hnone.
  assert (Hi : item_in_bounds tvb offset frame_length = true)
    by (apply item_in_bounds_in; lia).
  assert (Hsub : tvb_new_subset tvb offset frame_length
                 = Some (firstn (Z.to_nat frame_length)
                           (skipn (Z.to_nat offset) tvb))).
  { unfold tvb_new_subset, tvb_get_ptr.
    destruct (Z.eqb_spec frame_length (-1)); [lia|].
    apply bytes_at_in; lia. }
  destruct s as [p c u]. cbn [conv] in Hnone.
  assert (Hnum : spdy_get_num_data_frames c stream_id = 0)
    by (unfold spdy_get_num_data_frames; now rewrite Hnone).
  assert (Hadd : forall f d l, spdy_add_data_chunk c stream_id f d l = c)
    by (intros; unfold spdy_add_data_chunk; now rewrite Hnone).
  assert (Hinc : spdy_increment_data_chunk_count c stream_id = c)
    by (unfold spdy_increment_data_chunk_count; now rewrite Hnone).
  unfold dissect_spdy_data_payload, data_record_chunk, data_assemble,
    spdy_assemble_data_frames, proto_tree_add_item, proto_item_append_text,
    col_add_fstr, col_set_fence, add_ui.
  rewrite Hi, Hsub.
  set (payload := firstn _ _) in *.
  assert (Hdup : tvb_memdup payload 0 frame_length = Some payload).
  { assert (Hpl : len payload = frame_length).
    { unfold payload, len in *. rewrite length_firstn, length_skipn. lia. }
    unfold tvb_memdup. rewrite bytes_at_in by lia.
    cbn [Z.to_nat skipn]. rewrite <- Hpl. now rewrite firstn_len. }
  destruct tree, (Z.eqb_spec frame_length 0) as [Hz|Hnz],
    (Z.land flags SPDY_FLAG_FIN =? 0);
    repeat first
      [ progress cbv beta iota zeta
          delta [bind emit when get_conv get_pinfo put_conv lift ret negb
                 orb andb pinfo conv ui]
      | rewrite Hdup | rewrite Hnum | rewrite Hadd | rewrite Hinc
      | rewrite Hnone | progress cbn [Z.eqb]
      | match goal with
        | |- context [fd_visited p] => destruct (fd_visited p)
        | |- context [spdy_assemble_entity_bodies Prefs] =>
            destruct (spdy_assemble_entity_bodies Prefs)
        end ];
    (eexists; split; [rewrite <- ?app_assoc; reflexivity|reflexivity]).
Qed.

(** *** RST_STREAM and PING *)

Lemma get_bits31_of_word tvb o w :
  0 <= o -> tvb_get_ntohl tvb o = Some w ->
  tvb_get_bits32 tvb (Z.shiftl o 3 + 1) 31 = Some (w mod 2 ^ 31).
Proof.
  intros Ho Hw. unfold tvb_get_bits32, tvb_get_bits.
  rewrite Z.shiftl_mul_pow2 by lia. change (2 ^ 3) with 8.
  assert (Hoff : Z.shiftr (o * 8 + 1) 3 = o).
  { rewrite Z.shiftr_div_pow2 by lia. change (2 ^ 3) with 8.
    Z.to_euclidean_division_equations. lia. }
  assert (Hbit : Z.land (o * 8 + 1) 7 = 1).
  { change 7 with (Z.ones 3). rewrite Z.land_ones by lia.
    change (2 ^ 3) with 8. Z.to_euclidean_division_equations. lia. }
  cbv zeta. rewrite Hoff, Hbit.
  change ((1 + 31 + 7) / 8) with 4.
  unfold tvb_get_ntohl in Hw. rewrite Hw.
  change (8 * 4 - (1 + 31)) with 0. rewrite Z.shiftr_0_r.
  now rewrite Z.land_ones by lia.
Qed.

Lemma get_bits31_none tvb o :
  0 <= o -> tvb_get_ntohl tvb o = None ->
  tvb_get_bits32 tvb (Z.shiftl o 3 + 1) 31 = None.
Proof.
  intros Ho Hw. unfold tvb_get_bits32, tvb_get_bits.
  rewrite Z.shiftl_mul_pow2 by lia. change (2 ^ 3) with 8.
  assert (Hoff : Z.shiftr (o * 8 + 1) 3 = o).
  { rewrite Z.shiftr_div_pow2 by lia. change (2 ^ 3) with 8.
    Z.to_euclidean_division_equations. lia. }
  assert (Hbit : Z.land (o * 8 + 1) 7 = 1).
  { change 7 with (Z.ones 3). rewrite Z.land_ones by lia.
    change (2 ^ 3) with 8. Z.to_euclidean_division_equations. lia. }
  cbv zeta. rewrite Hoff, Hbit.
  change ((1 + 31 + 7) / 8) with 4.
  unfold tvb_get_ntohl in Hw. now rewrite Hw.
Qed.

Lemma emits_lift_none {A} :
  emits (zs:=zs) (lift (@None A)) (Raise ReportedBoundsError) [].
Proof. apply emits_throw. Qed.

Lemma emits_bind_raise {A B} (m : M zs A) (k : A -> M zs B) e e1 :
  emits m (Raise e) e1 -> emits (bind m k) (Raise e) e1.
Proof. intros Hm s. unfold bind. now rewrite Hm. Qed.

Lemma emits_call_raise (m : M zs Z) e evs :
  emits m (Raise e) evs -> emits (call m) (Raise e) evs.
Proof. intros Hm s. unfold call. now rewrite Hm. Qed.

Section WordFrames.

Variables (tvb : Tvb.t) (offset : Z) (tree : bool).
Variables version frame_type flags frame_length : Z.
Hypothesis Hframe :
  control_frame_at tvb offset version frame_type flags frame_length.
Hypothesis Hversion : MIN_SPDY_VERSION <= version.

Lemma word_frame_raises :
  frame_type < SPDY_INVALID ->
  emits (zs:=zs)
    (frame_type_fields tvb (offset + 8) tree tree frame_type frame_length 0)
    (Raise ReportedBoundsError) [] ->
  exists evs,
    emits (call (dissect_spdy_frame Zl Host Prefs tvb offset tree))
      (Raise ReportedBoundsError) evs /\
    forallb header_event evs = true.
Proof.
  intros Hgood Hfields.
  destruct (frame_prelude_control tvb offset tree version frame_type flags
              frame_length Hframe Hgood) as (evs & Hpre & Hhdr).
  exists evs. split; [|exact Hhdr].
  assert (Hv3 : (version <? MIN_SPDY_VERSION) = false)
    by (apply Z.ltb_ge; exact Hversion).
  unfold dissect_spdy_frame. apply emits_call_raise.
  eapply emits_eq; [eapply emits_bind; [exact Hpre|]|apply app_nil_r].
  cbv beta iota. change (1 =? 0) with false. cbv iota. rewrite Hv3.
  apply emits_bind_raise. exact Hfields.
Qed.

(** X21.  A whole RST_STREAM frame of a supported version.  The status is
    read at the offset at which the stream id was read: it is the first
    32-bit word of the payload, and the stream id shown is this same word
    without its top bit.  The status is reported as invalid when the
    table of status names has no entry for this word, and the frame
    answers its length plus 8.  When the buffer ends less than 4 bytes
    behind the frame header, the read raises the bounds error. *)
Theorem rst_stream_status_word :
  frame_type = SPDY_RST_STREAM ->
  exists evs,
    forallb header_event evs = true /\
    match tvb_get_ntohl tvb (offset + 8) with
    | Some w =>
        emits (call (dissect_spdy_frame Zl Host Prefs tvb offset tree))
          (Val (frame_length + 8))
          (evs
           ++ [E_col_append_fstr COL_INFO "[%d]" [AInt (w mod 2 ^ 31)]]
           ++ match match_strval w rst_stream_status_names with
              | None =>
                  [E_expert_add_info_format n_spdy_tree PI_PROTOCOL PI_ERROR
                     "Invalid status code for RST_STREAM: %u" [AInt w]]
              | Some _ => []
              end
           ++ [E_col_append_fstr COL_INFO " %s"
                 [val_to_str w rst_stream_status_names "Unknown (%d)"]])
    | None =>
        emits (call (dissect_spdy_frame Zl Host Prefs tvb offset tree))
          (Raise ReportedBoundsError) evs
    end.
Proof.
  intros Htype.
  pose proof (frame_length_nonneg tvb offset version frame_type flags
                frame_length Hframe) as Hl.
  assert (Ho : 0 <= offset) by (destruct Hframe; assumption).
  assert (Hgood : frame_type < SPDY_INVALID) by (rewrite Htype; reflexivity).
  destruct (tvb_get_ntohl tvb (offset + 8)) as [w|] eqn:Hw.
  - destruct (frame_prelude_control tvb offset tree version frame_type flags
                frame_length Hframe Hgood) as (evs & Hpre & Hhdr).
    exists evs. split; [exact Hhdr|].
    pose proof (get_bits31_of_word tvb (offset + 8) w ltac:(lia) Hw) as Hsid.
    assert (Hv3 : (version <? MIN_SPDY_VERSION) = false)
      by (apply Z.ltb_ge; exact Hversion).
    assert (Hcontrol : (1 =? 0) = false) by reflexivity.
    assert (Hfields :
      emits (zs:=zs)
        (frame_type_fields tvb (offset + 8) tree tree frame_type frame_length
           0)
        (Val (offset + 8 + 8, w mod 2 ^ 31))
        ([E_col_append_fstr COL_INFO "[%d]" [AInt (w mod 2 ^ 31)]]
         ++ match match_strval w rst_stream_status_names with
            | None =>
                [E_expert_add_info_format n_spdy_tree PI_PROTOCOL PI_ERROR
                   "Invalid status code for RST_STREAM: %u" [AInt w]]
            | Some _ => []
            end
         ++ [E_col_append_fstr COL_INFO " %s"
               [val_to_str w rst_stream_status_names "Unknown (%d)"]])).
    { unfold frame_type_fields. rewrite Htype. decide_constants.
      unfold col_append_fstr, expert_add_info_format.
      eapply emits_eq; [emits_auto|].
      destruct (match_strval w rst_stream_status_names); reflexivity. }
    assert (Hheaders :
      emits (zs:=zs)
        (frame_headers Zl Prefs tvb (offset + 8 + 8) offset tree frame_type
           (w mod 2 ^ 31) frame_length)
        (Return (8 + frame_length)) []).
    { apply frame_headers_none; [exact Hl|]. tauto. }
    replace (frame_length + 8) with (8 + frame_length) by lia.
    unfold dissect_spdy_frame.
    eapply emits_eq; [emits_auto|].
    now rewrite !app_nil_r.
  - destruct word_frame_raises as (evs & Hraise & Hhdr); [exact Hgood| |].
    + unfold frame_type_fields. rewrite Htype. decide_constants.
      rewrite (get_bits31_none tvb (offset + 8) ltac:(lia) Hw).
      apply emits_bind_raise, emits_lift_none.
    + exists evs. split; assumption.
Qed.

(** X22.  A whole PING frame of a supported version: the id shown is the
    first 32-bit word behind the frame header, whatever the frame's length
    says, and the frame answers its length plus 8; when the buffer ends
    less than 4 bytes behind the frame header, the read raises the bounds
    error. *)
Theorem ping_id_word :
  frame_type = SPDY_PING ->
  exists evs,
    forallb header_event evs = true /\
    match tvb_get_ntohl tvb (offset + 8) with
    | Some w =>
        emits (call (dissect_spdy_frame Zl Host Prefs tvb offset tree))
          (Val (frame_length + 8))
          (evs ++ [E_col_append_fstr COL_INFO " ID=%u" [AInt w]])
    | None =>
        emits (call (dissect_spdy_frame Zl Host Prefs tvb offset tree))
          (Raise ReportedBoundsError) evs
    end.
Proof.
  intros Htype.
  pose proof (frame_length_nonneg tvb offset version frame_type flags
                frame_length Hframe) as Hl.
  assert (Hgood : frame_type < SPDY_INVALID) by (rewrite Htype; reflexivity).
  destruct (tvb_get_ntohl tvb (offset + 8)) as [w|] eqn:Hw.
  - destruct (frame_prelude_control tvb offset tree version frame_type flags
                frame_length Hframe Hgood) as (evs & Hpre & Hhdr).
    exists evs. split; [exact Hhdr|].
    assert (Hv3 : (version <? MIN_SPDY_VERSION) = false)
      by (apply Z.ltb_ge; exact Hversion).
    assert (Hcontrol : (1 =? 0) = false) by reflexivity.
    assert (Hfields :
      emits (zs:=zs)
        (frame_type_fields tvb (offset + 8) tree tree frame_type frame_length
           0)
        (Val (offset + 8 + 4, 0))
        [E_col_append_fstr COL_INFO " ID=%u" [AInt w]]).
    { unfold frame_type_fields. rewrite Htype. decide_constants.
      unfold col_append_fstr.
      eapply emits_eq; [emits_auto|reflexivity]. }
    assert (Hheaders :
      emits (zs:=zs)
        (frame_headers Zl Prefs tvb (offset + 8 + 4) offset tree frame_type 0
           frame_length)
        (Return (8 + frame_length)) []).
    { apply frame_headers_none; [exact Hl|]. tauto. }
    replace (frame_length + 8) with (8 + frame_length) by lia.
    unfold dissect_spdy_frame.
    eapply emits_eq; [emits_auto|].
    now rewrite !app_nil_r.
  - destruct word_frame_raises as (evs & Hraise & Hhdr); [exact Hgood| |].
    + unfold frame_type_fields. rewrite Htype. decide_constants.
      rewrite Hw. apply emits_bind_raise, emits_lift_none.
    + exists evs. split; assumption.
Qed.

End WordFrames.

(** *** Header frames when header decompression is off *)

Section HeadersOff.

Variables (tvb : Tvb.t) (offset : Z) (tree : bool).
Variables version frame_type flags frame_length : Z.
Hypothesis Hframe :
  control_frame_at tvb offset version frame_type flags frame_length.
Hypothesis Hversion : MIN_SPDY_VERSION <= version.
Hypothesis Hoff : spdy_decompress_headers Prefs = false.

(** X23.  A whole SYN_REPLY or HEADERS frame of a supported version with at
    least 8 bytes of payload, when header decompression is off: no inflater
    is touched, no name/value pair is read and no stream record is saved
    (the packet's and the conversation's data stay as they are); the frame
    answers its length plus 8.  The stream id is read right behind the
    frame header, and with a tree its item is put on the 4 bytes after
    it. *)
Theorem header_frame_not_decompressed :
  frame_type = SPDY_SYN_REPLY \/ frame_type = SPDY_HEADERS ->
  8 <= frame_length ->
  exists evs w,
    tvb_get_ntohl tvb (offset + 8) = Some w /\
    emits (call (dissect_spdy_frame Zl Host Prefs tvb offset tree))
      (Val (frame_length + 8))
      (evs
       ++ (if tree
           then [E_proto_tree_add_item n_spdy_tree hf_spdy_streamid
                   (offset + 12) 4]
           else [])
       ++ [E_col_append_fstr COL_INFO "[%u]" [AInt (w mod 2 ^ 31)]]
       ++ (if tree
           then [E_proto_tree_add_item n_spdy_tree hf_spdy_header_block
                   (offset + 12) (frame_length - 4)]
           else [])) /\
    forallb header_event evs = true /\
    zlib_calls evs = [].
Proof.
  intros Htype Hlong.
  destruct Hframe as (Ho & Hmax & _ & _ & _ & _ & _ & Hwhole).
  assert (Hgood : frame_type < SPDY_INVALID)
    by (destruct Htype as [-> | ->]; reflexivity).
  destruct (frame_prelude_control tvb offset tree version frame_type flags
              frame_length Hframe Hgood) as (evs & Hpre & Hhdr).
  assert (Hw : exists w, tvb_get_ntohl tvb (offset + 8) = Some w).
  { unfold tvb_get_ntohl, get_be. rewrite bytes_at_in by lia.
    eexists. reflexivity. }
  destruct Hw as (w & Hw).
  exists evs, w. split; [exact Hw|]. split; [|split; [exact Hhdr|]].
  2:{ clear - Hhdr. induction evs as [|e evs IH]; [reflexivity|].
      cbn [forallb] in Hhdr. apply andb_true_iff in Hhdr as [He Hrest].
      destruct e; try discriminate He; cbn [zlib_calls]; exact (IH Hrest). }
  pose proof (get_bits31_of_word tvb (offset + 8) w ltac:(lia) Hw) as Hsid.
  assert (Hv3 : (version <? MIN_SPDY_VERSION) = false)
    by (apply Z.ltb_ge; exact Hversion).
  assert (Hcontrol : (1 =? 0) = false) by reflexivity.
  assert (Hi1 : item_in_bounds tvb (offset + 8 + 4) 4 = true)
    by (apply item_in_bounds_in; lia).
  assert (Hi2 : item_in_bounds tvb (offset + 8 + 4)
                  (frame_length + 8 - (offset + 8 + 4 - offset)) = true)
    by (apply item_in_bounds_in; lia).
  assert (Hfields :
    emits (zs:=zs)
      (frame_type_fields tvb (offset + 8) tree tree frame_type frame_length 0)
      (Val (offset + 8 + 4, w mod 2 ^ 31))
      ((if tree
        then [E_proto_tree_add_item n_spdy_tree hf_spdy_streamid
                (offset + 8 + 4) 4]
        else [])
       ++ [E_col_append_fstr COL_INFO "[%u]" [AInt (w mod 2 ^ 31)]])).
  { unfold frame_type_fields, col_append_fstr.
    destruct Htype as [-> | ->]; decide_constants;
      (eapply emits_eq; [emits_auto|]); now rewrite ?app_nil_r. }
  assert (Hl : (frame_length <? 0) = false) by (apply Z.ltb_ge; lia).
  assert (Hheaders :
    emits (zs:=zs)
      (frame_headers Zl Prefs tvb (offset + 8 + 4) offset tree frame_type
         (w mod 2 ^ 31) frame_length)
      (Return (8 + frame_length))
      (if tree
       then [E_proto_tree_add_item n_spdy_tree hf_spdy_header_block
               (offset + 8 + 4)
               (frame_length + 8 - (offset + 8 + 4 - offset))]
       else [])).
  { unfold frame_headers, frame_header_block. rewrite Hoff. cbn [negb].
    assert (Hty : (frame_type =? SPDY_SYN_STREAM)
                  || (frame_type =? SPDY_SYN_REPLY)
                  || (frame_type =? SPDY_HEADERS) = true)
      by (destruct Htype as [-> | ->]; reflexivity).
    rewrite Hty. cbv zeta.
    eapply emits_eq.
    - eapply emits_bind.
      + eapply emits_bind; [apply emits_item; exact Hi2|apply emits_ret].
      + cbv beta iota. rewrite Hl. change (Z.to_nat 0) with O.
        cbn [header_loop]. apply emits_bind_ret. cbn [hdr_version no_headers].
        apply emits_bind_ret. apply emits_bind_get_pinfo. intros p.
        cbn [content_type no_headers]. apply emits_bind_ret.
        apply emits_return.
    - now rewrite !app_nil_r. }
  replace (frame_length + 8) with (8 + frame_length) by lia.
  replace (offset + 12) with (offset + 8 + 4) by lia.
  replace (frame_length - 4)
    with (frame_length + 8 - (offset + 8 + 4 - offset)) by lia.
  unfold dissect_spdy_frame.
  eapply emits_eq; [emits_auto|].
  now rewrite ?app_nil_r, <- ?app_assoc.
Qed.

End HeadersOff.

(** *** Header frames whose block does not inflate *)

Lemma get_bits3_in tvb o :
  0 <= o -> o + 1 <= len tvb ->
  exists v, tvb_get_bits tvb (o * 8) 3 = Some v.
Proof.
  intros Ho Hin. unfold tvb_get_bits.
  assert (Hoff : Z.shiftr (o * 8) 3 = o).
  { rewrite Z.shiftr_div_pow2 by lia. change (2 ^ 3) with 8.
    Z.to_euclidean_division_equations. lia. }
  assert (Hbit : Z.land (o * 8) 7 = 0).
  { change 7 with (Z.ones 3). rewrite Z.land_ones by lia.
    change (2 ^ 3) with 8. Z.to_euclidean_division_equations. lia. }
  cbv zeta. rewrite Hoff, Hbit.
  change ((0 + 3 + 7) / 8) with 1.
  unfold get_be. rewrite bytes_at_in by lia. cbn [option_map].
  eexists. reflexivity.
Qed.

Lemma zlib_calls_app a b :
  zlib_calls (a ++ b) = zlib_calls a ++ zlib_calls b.
Proof.
  induction a as [|e a IH]; [reflexivity|].
  destruct e; cbn [app zlib_calls]; now rewrite ?IH.
Qed.

Lemma select_decompressor_any stream_id frame_type decomp (s s' : state zs) :
  select_decompressor stream_id frame_type s = (Val decomp, s) ->
  select_decompressor stream_id frame_type s' = (Val decomp, s').
Proof.
  unfold select_decompressor.
  repeat match goal with
         | |- context [if ?c then _ else _] => destruct c
         end;
    unfold ret, throw; intros [= <-]; reflexivity.
Qed.

Section HeaderFrame.

Variables (tvb : Tvb.t) (offset : Z) (tree : bool).
Variables version frame_type flags frame_length : Z.
Hypothesis Hframe :
  control_frame_at tvb offset version frame_type flags frame_length.
Hypothesis Hversion : MIN_SPDY_VERSION <= version.
Hypothesis Htype :
  frame_type = SPDY_SYN_STREAM \/ frame_type = SPDY_SYN_REPLY \/
  frame_type = SPDY_HEADERS.
Hypothesis Hfits :
  (if frame_type =? SPDY_SYN_STREAM then 10 else 8) <= frame_length.

(** The fields before the header block: the stream id is read right
    behind the frame header and the block starts behind the fields. *)
Lemma header_frame_fields w :
  tvb_get_ntohl tvb (offset + 8) = Some w ->
  exists evs,
    emits (zs:=zs)
      (frame_type_fields tvb (offset + 8) tree tree frame_type frame_length 0)
      (Val (header_block_offset offset frame_type, w mod 2 ^ 31)) evs /\
    zlib_calls evs = [] /\ dissector_calls evs = [].
Proof.
  intros Hw.
  destruct Hframe as (Ho & Hmax & _ & _ & _ & _ & _ & Hwhole).
  pose proof (get_bits31_of_word tvb (offset + 8) w ltac:(lia) Hw) as Hsid.
  unfold header_block_offset, frame_type_fields, col_append_fstr.
  destruct Htype as [->|Hother].
  - change (SPDY_SYN_STREAM =? SPDY_SYN_STREAM) with true in *.
    cbv beta iota in Hfits. cbn [orb].
    assert (Hi1 : item_in_bounds tvb (offset + 8 + 4) 4 = true)
      by (apply item_in_bounds_in; lia).
    assert (Hw2 : exists w2, tvb_get_ntohl tvb (offset + 8 + 4) = Some w2).
    { unfold tvb_get_ntohl, get_be. rewrite bytes_at_in by lia.
      eexists. reflexivity. }
    destruct Hw2 as (w2 & Hw2).
    pose proof (get_bits31_of_word tvb (offset + 8 + 4) w2 ltac:(lia) Hw2)
      as Hassoc.
    destruct (get_bits3_in tvb (offset + 8 + 4 + 4) ltac:(lia) ltac:(lia))
      as (pri & Hpri).
    assert (Hpri8 :
      tvb_get_bits8 tvb (Z.shiftl (offset + 8 + 4 + 4) 3) 3 = Some pri).
    { unfold tvb_get_bits8. rewrite Z.shiftl_mul_pow2 by lia. exact Hpri. }
    replace (offset + 8 + 10) with (offset + 8 + 4 + 4 + 2) by lia.
    eexists. split.
    + eapply emits_eq; [emits_auto|reflexivity].
    + destruct tree; split; reflexivity.
  - assert (Hty : (frame_type =? SPDY_SYN_STREAM) = false)
      by (destruct Hother as [-> | ->]; reflexivity).
    assert (Hty3 : (frame_type =? SPDY_SYN_STREAM)
                   || (frame_type =? SPDY_SYN_REPLY)
                   || (frame_type =? SPDY_HEADERS) = true)
      by (destruct Hother as [-> | ->]; reflexivity).
    rewrite Hty in *. rewrite Hty3.
    assert (Hi1 : item_in_bounds tvb (offset + 8 + 4) 4 = true)
      by (apply item_in_bounds_in; lia).
    eexists. split.
    + eapply emits_eq; [emits_auto|reflexivity].
    + destruct tree; split; reflexivity.
Qed.

(** A header block that comes back null makes the frame's dissection
    report the failure and answer -1; the stream gets no record and
    nothing is saved with the packet. *)
Lemma header_frame_inflation_fails w decomp (s s1 : state zs) :
  spdy_decompress_headers Prefs = true ->
  tvb_get_ntohl tvb (offset + 8) = Some w ->
  spdy_find_saved_header_block (pinfo s) (w mod 2 ^ 31) frame_type = None ->
  select_decompressor (w mod 2 ^ 31) frame_type s = (Val decomp, s) ->
  spdy_decompress_header_block Zl tvb decomp (dictionary_id (conv s))
    (header_block_offset offset frame_type)
    (to_guint32
       (frame_length + 8 - (header_block_offset offset frame_type - offset)))
    s = (Val None, s1) ->
  exists evs zevs,
    ui s1 = ui s ++ zevs /\
    call (dissect_spdy_frame Zl Host Prefs tvb offset tree) s
    = (Val (-1),
       {| pinfo := pinfo s; conv := conv s1;
          ui := ui s ++ evs ++ zevs
                ++ E_expert_add_info_format n_spdy_tree PI_UNDECODED PI_ERROR
                     "Inflation failed. Aborting." []
                   :: (if tree
                       then [E_proto_item_append_text n_spdy_proto
                               " [Error: Header decompression failed]" []]
                       else []) |}) /\
    zlib_calls evs = [] /\ dissector_calls evs = [].
Proof.
  intros Hon Hw Hmiss Hsel Hrun.
  assert (Hgood : frame_type < SPDY_INVALID)
    by (destruct Htype as [->|[->| ->]]; reflexivity).
  destruct (frame_prelude_control tvb offset tree version frame_type flags
              frame_length Hframe Hgood) as (evs0 & Hpre & Hhdr).
  destruct (header_frame_fields w Hw) as (evs1 & Hfields & Hz1 & Hd1).
  pose proof (frame_length_nonneg tvb offset version frame_type flags
                frame_length Hframe) as Hl0.
  destruct Hframe as (Ho & Hmax & _ & _ & _ & _ & _ & Hwhole).
  set (block := header_block_offset offset frame_type) in *.
  assert (Hblock : offset + 8 + 4 <= block /\ block - offset - 8 <= frame_length).
  { unfold block, header_block_offset.
    destruct (frame_type =? SPDY_SYN_STREAM); lia. }
  assert (Hitem : item_in_bounds tvb block (frame_length + 8 - (block - offset))
                  = true)
    by (apply item_in_bounds_in; lia).
  set (evs2 := if tree
               then [E_proto_tree_add_item n_spdy_tree hf_spdy_header_block
                       block (frame_length + 8 - (block - offset))]
               else []).
  assert (Hz0 : zlib_calls evs0 = [] /\ dissector_calls evs0 = []).
  { clear - Hhdr. induction evs0 as [|e evs IH]; [split; reflexivity|].
    cbn [forallb] in Hhdr. apply andb_true_iff in Hhdr as [He Hrest].
    destruct e; try discriminate He; cbn [zlib_calls dissector_calls];
      exact (IH Hrest). }
  destruct s as [p c u]. cbn [pinfo conv ui] in *.
  destruct (decompress_header_block_any_ui tvb decomp (dictionary_id c) block
              (to_guint32 (frame_length + 8 - (block - offset))) p c)
    as (r & c' & zevs & Hany).
  rewrite Hany in Hrun. injection Hrun as -> <-. cbn [conv ui].
  exists (evs0 ++ evs1 ++ evs2), zevs.
  split; [reflexivity|].
  split.
  2:{ rewrite !zlib_calls_app, !dissector_calls_app.
      destruct Hz0 as [-> ->]. rewrite Hz1, Hd1.
      unfold evs2. destruct tree; split; reflexivity. }
  assert (Hv3 : (version <? MIN_SPDY_VERSION) = false)
    by (apply Z.ltb_ge; exact Hversion).
  assert (Hty : (frame_type =? SPDY_SYN_STREAM)
                || (frame_type =? SPDY_SYN_REPLY)
                || (frame_type =? SPDY_HEADERS) = true)
    by (destruct Htype as [->|[->| ->]]; reflexivity).
  unfold call, dissect_spdy_frame.
  unfold bind at 1. rewrite Hpre. cbv beta iota.
  change (1 =? 0) with false. cbv beta iota. rewrite Hv3.
  unfold bind at 1. rewrite Hfields. cbv beta iota. fold block.
  unfold frame_headers. rewrite Hty.
  unfold bind at 1. unfold frame_header_block. rewrite Hon. cbn [negb].
  unfold bind at 1.
  rewrite (emits_item tree n_spdy_tree hf_spdy_header_block tvb block _ Hitem).
  fold evs2. cbv beta iota.
  unfold add_ui. cbn [pinfo conv ui].
  unfold bind at 1. unfold frame_header_plaintext.
  unfold bind at 1. unfold get_pinfo at 1. cbn [pinfo conv ui].
  rewrite Hmiss.
  unfold bind at 1. unfold bind at 1.
  rewrite (select_decompressor_any _ _ _ _ _ Hsel).
  unfold bind at 1. unfold get_conv at 1. cbn [conv].
  unfold bind at 1. rewrite Hany.
  unfold expert_add_info_format, proto_item_append_text, when, return_.
  destruct tree; cbv beta iota delta [bind emit ret pinfo conv ui];
    rewrite <- ?app_assoc; cbn [app]; reflexivity.
Qed.

End HeaderFrame.

(** C9 (amended).  On a header block that is not yet saved with the
    packet, once the compressed bytes and the inflater are there: the
    inflater is run once; the SPDY dictionary is installed only when that
    run asked for a dictionary and the inflater's Adler-32 equals the
    dictionary's, and only after a successful installation is the inflater
    run again; whenever the last status is not Z_OK the result is null, and
    a null result makes the frame's header processing report the failure
    and return -1, with nothing saved.  The driver does not go on behind
    such a frame: when it reaches a whole SYN_STREAM, SYN_REPLY or HEADERS
    frame of a supported version whose fields fit in its payload and whose
    header block comes back null, the frame's dissection answers -1 and the
    driver returns the offset at which the frame starts, with the failure
    report last in its trace, the packet as it was and no request for more
    bytes. *)
Theorem C9_decompression_failure :
  (forall tvb offset spdy_proto stream_id frame_type header_block_length
          decomp (s : state zs) r s1,
     spdy_find_saved_header_block (pinfo s) stream_id frame_type = None ->
     select_decompressor stream_id frame_type s = (Val decomp, s) ->
     spdy_decompress_header_block Zl tvb decomp (dictionary_id (conv s))
       offset (to_guint32 header_block_length) s = (Val r, s1) ->
     (exists strm0 hptr evs,
        z_stream_of (conv s) decomp = Some strm0 /\
        tvb_get_ptr tvb offset (to_gint (to_guint32 header_block_length))
        = Some hptr /\
        pinfo s1 = pinfo s /\ ui s1 = ui s ++ evs /\
        let r1 := inflate_core Zl (z_state strm0) hptr 16384 in
        (evs = [E_inflate decomp (ir_ret r1)] /\
         (ir_ret r1 <> Z_NEED_DICT \/
          ir_adler r1 <> dictionary_id (conv s)) /\
         (ir_ret r1 <> Z_OK -> r = None) /\
         (ir_ret r1 = Z_OK ->
          r = Some (ir_output r1, len (ir_output r1)))) \/
        (exists rc2,
           evs = [E_inflate decomp Z_NEED_DICT;
                  E_inflateSetDictionary decomp rc2] /\
           ir_ret r1 = Z_NEED_DICT /\
           ir_adler r1 = dictionary_id (conv s) /\
           rc2 <> Z_OK /\ r = None) \/
        (exists rc3,
           evs = [E_inflate decomp Z_NEED_DICT;
                  E_inflateSetDictionary decomp Z_OK;
                  E_inflate decomp rc3] /\
           ir_ret r1 = Z_NEED_DICT /\
           ir_adler r1 = dictionary_id (conv s) /\
           (rc3 <> Z_OK -> r = None) /\
           (rc3 = Z_OK -> exists out, r = Some (out, len out)))) /\
     (r = None ->
      frame_header_plaintext Zl tvb offset spdy_proto stream_id frame_type
        header_block_length s
      = (Return (-1),
         add_ui s1
           (E_expert_add_info_format n_spdy_tree PI_UNDECODED PI_ERROR
              "Inflation failed. Aborting." []
            :: if spdy_proto
               then [E_proto_item_append_text n_spdy_proto
                       " [Error: Header decompression failed]" []]
               else [])) /\
      pfd (pinfo s1) = pfd (pinfo s))) /\
  (forall tvb offset tree version frame_type flags frame_length fuel
          (d : driver_state zs) w decomp s1,
     control_frame_at tvb offset version frame_type flags frame_length ->
     MIN_SPDY_VERSION <= version ->
     frame_type = SPDY_SYN_STREAM \/ frame_type = SPDY_SYN_REPLY \/
     frame_type = SPDY_HEADERS ->
     (if frame_type =? SPDY_SYN_STREAM then 10 else 8) <= frame_length ->
     spdy_decompress_headers Prefs = true ->
     tvb_get_ntohl tvb (offset + 8) = Some w ->
     let s := {| pinfo := d_pinfo d;
                 conv := get_or_create_spdy_conversation_data Zl Prefs
                           (d_conv d);
                 ui := d_ui d |} in
     spdy_find_saved_header_block (d_pinfo d) (w mod 2 ^ 31) frame_type
     = None ->
     select_decompressor (w mod 2 ^ 31) frame_type s = (Val decomp, s) ->
     spdy_decompress_header_block Zl tvb decomp (dictionary_id (conv s))
       (header_block_offset offset frame_type)
       (to_guint32
          (frame_length + 8
           - (header_block_offset offset frame_type - offset)))
       s = (Val None, s1) ->
     exists evs zevs,
       ui s1 = d_ui d ++ zevs /\
       dissect_spdy_loop Zl Host Prefs (S fuel) tvb tree offset
         (len tvb - offset) d
       = Some (Val offset,
               {| d_pinfo := d_pinfo d;
                  d_conv := Some (conv s1);
                  d_ui := d_ui d ++ evs ++ zevs
                          ++ E_expert_add_info_format n_spdy_tree
                               PI_UNDECODED PI_ERROR
                               "Inflation failed. Aborting." []
                             :: (if tree
                                 then [E_proto_item_append_text n_spdy_proto
                                         " [Error: Header decompression failed]"
                                         []]
                                 else []) |}) /\
       zlib_calls evs = [] /\ dissector_calls evs = []).
Proof.
  split.
  - intros tvb offset spdy_proto stream_id frame_type header_block_length
      decomp s r s1 Hmiss Hsel Hrun. split.
    + exact (decompress_header_block_cases _ _ _ _ _ _ _ _ Hrun).
    + intros ->.
      destruct (decompress_header_block_cases _ _ _ _ _ _ _ _ Hrun)
        as (_ & _ & _ & _ & _ & Hp & _).
      split; [|now rewrite Hp].
      unfold frame_header_plaintext.
      unfold bind at 1. unfold get_pinfo at 1. rewrite Hmiss.
      unfold bind at 1. unfold bind at 1. rewrite Hsel.
      unfold bind at 1. unfold get_conv at 1.
      unfold bind at 1. rewrite Hrun.
      unfold expert_add_info_format, proto_item_append_text, when, return_.
      destruct spdy_proto; unfold bind, emit, ret, add_ui;
        cbn [pinfo conv ui]; rewrite <- ?app_assoc; reflexivity.
  - intros tvb offset tree version frame_type flags frame_length fuel d w
      decomp s1 Hframe Hversion Htype Hfits Hon Hw s Hmiss Hsel Hrun.
    destruct (header_frame_inflation_fails tvb offset tree version frame_type
                flags frame_length Hframe Hversion Htype Hfits w decomp s s1
                Hon Hw Hmiss Hsel Hrun)
      as (evs & zevs & Hu & Hcall & Hz & Hd).
    exists evs, zevs. split; [exact Hu|]. split; [|split; assumption].
    pose proof (frame_length_nonneg _ _ _ _ _ _ Hframe) as Hl0.
    destruct Hframe as (Ho & Hmax & _ & _ & _ & _ & Hlen & Hwhole).
    cbn [dissect_spdy_loop].
    destruct (Z.ltb_spec 0 (len tvb - offset)); [|lia].
    destruct (Z.ltb_spec (len tvb - offset) 8); [lia|].
    unfold get_spdy_message_len. rewrite Hlen. cbn [option_map].
    destruct (Z.ltb_spec (len tvb - offset) (frame_length + 8)); [lia|].
    fold s. rewrite Hcall.
    destruct (Z.eqb_spec (-1) (frame_length + 8)); [lia|].
    reflexivity.
Qed.

(** *** From the header block to the stream record *)

(** X24.  The part of [dissect_spdy_frame] behind the type-specific fields,
    for a SYN_STREAM, SYN_REPLY or HEADERS frame dissected without a tree
    when header decompression is on.  When the header plaintext (inflated,
    or taken from the packet's saved blocks) is a count followed by that
    many name/value pairs in the wire layout, among them a content type,
    then on the first visit of the packet, for a stream that has no record
    yet, the stream gets a record: its content type is the media type that
    [spdy_parse_content_type] cuts out of the last content-type value, its
    parameters are what follows the separators, its content encoding is the
    last content-encoding value, and it has no chunk.  The frame answers
    its length plus 8. *)
Theorem header_frame_saves_stream_info (tvb : Tvb.t)
    (offset orig_offset frame_type stream_id frame_length : Z)
    (pairs : list (list byte * list byte)) (after : list byte)
    (s s1 : state zs) (ct : cstring) :
  spdy_decompress_headers Prefs = true ->
  frame_type = SPDY_SYN_STREAM \/ frame_type = SPDY_SYN_REPLY \/
  frame_type = SPDY_HEADERS ->
  frame_header_plaintext Zl tvb offset false stream_id frame_type
    (frame_length + 8 - (offset - orig_offset)) s
  = (Val (be32 (len pairs) ++ encode_headers pairs ++ after), s1) ->
  Forall (fun p => len (fst p) < 2 ^ 31 /\ len (snd p) < 2 ^ 31) pairs ->
  len pairs <= frame_length -> frame_length < 2 ^ 24 ->
  content_type
    (fold_left (fun h p => remember_header h (c_str (fst p)) (c_str (snd p)))
       pairs no_headers) = Some ct ->
  0 <= stream_id ->
  fd_visited (pinfo s1) = false ->
  spdy_get_stream_info (conv s1) stream_id = None ->
  exists s',
    frame_headers Zl Prefs tvb offset orig_offset false frame_type stream_id
      frame_length s = (Return (8 + frame_length), s') /\
    spdy_get_stream_info (conv s') stream_id
    = Some {| si_content_type := Some (fst (spdy_parse_content_type ct));
              si_content_type_parameters :=
                snd (spdy_parse_content_type ct);
              si_content_encoding :=
                content_encoding
                  (fold_left
                     (fun h p =>
                        remember_header h (c_str (fst p)) (c_str (snd p)))
                     pairs no_headers);
              si_data_frames := [];
              si_assembled_data := None;
              si_num_data_frames := 0 |} /\
    pinfo s' = pinfo s1.
Proof.
  intros Hon Htype Hplain Hok Hcount Hmax Hct Hid Hvis Hnone.
  set (h := fold_left _ pairs no_headers) in *.
  set (plaintext := be32 (len pairs) ++ encode_headers pairs ++ after) in *.
  pose proof (len_nonneg pairs) as Hn0.
  change (2 ^ 24) with 16777216 in Hmax.
  assert (Hty : (frame_type =? SPDY_SYN_STREAM)
                || (frame_type =? SPDY_SYN_REPLY)
                || (frame_type =? SPDY_HEADERS) = true)
    by (destruct Htype as [->|[->| ->]]; reflexivity).
  assert (Hnum : tvb_get_ntohl plaintext 0 = Some (len pairs)).
  { apply (get_ntohl_mid [] (encode_headers pairs ++ after)).
    change (2 ^ 32) with 4294967296. lia. }
  assert (Hfew : (frame_length <? len pairs) = false)
    by (apply Z.ltb_ge; exact Hcount).
  destruct (header_loop_run pairs (be32 (len pairs)) after false no_headers
              O Hok (or_introl eq_refl)) as (evs & Hloop & Hnil).
  rewrite (Hnil eq_refl) in Hloop. fold h plaintext in Hloop.
  rewrite Nat.add_0_r in Hloop.
  change (len (be32 (len pairs))) with 4 in Hloop.
  unfold frame_headers, frame_header_block. rewrite Hty, Hon.
  cbv beta iota zeta delta [bind proto_tree_add_item when ret negb].
  rewrite Hplain.
  cbv beta iota zeta delta [bind lift ret]. rewrite Hnum.
  cbv beta iota zeta delta [bind ret]. rewrite Hfew.
  unfold len at 1. rewrite Nat2Z.id. rewrite Hloop.
  assert (Hcol : exists evs_c,
    match hdr_version h with
    | Some version =>
        match hdr_url h with
        | Some url =>
            col_append_fstr (zs:=zs) COL_INFO ": %s %s %s"
              [opt_arg (hdr_verb h); AStr url; AStr version]
        | None =>
            col_append_fstr (zs:=zs) COL_INFO ": %s %s"
              [opt_arg (hdr_verb h); AStr version]
        end
    | None => fun s0 : state zs => (Val tt, s0)
    end (add_ui s1 []) = (Val tt, add_ui s1 evs_c)).
  { destruct (hdr_version h) as [v|]; [destruct (hdr_url h) as [u|]|];
      [exists [E_col_append_fstr COL_INFO ": %s %s %s"
                 [opt_arg (hdr_verb h); AStr u; AStr v]]
      |exists [E_col_append_fstr COL_INFO ": %s %s"
                 [opt_arg (hdr_verb h); AStr v]]
      |exists []];
      unfold col_append_fstr, emit, add_ui; cbn [pinfo conv ui];
      now rewrite ?app_nil_r. }
  destruct Hcol as (evs_c & ->).
  unfold get_pinfo. cbv beta iota. cbn [pinfo add_ui].
  rewrite Hvis, Hct. cbv iota.
  destruct (spdy_parse_content_type ct) as [media params]. cbn [fst snd].
  destruct (save_stream_info_fresh stream_id (Some media) params
              (content_encoding h)
              (add_ui s1 evs_c)
              Hid Hnone) as (s2 & Hsave & Hget & _ & _ & Hp & _).
  rewrite Hsave. exists s2.
  split; [reflexivity|]. split; [exact Hget|exact Hp].
Qed.

(** X25.  The same part of [dissect_spdy_frame], with or without a tree,
    when the count of pairs at the start of the header plaintext is larger
    than the frame's length: the pairs are not read and nothing is saved;
    the count is reported as greater than the frame length, the frame type
    and the stream id go to the info column, and the frame answers its
    length plus 8.  With a tree the header block's item comes before the
    plaintext is looked for, the count's item follows it, and the error is
    also appended to that item. *)
Theorem header_count_too_large (tvb : Tvb.t)
    (offset orig_offset : Z) (tree : bool)
    (frame_type stream_id frame_length : Z)
    (plaintext : Tvb.t) (num_headers : Z) (s s1 : state zs) :
  spdy_decompress_headers Prefs = true ->
  frame_type = SPDY_SYN_STREAM \/ frame_type = SPDY_SYN_REPLY \/
  frame_type = SPDY_HEADERS ->
  (tree = true ->
   item_in_bounds tvb offset (frame_length + 8 - (offset - orig_offset))
   = true) ->
  frame_header_plaintext Zl tvb offset tree stream_id frame_type
    (frame_length + 8 - (offset - orig_offset))
    (add_ui s
       (if tree
        then [E_proto_tree_add_item n_spdy_tree hf_spdy_header_block offset
                (frame_length + 8 - (offset - orig_offset))]
        else []))
  = (Val plaintext, s1) ->
  tvb_get_ntohl plaintext 0 = Some num_headers ->
  frame_length < num_headers ->
  frame_headers Zl Prefs tvb offset orig_offset tree frame_type stream_id
    frame_length s
  = (Return (frame_length + 8),
     add_ui s1
       ((if tree
         then [E_proto_tree_add_item n_spdy_tree hf_spdy_num_headers 0 4]
         else [])
        ++ [E_expert_add_info_format n_spdy_tree PI_MALFORMED PI_ERROR
              "Number of headers is greater than frame length!" []]
        ++ (if tree
            then [E_proto_item_append_text n_ti
                    " [Error: Number of headers is larger than frame length]"
                    []]
            else [])
        ++ [E_col_append_fstr COL_INFO "%s[%u]"
              [ALit (nth (Z.to_nat frame_type) frame_type_names ""%string);
               AInt stream_id]])).
Proof.
  intros Hon Htype Hblock Hplain Hnum Hmany.
  assert (Hty : (frame_type =? SPDY_SYN_STREAM)
                || (frame_type =? SPDY_SYN_REPLY)
                || (frame_type =? SPDY_HEADERS) = true)
    by (destruct Htype as [->|[->| ->]]; reflexivity).
  assert (Hfew : (frame_length <? num_headers) = true)
    by (apply Z.ltb_lt; exact Hmany).
  assert (Hcount : item_in_bounds plaintext 0 4 = true)
    by (eapply get_be_item_in_bounds; [exact Hnum|lia]).
  unfold frame_headers, frame_header_block. rewrite Hty, Hon.
  destruct tree.
  - cbv beta iota zeta delta [bind ret negb].
    rewrite (emits_item true n_spdy_tree hf_spdy_header_block tvb offset _
               (Hblock eq_refl) s).
    cbv beta iota. rewrite Hplain.
    cbv beta iota zeta delta [bind lift ret]. rewrite Hnum.
    cbv beta iota zeta delta [bind ret].
    rewrite (emits_item true n_spdy_tree hf_spdy_num_headers plaintext 0 4
               Hcount s1).
    cbv beta iota zeta delta [bind ret]. rewrite Hfew.
    unfold expert_add_info_format, proto_item_append_text, col_append_fstr,
      when, emit, ret, return_, add_ui, bind.
    cbn [pinfo conv ui app]. now rewrite <- !app_assoc.
  - rewrite add_ui_nil in Hplain.
    cbv beta iota zeta delta [bind proto_tree_add_item when ret negb].
    rewrite Hplain.
    cbv beta iota zeta delta [bind lift ret]. rewrite Hnum.
    cbv beta iota zeta delta [bind ret]. rewrite Hfew.
    unfold expert_add_info_format, proto_item_append_text, col_append_fstr,
      when, emit, ret, return_, add_ui, bind.
    cbn [pinfo conv ui app]. now rewrite <- app_assoc.
Qed.

(** X26.  A name/value pair whose name does not fit.  When the 32-bit
    length at the loop's offset in the header block is larger than what is
    left of the block behind it, or is 2^31 or more, the loop over the pairs
    raises the bounds error before anything is shown or remembered. *)
Theorem header_loop_truncated (before rest : list byte) (n : Z)
    (fuel : nat) (tree : bool) (h : headers) :
  0 <= n < 2 ^ 32 ->
  (n < 2 ^ 31 -> len rest < n) ->
  emits (zs:=zs)
    (header_loop (S fuel) (before ++ be32 n ++ rest) (len before) tree h)
    (Raise ReportedBoundsError) [].
Proof.
  intros Hn Hshort.
  pose proof (len_nonneg before) as Hb. pose proof (len_nonneg rest) as Hr.
  change (2 ^ 32) with 4294967296 in Hn.
  change (2 ^ 31) with 2147483648 in Hshort.
  set (tvb := before ++ be32 n ++ rest).
  assert (Hlen : len tvb = len before + 4 + len rest).
  { unfold tvb. rewrite !len_app, len_be32. lia. }
  assert (Hrem : (tvb_length_remaining tvb (len before) =? 0) = false).
  { rewrite tvb_length_remaining_in by lia. apply Z.eqb_neq. lia. }
  assert (Hnl : tvb_get_ntohl tvb (len before) = Some n).
  { apply get_ntohl_mid. change (2 ^ 32) with 4294967296. lia. }
  assert (Hnm : tvb_memdup tvb (len before + 4) (to_gint n) = None).
  { unfold tvb_memdup, bytes_at.
    rewrite compute_offset_in by lia.
    destruct (Z.ltb_spec n 2147483648) as [Hsmall|Hbig].
    - rewrite to_gint_small by (change (2 ^ 31) with 2147483648; lia).
      specialize (Hshort Hsmall).
      destruct (Z.leb_spec (len before + 4 + n) (len tvb)); [lia|].
      now rewrite andb_false_r.
    - assert (Hneg : to_gint n = n - 4294967296).
      { unfold to_gint. change (2 ^ 31) with 2147483648.
        change (2 ^ 32) with 4294967296.
        replace (n + 2147483648) with (n - 2147483648 + 1 * 4294967296)
          by lia.
        rewrite Z.mod_add by lia. rewrite Z.mod_small by lia. lia. }
      rewrite Hneg.
      destruct (Z.leb_spec 0 (n - 4294967296)); [lia|reflexivity]. }
  cbn [header_loop]. rewrite Hrem.
  eapply emits_eq.
  - eapply emits_bind; [apply emits_lift; exact Hnl|].
    cbv beta zeta. rewrite Hnm. apply emits_bind_raise, emits_lift_none.
  - reflexivity.
Qed.

(** *** From the last DATA frame to the sub-dissectors *)

Lemma record_chunk_run tvb offset stream_id flags frame_length
    num_data_frames (s : state zs) payload :
  spdy_assemble_entity_bodies Prefs = true ->
  fd_visited (pinfo s) = false ->
  0 < frame_length ->
  tvb_new_subset tvb offset frame_length = Some payload ->
  (num_data_frames =? 0) && negb (Z.land flags SPDY_FLAG_FIN =? 0) = false ->
  data_record_chunk Prefs tvb offset stream_id flags frame_length
    num_data_frames s
  = (Val (Some payload, false),
     {| pinfo := pinfo s;
        conv := spdy_add_data_chunk (conv s) stream_id (fd_num (pinfo s))
                  payload frame_length;
        ui := ui s |}).
Proof.
  intros Hasm Hfirst Hlen Hsub Hmulti.
  assert (Hpl : len payload = frame_length).
  { unfold tvb_new_subset, tvb_get_ptr in Hsub.
    destruct (Z.eqb_spec frame_length (-1)) as [Hneg|_]; [lia|].
    exact (proj1 (bytes_at_len _ _ _ _ Hsub)). }
  assert (Hdup : tvb_memdup payload 0 frame_length = Some payload).
  { unfold tvb_memdup. rewrite bytes_at_in by lia.
    cbn [Z.to_nat skipn]. rewrite <- Hpl. now rewrite firstn_len. }
  unfold data_record_chunk.
  destruct (Z.eqb_spec frame_length 0) as [Hz|_]; [lia|]. cbn [negb].
  unfold bind, lift, get_pinfo, get_conv, put_conv, ret.
  rewrite Hsub, Hmulti. cbn [pinfo conv ui]. rewrite Hfirst, Hasm.
  cbn [negb andb]. rewrite Hdup. reflexivity.
Qed.

Lemma assemble_run stream_id flags spdy_proto next_tvb is_single_chunk
    (s : state zs) si df rest :
  Z.land flags SPDY_FLAG_FIN <> 0 ->
  spdy_assemble_entity_bodies Prefs = true ->
  spdy_get_stream_info (conv s) stream_id = Some si ->
  si_assembled_data si = None ->
  si_data_frames si = df :: rest ->
  Forall chunk_intact (df :: rest) ->
  len (chunk_bytes (df :: rest)) < 2 ^ 32 ->
  data_assemble Prefs stream_id flags spdy_proto next_tvb is_single_chunk s
  = (Val (Some (set_si_assembled_data si (Some (chunk_bytes (df :: rest))),
                Some (chunk_bytes (df :: rest)))),
     {| pinfo := pinfo s;
        conv := store_stream_info (conv s) stream_id
                  (set_si_assembled_data si
                     (Some (chunk_bytes (df :: rest))));
        ui := ui s ++ [E_add_new_data_source (chunk_bytes (df :: rest))
                         "Assembled entity body"] |}).
Proof.
  intros Hfin Hasm Hsi Hnone Hl Hintact Hmax.
  set (body := chunk_bytes (df :: rest)) in *.
  destruct (chunk_bytes_cons df rest (Forall_inv Hintact))
    as (d & _ & Hd & Hp & Hcb).
  assert (Hpos : 0 < len body).
  { unfold body. rewrite Hcb, len_app.
    pose proof (len_nonneg (chunk_bytes rest)). lia. }
  unfold data_assemble.
  destruct (Z.eqb_spec (Z.land flags SPDY_FLAG_FIN) 0) as [Hz|_];
    [contradiction|].
  unfold bind at 1. unfold spdy_assemble_data_frames.
  unfold bind at 1. unfold get_conv at 1. rewrite Hsi, Hnone, Hl.
  unfold datalen_of.
  rewrite (datalen_of_intact _ Hintact 0) by (fold body; lia).
  fold body. rewrite Z.add_0_l.
  destruct (Z.eqb_spec (len body) 0) as [Hz|_]; [lia|].
  rewrite (memcpy_chunks_intact _ Hintact). fold body.
  rewrite Z.eqb_refl.
  unfold bind, put_conv, ret, add_new_data_source, emit.
  cbn [si_assembled_data set_si_assembled_data].
  rewrite Hasm. cbn [negb]. reflexivity.
Qed.

Lemma chunk_bytes_app a b :
  chunk_bytes (a ++ b) = chunk_bytes a ++ chunk_bytes b.
Proof. unfold chunk_bytes. apply flat_map_app. Qed.

Lemma data_dispatch_run stream_id si data_tvb next_tvb (s : state zs) :
  let by_port :=
    match port_subdissector_table Host with
    | Some table => table (match_port (pinfo s))
    | None => None
    end in
  let by_type :=
    match si_content_type si, media_type_subdissector_table Host with
    | Some content_type, Some table => table content_type
    | _, _ => None
    end in
  let fallback :=
    match si_content_type si with
    | Some _ => media_handle
    | None => data_handle
    end in
  exists changed s' evs match_str,
    data_dispatch Host stream_id si data_tvb next_tvb s = (Val changed, s') /\
    ui s' = ui s ++ evs /\
    conv s'
    = store_stream_info (conv s) stream_id
        (fst (spdy_discard_data_frames si)) /\
    match changed with
    | Some save_private_data =>
        set_private_data (pinfo s') save_private_data
          (match_string (pinfo s'))
    | None => pinfo s'
    end = set_private_data (pinfo s) (private_data (pinfo s)) match_str /\
    match match by_port with Some h => Some h | None => by_type end with
    | Some h =>
        hd_error (dissector_calls evs) = Some (h, data_tvb) /\
        (call_dissector_ret Host h data_tvb = 0 ->
         dissector_calls evs = [(h, data_tvb); (fallback, next_tvb)])
    | None => dissector_calls evs = [(fallback, next_tvb)]
    end.
Proof.
  intros by_port by_type fallback.
  unfold data_dispatch.
  pose proof (discard_content_type si) as Hct.
  destruct (spdy_discard_data_frames si) as [si' freed]. cbn [fst] in *.
  pose proof (free_loop_emits freed) as Hloop. unfold emits in Hloop.
  set (loop := fold_right _ _ freed) in *.
  destruct s as [p c u].
  cbv beta iota zeta delta [bind get_conv put_conv get_pinfo ret pinfo conv ui].
  rewrite Hloop. cbv beta iota delta [add_ui pinfo conv ui].
  subst by_port by_type fallback. cbn [pinfo]. rewrite Hct.
  assert (Hsame : set_private_data p (private_data p) (match_string p) = p)
    by (destruct p; reflexivity).
  destruct (port_subdissector_table Host) as [pt|];
    [destruct (pt (match_port p)) as [h|]|];
    (destruct (si_content_type si) as [ct|];
     [destruct (media_type_subdissector_table Host) as [mt|];
      [destruct (mt ct) as [h'|]|]|]);
    cbv beta iota zeta
      delta [bind put_pinfo ret call_dissector emit pinfo conv ui];
    try match goal with
        | |- context [call_dissector_ret Host ?h ?t =? 0] =>
            destruct (Z.eqb_spec (call_dissector_ret Host h t) 0)
        end;
    cbn [andb Z.eqb];
    (do 4 eexists; split; [reflexivity|];
     split; [rewrite <- ?app_assoc; reflexivity|];
     split; [reflexivity|];
     split; [first [reflexivity|symmetry; exact Hsame]|]);
    rewrite ?dissector_calls_app, dissector_calls_free;
    cbn [app dissector_calls hd_error];
    try reflexivity;
    (split; [reflexivity|intros; try reflexivity; try contradiction]).
Qed.

Lemma discard_assembled_data si :
  si_assembled_data (fst (spdy_discard_data_frames si))
  = si_assembled_data si.
Proof.
  unfold spdy_discard_data_frames.
  destruct (si_data_frames si); [reflexivity|].
  destruct (discard_loop _). reflexivity.
Qed.

(** X27.  On the first visit, with body assembly on, and with or without
    a tree, the last DATA frame of a stream (FIN set, non-empty payload,
    earlier chunks intact, no content encoding, nothing assembled yet) is
    recorded as one more chunk;
    the body is the earlier chunks followed by this payload; it is shown
    as a new data source and handed to the sub-dissector found by port or
    by media type, while the fallback gets the frame's own payload; the
    stream keeps the body with its chunks released; the packet is as
    before but for its match string; and the frame length is answered. *)
Theorem last_data_frame_assembled tvb offset
    (top_level_tree spdy_tree spdy_proto : bool)
    stream_id flags frame_length (s : state zs) si payload :
  spdy_assemble_entity_bodies Prefs = true ->
  fd_visited (pinfo s) = false ->
  0 < frame_length ->
  tvb_new_subset tvb offset frame_length = Some payload ->
  Z.land flags SPDY_FLAG_FIN <> 0 ->
  spdy_get_stream_info (conv s) stream_id = Some si ->
  si_assembled_data si = None ->
  si_content_encoding si = None ->
  0 < si_num_data_frames si ->
  Forall chunk_intact (si_data_frames si) ->
  len (chunk_bytes (si_data_frames si)) + frame_length < 2 ^ 32 ->
  let body := chunk_bytes (si_data_frames si) ++ payload in
  let by_port :=
    match port_subdissector_table Host with
    | Some table => table (match_port (pinfo s))
    | None => None
    end in
  let by_type :=
    match si_content_type si, media_type_subdissector_table Host with
    | Some content_type, Some table => table content_type
    | _, _ => None
    end in
  let fallback :=
    match si_content_type si with
    | Some _ => media_handle
    | None => data_handle
    end in
  exists s' evs si' match_str,
    dissect_spdy_data_payload Host Prefs tvb offset top_level_tree
      spdy_tree spdy_proto stream_id flags frame_length s
    = (Val frame_length, s') /\
    ui s' = ui s ++ evs /\
    In (E_add_new_data_source body "Assembled entity body") evs /\
    match match by_port with Some h => Some h | None => by_type end with
    | Some h =>
        hd_error (dissector_calls evs) = Some (h, Some body) /\
        (call_dissector_ret Host h (Some body) = 0 ->
         dissector_calls evs = [(h, Some body); (fallback, Some payload)])
    | None => dissector_calls evs = [(fallback, Some payload)]
    end /\
    spdy_get_stream_info (conv s') stream_id = Some si' /\
    si_assembled_data si' = Some body /\
    Forall (fun df => df_data df = None) (si_data_frames si') /\
    pinfo s' = set_private_data (pinfo s) (private_data (pinfo s)) match_str.
Proof.
  intros Hasm Hfirst Hlen Hsub Hfin Hsi Hnone Henc Hnum Hintact Hmax
    body by_port by_type fallback.
  assert (Hpl : len payload = frame_length).
  { unfold tvb_new_subset, tvb_get_ptr in Hsub.
    destruct (Z.eqb_spec frame_length (-1)) as [Hneg|_]; [lia|].
    exact (proj1 (bytes_at_len _ _ _ _ Hsub)). }
  set (df := {| df_data := Some payload; df_length := frame_length;
                df_framenum := fd_num (pinfo s) |}).
  set (si1 := {| si_content_type := si_content_type si;
                 si_content_type_parameters := si_content_type_parameters si;
                 si_content_encoding := si_content_encoding si;
                 si_data_frames := si_data_frames si ++ [df];
                 si_assembled_data := si_assembled_data si;
                 si_num_data_frames :=
                   to_guint32 (si_num_data_frames si + 1) |}).
  assert (Hbody : chunk_bytes (si_data_frames si1) = body).
  { cbn [si1 si_data_frames]. rewrite chunk_bytes_app. unfold body.
    f_equal. unfold chunk_bytes. cbn [flat_map df df_data].
    apply app_nil_r. }
  assert (Hintact1 : Forall chunk_intact (si_data_frames si1)).
  { cbn [si1 si_data_frames]. apply Forall_app. split; [exact Hintact|].
    constructor; [|constructor]. exists payload. cbn [df df_data df_length].
    auto. }
  assert (Hmax1 : len (chunk_bytes (si_data_frames si1)) < 2 ^ 32).
  { rewrite Hbody. unfold body. rewrite len_app. lia. }
  destruct (si_data_frames si1) as [|df0 rest] eqn:Hl1.
  { cbn [si1 si_data_frames] in Hl1.
    now destruct (si_data_frames si). }
  set (si2 := set_si_assembled_data si1 (Some body)).
  destruct s as [p c u]. cbn [pinfo conv ui] in *.
  set (evs0 :=
    [E_col_add_fstr COL_INFO "DATA[%u] length=%d"
       [AInt stream_id; AInt frame_length]]
    ++ (if spdy_tree
        then (if spdy_proto
              then [E_proto_item_append_text n_spdy_proto
                      " stream=%d length=%d"
                      [AInt stream_id; AInt frame_length]]
              else [])
             ++ [E_proto_tree_add_item n_spdy_tree hf_spdy_data offset
                   frame_length]
        else [])).
  set (u0 := u ++ evs0).
  assert (Hitem : item_in_bounds tvb offset frame_length = true).
  { unfold item_in_bounds. unfold tvb_new_subset in Hsub. now rewrite Hsub. }
  set (c1 := spdy_add_data_chunk c stream_id (fd_num p) payload
               frame_length).
  assert (Hc1 : c1 = store_stream_info c stream_id si1).
  { unfold c1, spdy_add_data_chunk. rewrite Hsi. reflexivity. }
  assert (Hsi1 : spdy_get_stream_info c1 stream_id = Some si1).
  { rewrite Hc1. eapply get_store_stream_info. exact Hsi. }
  pose proof (record_chunk_run tvb offset stream_id flags frame_length
                (si_num_data_frames si)
                {| pinfo := p; conv := c; ui := u0 |} payload
                Hasm Hfirst Hlen Hsub) as Hrec.
  cbn [pinfo conv ui] in Hrec. fold c1 in Hrec.
  pose proof (assemble_run stream_id flags spdy_proto (Some payload) false
                {| pinfo := p; conv := c1; ui := u0 |} si1 df0 rest
                Hfin Hasm Hsi1 Hnone Hl1 Hintact1 Hmax1) as Hass.
  rewrite Hbody in Hass. fold si2 in Hass. cbn [pinfo conv ui] in Hass.
  set (c2 := store_stream_info c1 stream_id si2) in *.
  set (u2 := u0 ++ [E_add_new_data_source body "Assembled entity body"])
    in *.
  destruct (data_dispatch_run stream_id si2 (Some body) (Some payload)
              {| pinfo := p; conv := c2; ui := u2 |})
    as (changed & s3 & evs & ms & Hrun & Hui & Hconv & Hrest & Hcalls).
  cbn [pinfo conv ui] in *.
  assert (Hsi2 : spdy_get_stream_info c2 stream_id = Some si2).
  { eapply get_store_stream_info. exact Hsi1. }
  exists {| pinfo := set_private_data p (private_data p) ms;
            conv := conv s3; ui := ui s3 |},
    (evs0 ++ [E_add_new_data_source body "Assembled entity body"] ++ evs),
    (fst (spdy_discard_data_frames si2)), ms.
  cbn [pinfo conv ui].
  split.
  { unfold dissect_spdy_data_payload, spdy_get_num_data_frames.
    unfold bind at 1. unfold col_add_fstr, emit at 1. cbn [pinfo conv ui].
    unfold bind at 1.
    assert (Hdeco :
      when spdy_tree
        (bind
           (proto_item_append_text spdy_proto n_spdy_proto
              " stream=%d length=%d" [AInt stream_id; AInt frame_length])
           (fun _ =>
              proto_tree_add_item true n_spdy_tree hf_spdy_data tvb offset
                frame_length))
        {| pinfo := p; conv := c;
           ui := u ++ [E_col_add_fstr COL_INFO "DATA[%u] length=%d"
                         [AInt stream_id; AInt frame_length]] |}
      = (Val tt, {| pinfo := p; conv := c; ui := u0 |})).
    { unfold u0, evs0, proto_tree_add_item, proto_item_append_text.
      rewrite Hitem.
      destruct spdy_tree, spdy_proto;
        cbv beta iota delta [when bind emit ret pinfo conv ui];
        rewrite <- ?app_assoc, ?app_nil_r; reflexivity. }
    rewrite Hdeco.
    cbv beta iota zeta delta [bind get_conv ret pinfo conv ui].
    rewrite Hsi.
    destruct (Z.eqb_spec frame_length 0) as [Hz|_]; [lia|]. cbn [negb orb].
    rewrite Hrec.
    - cbv beta iota zeta delta [bind]. rewrite Hass.
      unfold data_decode. cbn [si2 si1 set_si_assembled_data
                               si_content_encoding].
      rewrite Henc. cbv beta iota zeta delta [bind ret]. 
      fold si1. fold si2. fold c2. rewrite Hrun.
      destruct s3 as [p3 c3 u3]. cbn [pinfo conv ui] in *.
      destruct changed as [saved|];
        cbv beta iota zeta delta [bind get_pinfo put_pinfo ret pinfo conv ui];
        rewrite Hrest; reflexivity.
    - destruct (Z.eqb_spec (si_num_data_frames si) 0); [lia|reflexivity]. }
  split.
  { rewrite Hui. unfold u2, u0. rewrite <- !app_assoc. reflexivity. }
  split; [apply in_or_app; right; left; reflexivity|].
  split.
  { assert (Hd0 : dissector_calls evs0 = [])
      by (unfold evs0; destruct spdy_tree, spdy_proto; reflexivity).
    rewrite !dissector_calls_app, Hd0. cbn [app dissector_calls].
    subst by_port by_type fallback.
    cbn [si2 si1 set_si_assembled_data si_content_type] in Hcalls.
    exact Hcalls. }
  rewrite Hconv.
  split; [eapply get_store_stream_info; exact Hsi2|].
  split; [rewrite discard_assembled_data; reflexivity|].
  split; [apply discard_nulls|reflexivity].
Qed.

End Properties.

(** ** The properties on the sample inputs *)


(** C3, counterexample.  A SETTINGS frame of length 12 with 5 entries,
    followed by a NOOP frame: the driver annotates the SETTINGS frame as
    malformed and returns 0; it consumes none of the 20 bytes of that frame
    and the NOOP frame is not dissected. *)
Lemma C3_counterexample :
  exists d',
    dissect_spdy toy_zlib sample_host sample_prefs
      settings_undersized_then_noop false sample_driver_state
    = Some (Val 0, d') /\
    d_ui d' =
      [E_col_set_str COL_PROTOCOL "SPDY"; E_col_add_str COL_INFO "SETTINGS";
       E_expert_add_info_format n_spdy_tree PI_MALFORMED PI_ERROR
         "SETTINGS frame too small [num_entries=%d]" [AInt 5]].
Proof. eexists. split; vm_compute; reflexivity. Qed.

(** C3, witness: the SETTINGS frame of length 12 with 5 entries. *)
Lemma C3_settings_undersized_witness :
  control_frame_at settings_undersized_then_noop 0 3 SPDY_SETTINGS 0 12 /\
  MIN_SPDY_VERSION <= 3 /\
  settings_undersized settings_undersized_then_noop (0 + 8) 12 /\
  exists evs fmt args,
    dissect_spdy_loop toy_zlib sample_host sample_prefs 1
      settings_undersized_then_noop false 0
      (len settings_undersized_then_noop - 0) sample_driver_state
    = Some (Val 0,
            {| d_pinfo := sample_pinfo;
               d_conv := Some (get_or_create_spdy_conversation_data toy_zlib
                                 sample_prefs None);
               d_ui := [] ++ evs
                       ++ [E_expert_add_info_format n_spdy_tree PI_MALFORMED
                             PI_ERROR fmt args] |}) /\
    forallb header_event evs = true.
Proof.
  assert (Hf : control_frame_at settings_undersized_then_noop 0 3
                 SPDY_SETTINGS 0 12)
    by (repeat split; vm_compute; congruence).
  assert (Hv : MIN_SPDY_VERSION <= 3) by (vm_compute; congruence).
  assert (Hs : settings_undersized settings_undersized_then_noop (0 + 8) 12)
    by (right; exists 5; split; vm_compute; reflexivity).
  split; [exact Hf|]. split; [exact Hv|]. split; [exact Hs|].
  exact (C3_settings_undersized bool toy_zlib sample_host sample_prefs
           settings_undersized_then_noop 0 false 3 0 12 Hf Hv Hs 0
           sample_driver_state).
Defined.

(** C5, counterexample.  On the empty buffer fewer than 8 bytes remain, and
    the driver returns 0 without recording a request: the packet is
    unchanged. *)
Lemma C5_counterexample :
  tvb_length_remaining [] 0 < 8 /\
  dissect_spdy toy_zlib sample_host sample_prefs [] false sample_driver_state
  = Some (Val 0, sample_driver_state) /\
  desegment_len (d_pinfo sample_driver_state) <> DESEGMENT_ONE_MORE_SEGMENT.
Proof. repeat split; vm_compute; congruence. Qed.

(** C5, witness: three bytes remain, and ten bytes of a frame of 208. *)
Lemma C5_need_more_witness :
  dissect_spdy_loop toy_zlib sample_host sample_prefs 1 [x00; x00; x00]
    false 0 3 sample_driver_state
  = Some (Val 0, need_more sample_driver_state 0 DESEGMENT_ONE_MORE_SEGMENT) /\
  dissect_spdy_loop toy_zlib sample_host sample_prefs 1 partial_data_frame
    false 0 10 sample_driver_state
  = Some (Val 0, need_more sample_driver_state 0 (208 - 10)).
Proof.
  split.
  - apply (C5_need_more bool toy_zlib sample_host sample_prefs 0 [x00; x00; x00]
             false 0 3 sample_driver_state); lia.
  - apply (C5_need_more bool toy_zlib sample_host sample_prefs 0
             partial_data_frame false 0 10 sample_driver_state);
      [lia|lia|reflexivity|lia].
Defined.

(** C6, counterexample.  A control frame of version 2 with the type code 11:
    the frame is reported as of an invalid type and answers -1; it is not
    marked as of an unsupported version, and length + 8 = 8 is not what the
    dissection answers. *)
Lemma C6_counterexample :
  tvb_get_bits16 old_invalid_type_frame 1 15 = Some 2 /\
  call (dissect_spdy_frame toy_zlib sample_host sample_prefs
          old_invalid_type_frame 0 true) sample_state
  = (Val (-1),
     add_ui sample_state
       [E_col_set_str COL_PROTOCOL "SPDY";
        E_proto_tree_add_item n_tree proto_spdy 0 (-1);
        E_proto_tree_add_bits_item n_spdy_tree hf_spdy_control_bit 0 1;
        E_proto_tree_add_bits_item n_spdy_tree hf_spdy_version 1 15;
        E_expert_add_info_format n_tree PI_PROTOCOL PI_ERROR
          "Invalid SPDY control frame type: %d" [AInt 11]]).
Proof. split; vm_compute; reflexivity. Qed.

(** C6, witness: version 2, type 1, length 20 gives 28. *)
Lemma C6_unsupported_version_witness :
  control_frame_at old_version_frame 0 2 SPDY_SYN_STREAM 0 20 /\
  exists evs,
    emits (call (dissect_spdy_frame toy_zlib sample_host sample_prefs
                   old_version_frame 0 true))
      (Val (20 + 8))
      (evs ++ [E_proto_item_append_text n_spdy_proto
                 " [Unsupported Version]" []]) /\
    forallb header_event evs = true.
Proof.
  assert (Hf : control_frame_at old_version_frame 0 2 SPDY_SYN_STREAM 0 20)
    by (repeat split; vm_compute; congruence).
  split; [exact Hf|].
  apply (C6_unsupported_version bool toy_zlib sample_host sample_prefs
           old_version_frame 0 true 2 SPDY_SYN_STREAM 0 20 Hf);
    vm_compute; reflexivity.
Defined.

(** C2, at the failing input.  A SETTINGS frame of length 8 that declares
    one entry: 8 is less than 4 + 8 * 1, yet no malformed-frame error is
    reported; the payload dissection answers 8, and the entry it shows
    covers offsets 12 to 20, past the end of the frame at offset 16. *)
Lemma C2_settings_room_not_checked :
  tvb_get_ntoh24 settings_length_8_one_entry 5 = Some 8 /\
  tvb_get_ntohl settings_length_8_one_entry 8 = Some 1 /\
  8 < 4 + 8 * 1 /\
  call (dissect_spdy_settings_payload settings_length_8_one_entry 8 8 true)
    sample_state
  = (Val 8,
     add_ui sample_state
       [E_proto_tree_add_item n_spdy_tree hf_spdy_num_settings 8 4;
        E_proto_item_append_text n_spdy_tree " [" [];
        E_proto_tree_add_item n_spdy_tree hf_spdy_setting 12 8;
        E_proto_tree_add_item n_setting_tree hf_spdy_flags 12 1;
        E_proto_tree_add_item n_setting_flags_tree
          hf_spdy_flags_persist_value 12 1;
        E_proto_tree_add_item n_setting_flags_tree hf_spdy_flags_persisted
          12 1;
        E_proto_tree_add_item n_setting_tree hf_spdy_setting_id 13 3;
        E_proto_item_append_text n_spdy_tree "%s"
          [ALit "INITIAL_WINDOW_SIZE"];
        E_proto_tree_add_item n_setting_tree hf_spdy_setting_value 16 4;
        E_proto_item_append_text n_spdy_tree "]" []]).
Proof. repeat split; vm_compute; reflexivity. Qed.


(** C9, counterexample.  With an inflater that finds the input corrupt, a
    SYN_REPLY frame is followed by a NOOP frame in a buffer of 97 bytes:
    the header block of the first frame comes back null, the failure is
    reported, and the driver returns 0; the NOOP frame behind the failed
    frame is not dissected. *)
Lemma C9_counterexample :
  exists d',
    dissect_spdy broken_zlib sample_host sample_prefs syn_reply_then_noop
      false broken_driver_state = Some (Val 0, d') /\
    len syn_reply_then_noop = 97 /\
    control_frame_at syn_reply_then_noop 89 3 SPDY_NOOP 0 0 /\
    d_ui d' =
      [E_col_set_str COL_PROTOCOL "SPDY"; E_col_add_str COL_INFO "SYN_REPLY";
       E_col_append_fstr COL_INFO "[%u]" [AInt 1];
       E_inflate rply_decompressor Z_DATA_ERROR;
       E_expert_add_info_format n_spdy_tree PI_UNDECODED PI_ERROR
         "Inflation failed. Aborting." []].
Proof.
  eexists. split; [vm_compute; reflexivity|].
  split; [reflexivity|].
  split; [repeat split; vm_compute; congruence|].
  vm_compute. reflexivity.
Qed.

(** C9, witness: with an inflater that takes the dictionary and then finds
    the input corrupt, the header block of the SYN_REPLY frame comes back
    null after three calls, and the frame's header processing reports the
    failure and returns -1; with an inflater that finds the input corrupt
    at once, the driver stops at the SYN_REPLY frame. *)
Lemma C9_decompression_failure_witness :
  (exists s1,
     spdy_decompress_header_block corrupt_zlib syn_reply_frame
       rply_decompressor (dictionary_id (conv corrupt_state)) 12
       (to_guint32 77) corrupt_state = (Val None, s1) /\
     frame_header_plaintext corrupt_zlib syn_reply_frame 12 false 1
       SPDY_SYN_REPLY 77 corrupt_state
     = (Return (-1),
        add_ui s1
          [E_expert_add_info_format n_spdy_tree PI_UNDECODED PI_ERROR
             "Inflation failed. Aborting." []]) /\
     pfd (pinfo s1) = pfd (pinfo corrupt_state)) /\
  (exists s1 evs zevs,
     ui s1 = [] ++ zevs /\
     dissect_spdy_loop broken_zlib sample_host sample_prefs 1
       syn_reply_then_noop false 0 (len syn_reply_then_noop - 0)
       broken_driver_state
     = Some (Val 0,
             {| d_pinfo := sample_pinfo;
                d_conv := Some (conv s1);
                d_ui := [] ++ evs ++ zevs
                        ++ [E_expert_add_info_format n_spdy_tree
                              PI_UNDECODED PI_ERROR
                              "Inflation failed. Aborting." []] |}) /\
     zlib_calls evs = [] /\ dissector_calls evs = []).
Proof.
  split.
  - eexists.
    assert (Hrun :
      spdy_decompress_header_block corrupt_zlib syn_reply_frame
        rply_decompressor (dictionary_id (conv corrupt_state)) 12
        (to_guint32 77) corrupt_state = (Val None, _))
      by (vm_compute; reflexivity).
    split; [exact Hrun|].
    refine (proj2 (proj1 (C9_decompression_failure bool corrupt_zlib
                            sample_host sample_prefs)
                     syn_reply_frame 12 false 1 SPDY_SYN_REPLY 77
                     rply_decompressor corrupt_state None _ _ _ Hrun)
              eq_refl); reflexivity.
  - eexists.
    assert (Hframe :
      control_frame_at syn_reply_then_noop 0 3 SPDY_SYN_REPLY 0 81)
      by (repeat split; vm_compute; congruence).
    assert (Hversion : MIN_SPDY_VERSION <= 3) by (vm_compute; congruence).
    assert (Hfits : (if SPDY_SYN_REPLY =? SPDY_SYN_STREAM then 10 else 8)
                    <= 81) by (vm_compute; congruence).
    assert (Hw : tvb_get_ntohl syn_reply_then_noop (0 + 8) = Some 1)
      by (vm_compute; reflexivity).
    assert (Hrun :
      spdy_decompress_header_block broken_zlib syn_reply_then_noop
        rply_decompressor
        (dictionary_id
           (get_or_create_spdy_conversation_data broken_zlib sample_prefs
              (d_conv broken_driver_state)))
        (header_block_offset 0 SPDY_SYN_REPLY)
        (to_guint32 (81 + 8 - (header_block_offset 0 SPDY_SYN_REPLY - 0)))
        {| pinfo := d_pinfo broken_driver_state;
           conv := get_or_create_spdy_conversation_data broken_zlib
                     sample_prefs (d_conv broken_driver_state);
           ui := d_ui broken_driver_state |}
      = (Val None, _))
      by (vm_compute; reflexivity).
    exact (proj2 (C9_decompression_failure unit broken_zlib sample_host
                    sample_prefs)
             syn_reply_then_noop 0 false 3 SPDY_SYN_REPLY 0 81 O
             broken_driver_state 1 rply_decompressor _ Hframe Hversion
             (or_intror (or_introl eq_refl)) Hfits eq_refl Hw eq_refl
             eq_refl Hrun).
Defined.





(** ** The further properties on the sample inputs *)

(** X3, witness: stream 1 of a fresh conversation. *)
Lemma save_then_get_stream_info_witness :
  exists s',
    spdy_save_stream_info 1 (Some (lit "text/plain")) None None sample_state
    = (Val tt, s') /\
    spdy_get_num_data_frames (conv s') 1 = 0 /\
    spdy_get_stream_info (conv s') 0 = None.
Proof.
  destruct (save_then_get_stream_info bool 1 (Some (lit "text/plain")) None
              None sample_state) as (s' & H1 & _ & H2 & H3 & _);
    [lia|vm_compute; reflexivity|].
  exists s'. split; [exact H1|]. split; [exact H2|].
  rewrite (H3 0) by lia. vm_compute. reflexivity.
Defined.

(** X4, witness: stream 1 has a record already. *)
Lemma save_stream_info_twice_witness :
  spdy_save_stream_info 1 (Some (lit "text/html")) None None
    (state_with_stream sample_pinfo plain_info)
  = (Raise DissectorError, state_with_stream sample_pinfo plain_info).
Proof.
  apply (save_stream_info_twice bool 1 (Some (lit "text/html")) None None
           (state_with_stream sample_pinfo plain_info) plain_info);
    [lia|vm_compute; reflexivity].
Defined.

(** X5, witness: a second chunk for stream 1. *)
Lemma data_chunk_count_witness :
  spdy_get_num_data_frames
    (conv (state_with_stream sample_pinfo one_chunk_info)) 1 = 1 /\
  spdy_get_num_data_frames
    (spdy_add_data_chunk
       (conv (state_with_stream sample_pinfo one_chunk_info)) 1 2 lo 2) 1
  = 2.
Proof.
  destruct (data_chunk_count bool
              (conv (state_with_stream sample_pinfo one_chunk_info)) 1
              one_chunk_info 2 lo 2)
    as (H0 & (si1 & H1 & H2 & _) & _);
    try (vm_compute; reflexivity); try (vm_compute; discriminate).
  split; [exact H0|].
  unfold spdy_get_num_data_frames. rewrite H1. exact H2.
Defined.

(** X8, witness: the dispatch of the body "hello" of stream 1. *)
Lemma body_kept_after_dispatch_witness :
  exists changed s' si',
    data_dispatch sample_host 1 assembled_info (Some hello) (Some lo)
      (state_with_stream second_pinfo assembled_info) = (Val changed, s') /\
    spdy_get_stream_info (conv s') 1 = Some si' /\
    si_assembled_data si' = Some hello /\
    map df_data (si_data_frames si') = [None; None].
Proof.
  destruct (body_kept_after_dispatch bool sample_host sample_prefs 1
              assembled_info hello (Some hello) (Some lo)
              (state_with_stream second_pinfo assembled_info))
    as (changed & s' & si' & H1 & H2 & _ & H3 & _);
    try (vm_compute; reflexivity).
  exists changed, s', si'. split; [exact H1|]. split; [exact H2|].
  split; [exact H3|].
  assert (Hrun :
    exists c s0,
      data_dispatch sample_host 1 assembled_info (Some hello) (Some lo)
        (state_with_stream second_pinfo assembled_info) = (Val c, s0) /\
      option_map (fun si => map df_data (si_data_frames si))
        (spdy_get_stream_info (conv s0) 1) = Some [None; None]).
  { eexists _, _. split; vm_compute; reflexivity. }
  destruct Hrun as (c & s0 & Hr & Hm).
  rewrite Hr in H1. injection H1 as _ <-.
  rewrite H2 in Hm. cbn [option_map] in Hm. now injection Hm.
Defined.

(** X10, witness: ten bytes of a DATA frame of length 200. *)
Lemma heur_drops_need_more_witness :
  dissect_spdy_heur toy_zlib sample_host sample_prefs partial_data_frame
    false sample_driver_state = Some (Val false, sample_driver_state).
Proof.
  apply (heur_drops_need_more bool toy_zlib sample_host sample_prefs
           partial_data_frame false sample_driver_state);
    [vm_compute; reflexivity|].
  right. exists 208. split; vm_compute; reflexivity.
Defined.

(** X12, witness: a NOOP frame. *)
Lemma control_frame_payload_ignored_witness :
  exists evs,
    emits (call (dissect_spdy_frame toy_zlib sample_host sample_prefs
                   noop_frame 0 true))
      (Val (0 + 8)) evs /\
    forallb header_event evs = true.
Proof.
  apply (control_frame_payload_ignored bool toy_zlib sample_host sample_prefs
           noop_frame 0 true 3 SPDY_NOOP 0 0);
    [repeat split; vm_compute; congruence|vm_compute; congruence|now left].
Defined.

(** X13, witness: the control frame with the type code 0. *)
Lemma control_frame_type_zero_witness :
  exists evs,
    emits (call (dissect_spdy_frame toy_zlib sample_host sample_prefs
                   type_zero_frame 0 false))
      (Val (-1))
      (evs ++ [E_expert_add_info_format n_spdy_tree PI_MALFORMED PI_ERROR
                 "Unhandled SPDY frame type: %d" [AInt 0]]) /\
    forallb header_event evs = true.
Proof.
  apply (control_frame_type_zero bool toy_zlib sample_host sample_prefs
           type_zero_frame 0 false 3 0 0 0);
    [repeat split; vm_compute; congruence|vm_compute; congruence
    |reflexivity].
Defined.

(** X14, witness: an offset behind the end of a NOOP frame. *)
Lemma frame_too_short_witness :
  emits (call (dissect_spdy_frame toy_zlib sample_host sample_prefs
                 noop_frame 20 true))
    (Val (-1))
    [E_expert_add_info_format n_tree PI_MALFORMED PI_ERROR
       "Reported length remaining too small (%d < 8)"
       [AInt (tvb_length_remaining noop_frame 20)]].
Proof.
  apply (frame_too_short bool toy_zlib sample_host sample_prefs noop_frame 20
           true).
  vm_compute. reflexivity.
Defined.

(** X15, witness: two NOOP frames. *)
Lemma driver_consumes_plain_frames_witness :
  exists d' evs,
    dissect_spdy toy_zlib sample_host sample_prefs two_noop_frames true
      sample_driver_state = Some (Val 16, d') /\
    d_pinfo d' = sample_pinfo /\
    d_ui d' = [] ++ evs /\
    frames_trace toy_zlib sample_host sample_prefs two_noop_frames true 0
      [0; 0] evs /\
    d_conv d'
    = Some (get_or_create_spdy_conversation_data toy_zlib sample_prefs None).
Proof.
  apply (driver_consumes_plain_frames bool toy_zlib sample_host sample_prefs
           two_noop_frames true sample_driver_state [0; 0]).
  cbn [plain_frames_upto]. split; [|split; [|reflexivity]];
    exists 3, SPDY_NOOP, 0;
    (split; [repeat split; vm_compute; congruence|]);
    (split; [vm_compute; congruence|now left]).
Defined.

(** X16, witness: two pairs behind a count of 2, read with a count of 5. *)
Lemma header_loop_decodes_witness :
  exists evs,
    emits (zs:=bool)
      (header_loop (2 + 3) (be32 2 ++ encode_headers sample_pairs ++ []) 4
         false no_headers)
      (Val {| hdr_verb := None; hdr_url := Some (lit "/index");
              hdr_version := None;
              content_type := Some (lit "text/plain");
              content_encoding := None |})
      evs /\
    (false = false -> evs = []).
Proof.
  apply (header_loop_decodes bool sample_pairs (be32 2) [] false no_headers
           3%nat).
  - repeat constructor; vm_compute; reflexivity.
  - now right.
Defined.

(** X17, witness: the SETTINGS payload of length 8 with one entry. *)
Lemma settings_entries_shown_witness :
  exists evs,
    emits (zs:=bool)
      (dissect_spdy_settings_payload settings_length_8_one_entry 8 8 true)
      (Return 8) evs /\
    setting_items evs = [(12, 8)].
Proof.
  apply (settings_entries_shown bool settings_length_8_one_entry 8 8 true 1);
    try (vm_compute; reflexivity); try (vm_compute; discriminate).
Defined.

(** X18, witness: the DATA frame "hel" behind a NOOP frame answers 19. *)
Lemma data_frame_without_fin_witness :
  exists s' evs,
    call (dissect_spdy_frame toy_zlib sample_host sample_prefs noop_then_data
            8 false)
      (state_with_stream sample_pinfo plain_info)
    = (Val (8 + 8 + 3), s') /\
    pinfo s' = sample_pinfo /\ ui s' = [] ++ evs /\
    dissector_calls evs = [].
Proof.
  apply (data_frame_without_fin bool toy_zlib sample_host sample_prefs
           noop_then_data 8 false 1 0 3
           (state_with_stream sample_pinfo plain_info));
    [repeat split; vm_compute; congruence|reflexivity].
Defined.

(** X19, witness: the driver stops at offset 8 of the same buffer. *)
Lemma driver_stops_at_data_frame_witness :
  exists d' evs,
    dissect_spdy toy_zlib sample_host sample_prefs noop_then_data false
      sample_driver_state = Some (Val 8, d') /\
    8 < len noop_then_data /\
    d_pinfo d' = sample_pinfo /\
    d_ui d' = [] ++ evs /\
    In (E_col_add_fstr COL_INFO "DATA[%u] length=%d" [AInt 1; AInt 3]) evs.
Proof.
  apply (driver_stops_at_data_frame bool toy_zlib sample_host sample_prefs
           noop_then_data false sample_driver_state [0] 8 1 0 3);
    [|lia|repeat split; vm_compute; congruence|reflexivity].
  cbn [plain_frames_upto]. split; [|reflexivity].
  exists 3, SPDY_NOOP, 0.
  split; [repeat split; vm_compute; congruence|].
  split; [vm_compute; congruence|now left].
Defined.

(** X20, witness: a DATA frame with FIN in a fresh conversation. *)
Lemma data_without_stream_record_witness :
  exists evs,
    dissect_spdy_data_payload sample_host sample_prefs data_fin_frame 8 true
      true true 1 SPDY_FLAG_FIN 5 sample_state
    = (Val 5, add_ui sample_state evs) /\
    dissector_calls evs = [].
Proof.
  apply (data_without_stream_record bool sample_host sample_prefs
           data_fin_frame 8 true 1 SPDY_FLAG_FIN 5 sample_state);
    try lia; vm_compute; try reflexivity; discriminate.
Defined.

(** X21, witness: stream 1, status 5: the status shown is the word 1. *)
Lemma rst_stream_status_word_witness :
  exists evs,
    forallb header_event evs = true /\
    emits (call (dissect_spdy_frame toy_zlib sample_host sample_prefs
                   rst_stream_frame 0 false))
      (Val (8 + 8))
      (evs ++ [E_col_append_fstr COL_INFO "[%d]" [AInt 1]] ++ []
       ++ [E_col_append_fstr COL_INFO " %s" [ALit "PROTOCOL_ERROR"]]).
Proof.
  destruct (rst_stream_status_word bool toy_zlib sample_host sample_prefs
              rst_stream_frame 0 false 3 SPDY_RST_STREAM 0 8)
    as (evs & Hh & He);
    [repeat split; vm_compute; congruence|vm_compute; congruence
    |reflexivity|].
  exists evs. split; [exact Hh|].
  change (tvb_get_ntohl rst_stream_frame (0 + 8)) with (Some 1) in He.
  exact He.
Defined.

(** X22, witness: the PING frame with the id 7. *)
Lemma ping_id_word_witness :
  exists evs,
    forallb header_event evs = true /\
    emits (call (dissect_spdy_frame toy_zlib sample_host sample_prefs
                   ping_frame 0 false))
      (Val (4 + 8))
      (evs ++ [E_col_append_fstr COL_INFO " ID=%u" [AInt 7]]).
Proof.
  destruct (ping_id_word bool toy_zlib sample_host sample_prefs ping_frame 0
              false 3 SPDY_PING 0 4)
    as (evs & Hh & He);
    [repeat split; vm_compute; congruence|vm_compute; congruence
    |reflexivity|].
  exists evs. split; [exact Hh|].
  change (tvb_get_ntohl ping_frame (0 + 8)) with (Some 7) in He.
  exact He.
Defined.

(** X23, witness: the SYN_REPLY frame when header decompression is off. *)
Lemma header_frame_not_decompressed_witness :
  exists evs,
    emits (call (dissect_spdy_frame toy_zlib sample_host headers_off_prefs
                   syn_reply_frame 0 false))
      (Val (81 + 8))
      (evs ++ [] ++ [E_col_append_fstr COL_INFO "[%u]" [AInt 1]] ++ []) /\
    forallb header_event evs = true.
Proof.
  destruct (header_frame_not_decompressed bool toy_zlib sample_host
              headers_off_prefs syn_reply_frame 0 false 3 SPDY_SYN_REPLY 0 81)
    as (evs & w & Hw & He & Hh & _);
    [repeat split; vm_compute; congruence|vm_compute; congruence
    |reflexivity|now left|lia|].
  exists evs. split; [|exact Hh].
  assert (Hw1 : w = 1).
  { assert (H : tvb_get_ntohl syn_reply_frame (0 + 8) = Some 1)
      by (vm_compute; reflexivity).
    rewrite H in Hw. now injection Hw. }
  subst w. exact He.
Defined.

(** X24, witness: the SYN_REPLY frame of stream 1 on its first visit. *)
Lemma header_frame_saves_stream_info_witness :
  exists s',
    frame_headers toy_zlib sample_prefs syn_reply_frame 12 0 false
      SPDY_SYN_REPLY 1 81 sample_state = (Return (8 + 81), s') /\
    spdy_get_stream_info (conv s') 1 = Some plain_info.
Proof.
  assert (Hrun : exists s1,
    frame_header_plaintext toy_zlib syn_reply_frame 12 false 1 SPDY_SYN_REPLY
      (81 + 8 - (12 - 0)) sample_state
    = (Val (be32 (len syn_reply_pairs) ++ encode_headers syn_reply_pairs
            ++ []), s1) /\
    fd_visited (pinfo s1) = false /\
    spdy_get_stream_info (conv s1) 1 = None).
  { eexists. split; [vm_compute; reflexivity|].
    split; vm_compute; reflexivity. }
  destruct Hrun as (s1 & Hplain & Hvis & Hnone).
  assert (Hok : Forall (fun p : list byte * list byte =>
                          len (fst p) < 2 ^ 31 /\ len (snd p) < 2 ^ 31)
                  syn_reply_pairs)
    by (repeat constructor; vm_compute; reflexivity).
  assert (Hcount : len syn_reply_pairs <= 81) by (vm_compute; discriminate).
  assert (Hmax : 81 < 2 ^ 24) by (vm_compute; reflexivity).
  assert (Hct :
    content_type
      (fold_left
         (fun h p => remember_header h (c_str (fst p)) (c_str (snd p)))
         syn_reply_pairs no_headers) = Some (lit "text/plain"))
    by (vm_compute; reflexivity).
  destruct (header_frame_saves_stream_info bool toy_zlib sample_prefs
              syn_reply_frame 12 0 SPDY_SYN_REPLY 1 81 syn_reply_pairs []
              sample_state s1 (lit "text/plain") eq_refl
              (or_intror (or_introl eq_refl)) Hplain Hok Hcount Hmax Hct
              ltac:(lia) Hvis Hnone)
    as (s' & Hframe & Hget & _).
  exists s'. split; [exact Hframe|]. rewrite Hget. vm_compute. reflexivity.
Defined.

(** X25, witness: 200 pairs announced in a frame of length 8, with a
    tree. *)
Lemma header_count_too_large_witness :
  exists s1,
    frame_headers toy_zlib sample_prefs syn_reply_many 12 0 true
      SPDY_SYN_REPLY 1 8 sample_state
    = (Return (8 + 8),
       add_ui s1
         ([E_proto_tree_add_item n_spdy_tree hf_spdy_num_headers 0 4]
          ++ [E_expert_add_info_format n_spdy_tree PI_MALFORMED PI_ERROR
                "Number of headers is greater than frame length!" []]
          ++ [E_proto_item_append_text n_ti
                " [Error: Number of headers is larger than frame length]" []]
          ++ [E_col_append_fstr COL_INFO "%s[%u]"
                [ALit "SYN_REPLY"; AInt 1]])).
Proof.
  assert (Hrun : exists s1,
    frame_header_plaintext toy_zlib syn_reply_many 12 true 1 SPDY_SYN_REPLY
      (8 + 8 - (12 - 0))
      (add_ui sample_state
         [E_proto_tree_add_item n_spdy_tree hf_spdy_header_block 12
            (8 + 8 - (12 - 0))])
    = (Val (be32 200), s1)).
  { eexists. vm_compute. reflexivity. }
  destruct Hrun as (s1 & Hplain).
  exists s1.
  exact (header_count_too_large bool toy_zlib sample_prefs syn_reply_many 12
           0 true SPDY_SYN_REPLY 1 8 (be32 200) 200 sample_state s1 eq_refl
           (or_intror (or_introl eq_refl)) (fun _ => eq_refl) Hplain eq_refl
           eq_refl).
Defined.

(** X26, witness: a name of 9 bytes announced, one byte left. *)
Lemma header_loop_truncated_witness :
  emits (zs:=bool) (header_loop 1 ([] ++ be32 9 ++ [x61]) 0 false no_headers)
    (Raise ReportedBoundsError) [].
Proof.
  apply (header_loop_truncated bool [] [x61] 9 O false no_headers);
    [lia|intros _; vm_compute; reflexivity].
Defined.

(** X27, witness: "lo" with FIN in packet 2 after "hel" in packet 1, with
    a tree. *)
Lemma last_data_frame_assembled_witness :
  exists s' evs si',
    dissect_spdy_data_payload sample_host sample_prefs data_fin_lo_frame 8
      true true true 1 1 2
      (state_with_stream second_pinfo one_chunk_info) = (Val 2, s') /\
    ui s' = [] ++ evs /\
    In (E_add_new_data_source hello "Assembled entity body") evs /\
    spdy_get_stream_info (conv s') 1 = Some si' /\
    si_assembled_data si' = Some hello /\
    Forall (fun df => df_data df = None) (si_data_frames si').
Proof.
  assert (Hasm : spdy_assemble_entity_bodies sample_prefs = true)
    by reflexivity.
  assert (Hfirst :
    fd_visited (pinfo (state_with_stream second_pinfo one_chunk_info))
    = false) by reflexivity.
  assert (Hlen : 0 < 2) by lia.
  assert (Hsub : tvb_new_subset data_fin_lo_frame 8 2 = Some lo)
    by (vm_compute; reflexivity).
  assert (Hfin : Z.land 1 SPDY_FLAG_FIN <> 0) by (vm_compute; discriminate).
  assert (Hsi :
    spdy_get_stream_info
      (conv (state_with_stream second_pinfo one_chunk_info)) 1
    = Some one_chunk_info) by (vm_compute; reflexivity).
  assert (Hnone : si_assembled_data one_chunk_info = None) by reflexivity.
  assert (Henc : si_content_encoding one_chunk_info = None) by reflexivity.
  assert (Hnum : 0 < si_num_data_frames one_chunk_info)
    by (vm_compute; reflexivity).
  assert (Hintact : Forall chunk_intact (si_data_frames one_chunk_info)).
  { constructor; [|constructor]. exists hel. cbn. repeat split; lia. }
  assert (Hmax :
    len (chunk_bytes (si_data_frames one_chunk_info)) + 2 < 2 ^ 32)
    by (vm_compute; reflexivity).
  destruct (last_data_frame_assembled bool sample_host sample_prefs
              data_fin_lo_frame 8 true true true 1 1 2
              (state_with_stream second_pinfo one_chunk_info)
              one_chunk_info lo
              Hasm Hfirst Hlen Hsub Hfin Hsi Hnone Henc Hnum Hintact Hmax)
    as (s' & evs & si' & ms & H1 & H2 & H3 & _ & H5 & H6 & H7 & _).
  exists s', evs, si'.
  split; [exact H1|]. split; [exact H2|]. split; [exact H3|].
  split; [exact H5|]. split; [exact H6|exact H7].
Defined.
